(** * Canvas assignment tracker: the aggregation pipeline

    A shallow embedding of [lessAIcodeGUIbetter.py]: the paginated fetcher
    [get_all_pages], the due-date normalizer [parse_due_date] and the
    worker [fetch_assignments_thread], together with the properties the
    specification states about them.

    Conventions of the embedding.
    - Decoded JSON is the inductive [json]; a Python [dict] is an
      association list with distinct keys, looked up from the left.
    - Instants are integers: microseconds since 1970-01-01T00:00:00.
    - A Python [str] is the string of the bytes of its UTF-8 encoding.
    - Every widget operation, every [requests.get] and every reading of the
      system clock is an [event]; a computation reads the events that
      happened so far and returns the events it adds.
    - Python exceptions are values of [exn]; the [while] loop of
      [get_all_pages] takes fuel, and running out of it is the outcome
      [OutOfFuel], which no [except] clause catches.
    - Two library functions are parameters of the development:
      [datetime.fromisoformat] and the builtin [str] on decoded values.
      A reference instance of each is given for running examples.
    - A label keeps what it shows as data (course, assignment, local due
      datetime, days and hours remaining) instead of the formatted text,
      and the percentage of the progress label, a floating-point
      quotient, is kept symbolic. *)

From Stdlib Require Import String Ascii List ZArith Lia Bool Arith.
From Stdlib Require Import Sorted Permutation DecimalString.
Import ListNotations.

Local Open Scope string_scope.
Local Open Scope list_scope.
Local Open Scope Z_scope.

Set Implicit Arguments.
Set Warnings "-register-all".

(** ** Python strings *)

Module PyStr.

Fixpoint starts_with (p s : string) : bool :=
  match p, s with
  | EmptyString, _ => true
  | String a p', String b s' => Ascii.eqb a b && starts_with p' s'
  | String _ _, EmptyString => false
  end.

(** [replace_from old new s skip]: the characters of [s], the first
    [skip] of which belong to a match already replaced. *)
Fixpoint replace_from (old new s : string) (skip : nat) : string :=
  match s with
  | EmptyString => EmptyString
  | String c s' =>
      match skip with
      | S k => replace_from old new s' k
      | O =>
          if starts_with old s
          then (new ++ replace_from old new s' (Nat.pred (String.length old)))%string
          else String c (replace_from old new s' 0)
      end
  end.

Fixpoint intersperse (new s : string) : string :=
  match s with
  | EmptyString => EmptyString
  | String c s' => String c (new ++ intersperse new s')%string
  end.

(** [s.replace(old, new)]: every non-overlapping occurrence, left to
    right; an empty [old] matches between any two characters. *)
Definition replace (s old new : string) : string :=
  match old with
  | EmptyString => (new ++ intersperse new s)%string
  | String _ _ => replace_from old new s 0
  end.

(** ASCII white space. *)
Definition is_space (c : ascii) : bool :=
  let n := nat_of_ascii c in
  ((9 <=? n) && (n <=? 13) || (28 <=? n) && (n <=? 32))%nat.

(** A string is the UTF-8 encoding of a Python [str]: a character is a
    byte that is no continuation byte, followed by its continuation
    bytes (those from 128 to 191). *)
Definition is_continuation (c : ascii) : bool :=
  let n := nat_of_ascii c in
  ((128 <=? n) && (n <? 192))%nat.

(** The characters of a string, each one the string of its bytes. *)
Definition starts_with_continuation (s : string) : bool :=
  match s with
  | String c _ => is_continuation c
  | EmptyString => false
  end.

Fixpoint code_points (s : string) : list string :=
  match s with
  | EmptyString => []
  | String c s' =>
      match code_points s' with
      | ch :: rest =>
          if starts_with_continuation s' then String c ch :: rest
          else String c EmptyString :: ch :: rest
      | [] => [String c EmptyString]
      end
  end.

Definition bytes (l : list nat) : string :=
  fold_right (fun n s => String (ascii_of_nat n) s) EmptyString l.

(** The white space beyond ASCII: U+0085, U+00A0, U+1680, U+2000 to
    U+200A, U+2028, U+2029, U+202F, U+205F and U+3000. *)
Definition unicode_spaces : list string :=
  map bytes
      [[194; 133]; [194; 160]; [225; 154; 128];
       [226; 128; 128]; [226; 128; 129]; [226; 128; 130]; [226; 128; 131];
       [226; 128; 132]; [226; 128; 133]; [226; 128; 134]; [226; 128; 135];
       [226; 128; 136]; [226; 128; 137]; [226; 128; 138];
       [226; 128; 168]; [226; 128; 169]; [226; 128; 175];
       [226; 129; 159]; [227; 128; 128]]%nat.

(** The characters [str.strip()] removes: those of [str.isspace]. *)
Definition is_whitespace (ch : string) : bool :=
  match ch with
  | String c EmptyString => is_space c
  | _ => existsb (String.eqb ch) unicode_spaces
  end.

Fixpoint drop_spaces (chs : list string) : list string :=
  match chs with
  | ch :: rest => if is_whitespace ch then drop_spaces rest else chs
  | [] => []
  end.

Definition lstrip (s : string) : string :=
  String.concat EmptyString (drop_spaces (code_points s)).

Definition rstrip (s : string) : string :=
  String.concat EmptyString (rev (drop_spaces (rev (code_points s)))).

(** [s.strip()]: white space removed from both ends. *)
Definition strip (s : string) : string :=
  String.concat EmptyString
    (rev (drop_spaces (rev (drop_spaces (code_points s))))).

Fixpoint chars (s : string) : list string :=
  match s with
  | EmptyString => []
  | String c s' => String c EmptyString :: chars s'
  end.

Fixpoint contains_char (c : ascii) (s : string) : bool :=
  match s with
  | EmptyString => false
  | String b s' => Ascii.eqb c b || contains_char c s'
  end.

End PyStr.

(** ** Decoded JSON values *)

Inductive json : Type :=
| JNull
| JBool (b : bool)
| JNum (n : Z)
| JStr (s : string)
| JArr (items : list json)
| JObj (fields : list (string * json)).

Fixpoint assoc (A : Type) (k : string) (l : list (string * A)) : option A :=
  match l with
  | [] => None
  | (k', v) :: l' => if String.eqb k k' then Some v else assoc k l'
  end.

Definition type_name (j : json) : string :=
  match j with
  | JNull => "NoneType"
  | JBool _ => "bool"
  | JNum _ => "int"
  | JStr _ => "str"
  | JArr _ => "list"
  | JObj _ => "dict"
  end.

Definition is_None (j : json) : bool :=
  match j with JNull => true | _ => false end.

(** ** Exceptions and outcomes *)

(** Exceptions raised by the interpreter and the standard library. *)
Inductive builtin_exn : Type :=
| KeyError (key : string)
| TypeError (what : string)
| AttributeError (type attr : string)
| ValueError (what : string)
| OverflowError (what : string).

(** [HTTPError] is the one class the worker's first [except] names.
    [ConnectionError] stands for what [requests.get] itself raises when
    it returns no response (no connection, a timeout, a URL it cannot
    use), and [JSONDecodeError] is what [r.json()] raises on a payload
    that is not JSON; neither is an [HTTPError], and the worker treats
    both like any other exception. *)
Inductive exn : Type :=
| HTTPError (status : Z) (url : string)
| ConnectionError
| Builtin (e : builtin_exn)
| JSONDecodeError.

Definition is_HTTPError (e : exn) : bool :=
  match e with HTTPError _ _ => true | _ => false end.

(** Pure code that may raise. *)
Definition pure_result (A : Type) : Type := (builtin_exn + A)%type.

Definition pbind (A B : Type) (m : pure_result A) (f : A -> pure_result B)
  : pure_result B :=
  match m with
  | inl e => inl e
  | inr a => f a
  end.

Declare Scope pure_scope.
Delimit Scope pure_scope with pure.
Notation "x <- m ;; k" := (pbind m (fun x => k))
  (at level 61, m at next level, right associativity) : pure_scope.

(** [j[k]] *)
Definition getitem (j : json) (k : string) : pure_result json :=
  match j with
  | JObj fields =>
      match assoc k fields with
      | Some v => inr v
      | None => inl (KeyError k)
      end
  | JArr _ | JStr _ => inl (TypeError "indices must be integers")
  | _ => inl (TypeError "object is not subscriptable")
  end.

(** [j.get(k, default)] *)
Definition get_method (j : json) (k : string) (default : json)
  : pure_result json :=
  match j with
  | JObj fields =>
      match assoc k fields with
      | Some v => inr v
      | None => inr default
      end
  | _ => inl (AttributeError (type_name j) "get")
  end.

(** Iterating over a decoded body, as [list.extend] does. *)
Definition py_iter (j : json) : pure_result (list json) :=
  match j with
  | JArr items => inr items
  | JObj fields => inr (map (fun kv => JStr (fst kv)) fields)
  | JStr s => inr (map JStr (PyStr.chars s))
  | _ => inl (TypeError "object is not iterable")
  end.

(** ** Dates and times *)

(** A [datetime]: the wall-clock reading in microseconds since the epoch
    and, for an aware one, its offset from UTC in microseconds. *)
Inductive datetime : Type :=
| Naive (wall : Z)
| Aware (wall : Z) (utcoffset : Z).

Definition usec_per_second : Z := 1000000.
Definition usec_per_hour : Z := 3600 * usec_per_second.
Definition usec_per_day : Z := 86400 * usec_per_second.

Definition wall_of (d : datetime) : Z :=
  match d with Naive w => w | Aware w _ => w end.

(** The absolute instant of an aware datetime. *)
Definition utc_of (wall off : Z) : Z := wall - off.

Definition is_aware (d : datetime) : bool :=
  match d with Aware _ _ => true | Naive _ => false end.

Definition mixed_comparison : builtin_exn :=
  TypeError "can't compare offset-naive and offset-aware datetimes".

(** [a >= b] *)
Definition dt_ge (a b : datetime) : pure_result bool :=
  match a, b with
  | Aware wa oa, Aware wb ob => inr (utc_of wb ob <=? utc_of wa oa)
  | Naive wa, Naive wb => inr (wb <=? wa)
  | _, _ => inl mixed_comparison
  end.

(** [a < b] *)
Definition dt_lt (a b : datetime) : pure_result bool :=
  match a, b with
  | Aware wa oa, Aware wb ob => inr (utc_of wa oa <? utc_of wb ob)
  | Naive wa, Naive wb => inr (wa <? wb)
  | _, _ => inl mixed_comparison
  end.

(** A [timedelta], normalised as Python keeps it: [0 <= seconds < 86400]
    and [0 <= microseconds < 1000000]; only [days] carries the sign. *)
Record timedelta : Type := {
  days : Z;
  seconds : Z;
  microseconds : Z
}.

Definition timedelta_of_usec (us : Z) : timedelta :=
  {| days := us / usec_per_day;
     seconds := (us mod usec_per_day) / usec_per_second;
     microseconds := us mod usec_per_second |}.

(** The readings a [datetime] can hold: from 0001-01-01T00:00:00 to
    9999-12-31T23:59:59.999999. *)
Definition datetime_min : Z := -62135596800000000.
Definition datetime_max : Z := 253402300799999999.

Definition in_range (wall : Z) : bool :=
  (datetime_min <=? wall) && (wall <=? datetime_max).

(** [a - b] for two datetimes that carry the same [tzinfo] object: the
    offsets are ignored and the wall-clock readings subtracted. *)
Definition dt_sub_same_tz (a b : datetime) : timedelta :=
  timedelta_of_usec (wall_of a - wall_of b).

(** [strftime("%A")] as an index into Monday .. Sunday; the epoch fell on
    a Thursday. *)
Definition weekday_index (d : datetime) : nat :=
  Z.to_nat ((wall_of d / usec_per_day + 3) mod 7).

(** ** Requests, responses and the events of a run *)

Record request : Type := {
  url : string;
  headers : list (string * string);
  params : option (list (string * string))
}.

(** A response as the fetcher reads it: [status_code]; [body], what
    [json()] decodes the payload to, [None] when the payload is not
    JSON; and [links], the relation-to-URL table of the Link header. *)
Record response : Type := {
  status_code : Z;
  body : option json;
  links : list (string * string)
}.

Inductive reply : Type :=
| Reply (r : response)
| Unreachable.

(** The text of the progress label: a literal, or the percentage
    [int((idx / max(total, 1)) * 100)], whose floating-point value is
    kept symbolic. *)
Inductive label_text : Type :=
| LitText (s : string)
| PercentOf (idx total : nat).

(** What a label placed in a tab shows. *)
Inductive label_content : Type :=
| DueItem (course_name assignment_name : json) (due_local : datetime)
          (days_remaining hours_remaining : Z)
| NoDueItem (course_name assignment_name : json)
| Placeholder (text : string).

(** The message of an error dialog: a literal, or [str(e)]. *)
Inductive error_message : Type :=
| Message (s : string)
| StrOf (e : exn).

Inductive event : Type :=
| EvButton (enabled : bool)            (* fetch_button.config(state=...) *)
| EvBarValue (v : nat)                 (* progress_bar["value"] = v *)
| EvBarMaximum (v : nat)               (* progress_bar["maximum"] = v *)
| EvProgressLabel (text : label_text)  (* progress_label.config(text=...) *)
| EvUpdateIdle                         (* app.update_idletasks() *)
| EvClearTab (tab : string)            (* destroy the children of a tab *)
| EvLog (msg : string)                 (* log_status(msg) *)
| EvStatusLabel (text : string)        (* status_label.config(text=...) *)
| EvRequest (r : request)              (* requests.get(...) *)
| EvNow                                (* datetime.now(...) *)
| EvLabel (tab : string) (content : label_content)
| EvShowError (title : string) (message : error_message). (* messagebox.showerror *)

Definition trace : Type := list event.

Fixpoint requests_of (t : trace) : list request :=
  match t with
  | [] => []
  | EvRequest r :: t' => r :: requests_of t'
  | _ :: t' => requests_of t'
  end.

Fixpoint clock_reads (t : trace) : nat :=
  match t with
  | [] => O
  | EvNow :: t' => S (clock_reads t')
  | _ :: t' => clock_reads t'
  end.

(** The calls of the progress sink: the label updates of the per-course
    block, each carrying (completed, total). *)
Fixpoint progress_calls (t : trace) : list (nat * nat) :=
  match t with
  | [] => []
  | EvProgressLabel (PercentOf idx total) :: t' => (idx, total) :: progress_calls t'
  | _ :: t' => progress_calls t'
  end.

Definition is_label (e : event) : bool :=
  match e with EvLabel _ _ => true | _ => false end.

Definition is_request (e : event) : bool :=
  match e with EvRequest _ => true | _ => false end.

(** What a run cannot control. *)
Record world : Type := {
  token_entry : string;                       (* the text of the token field *)
  server : list request -> request -> reply;  (* answer, given the requests so far *)
  clock : nat -> Z;                           (* k-th reading of the clock, UTC *)
  zoneinfo : string -> option (Z -> Z);       (* tz database: offset at an instant *)
  system_utcoffset : Z -> Z                   (* offset of the system zone *)
}.

(** ** Computations *)

Inductive outcome (A : Type) : Type :=
| Ok (a : A)
| Raise (e : exn)
| OutOfFuel.

Arguments Raise {A} e.
Arguments OutOfFuel {A}.

(** A computation sees the events so far and returns its outcome and the
    events it adds. *)
Definition M (A : Type) : Type := trace -> outcome A * list event.

Definition ret (A : Type) (a : A) : M A := fun _ => (Ok a, []).

Definition bind (A B : Type) (m : M A) (f : A -> M B) : M B :=
  fun t =>
    match m t with
    | (Ok a, e1) => let (r, e2) := f a (t ++ e1) in (r, e1 ++ e2)
    | (Raise e, e1) => (Raise e, e1)
    | (OutOfFuel, e1) => (OutOfFuel, e1)
    end.

Definition raise (A : Type) (e : exn) : M A := fun _ => (Raise e, []).
Arguments raise {A} e.

Definition out_of_fuel (A : Type) : M A := fun _ => (OutOfFuel, []).
Arguments out_of_fuel {A}.

Definition emit (e : event) : M unit := fun _ => (Ok tt, [e]).

Definition lift (A : Type) (p : pure_result A) : M A :=
  match p with
  | inl e => raise (Builtin e)
  | inr a => ret a
  end.

Declare Scope monad_scope.
Delimit Scope monad_scope with monad.
Notation "x <- m ;; k" := (bind m (fun x => k))
  (at level 61, m at next level, right associativity) : monad_scope.
Notation "m >> k" := (bind m (fun _ => k))
  (at level 61, right associativity) : monad_scope.

(** [try: m  except Exception as e: handler(e)] *)
Definition try_except (A : Type) (m : M A) (handler : exn -> M A) : M A :=
  fun t =>
    match m t with
    | (Raise e, e1) => let (r, e2) := handler e (t ++ e1) in (r, e1 ++ e2)
    | other => other
    end.

(** [try: m  finally: fin] *)
Definition try_finally (A : Type) (m : M A) (fin : M unit) : M A :=
  fun t =>
    match m t with
    | (OutOfFuel, e1) => (OutOfFuel, e1)
    | (r, e1) =>
        match fin (t ++ e1) with
        | (Ok _, e2) => (r, e1 ++ e2)
        | (Raise e, e2) => (Raise e, e1 ++ e2)
        | (OutOfFuel, e2) => (OutOfFuel, e1 ++ e2)
        end
    end.

Fixpoint for_each (A : Type) (f : A -> M unit) (l : list A) : M unit :=
  match l with
  | [] => ret tt
  | a :: l' => (f a >> for_each f l')%monad
  end.

(** ** The program *)

Definition BASE_URL : string := "https://canvas.sfu.ca/api/v1".

Definition day_tabs : list string :=
  ["Monday"; "Tuesday"; "Wednesday"; "Thursday"; "Friday"; "Saturday"; "Sunday"].

Definition all_tabs : list string := day_tabs ++ ["No Due Date"].

(** The names [strftime("%A")] prints. *)
Definition weekday_name (d : datetime) : string :=
  nth (weekday_index d)
      ["Monday"; "Tuesday"; "Wednesday"; "Thursday"; "Friday"; "Saturday"; "Sunday"]
      "".

(** A record of the merge buffer [all_assignments]. *)
Record assignment : Type := {
  course_name : json;
  assignment_name : json;
  due_at : json
}.

(** The dictionary [grouped]: day name to the texts collected for it. *)
Definition grouping : Type := list (string * list label_content).

Definition timezone_utc : Z -> Z := fun _ => 0.

Definition log_status (msg : string) : M unit := emit (EvLog msg).

(** Lines 131-135: the progress sink. *)
Definition report_progress (idx total : nat) : M unit :=
  (emit (EvBarValue idx) >>
   emit (EvProgressLabel (PercentOf idx total)) >>
   emit EvUpdateIdle)%monad.

(** The status codes [raise_for_status] rejects: 4xx and 5xx. *)
Definition is_error_status (code : Z) : bool :=
  (400 <=? code) && (code <? 600).

(** [r.raise_for_status()] *)
Definition raise_for_status (r : response) (u : string) : M unit :=
  if is_error_status (status_code r)
  then raise (HTTPError (status_code r) u)
  else ret tt.

(** [r.json()] *)
Definition response_json (r : response) : M json :=
  match body r with
  | Some j => ret j
  | None => raise JSONDecodeError
  end.

(** [grouped[day].append(x)] *)
Fixpoint bucket_append (day : string) (x : label_content) (g : grouping)
  : pure_result grouping :=
  match g with
  | [] => inl (KeyError day)
  | (d, items) :: g' =>
      if String.eqb day d then inr ((d, items ++ [x]) :: g')
      else (r <- bucket_append day x g' ;; inr ((d, items) :: r))%pure
  end.

(** [grouped[day]] *)
Definition bucket_get (day : string) (g : grouping)
  : pure_result (list label_content) :=
  match assoc day g with
  | Some items => inr items
  | None => inl (KeyError day)
  end.

(** Lines 125-129 for every [a in assignments]. *)
Fixpoint tag_assignments (cname : json) (assignments : list json)
         (all : list assignment) : pure_result (list assignment) :=
  match assignments with
  | [] => inr all
  | a :: rest =>
      (name <- getitem a "name" ;;
       due <- get_method a "due_at" JNull ;;
       tag_assignments cname rest
         (all ++ [{| course_name := cname;
                     assignment_name := name;
                     due_at := due |}]))%pure
  end.

Section Program.

(** [datetime.fromisoformat]; [None] stands for its [ValueError]. *)
Variable fromisoformat : string -> option datetime.

(** The builtin [str], as an f-string applies it to a decoded value. *)
Variable py_str : json -> string.

Variable w : world.

Definition requests_get (u : string) (hdrs : list (string * string))
           (ps : option (list (string * string))) : M response :=
  fun t =>
    let req := {| url := u; headers := hdrs; params := ps |} in
    match server w (requests_of t) req with
    | Reply r => (Ok r, [EvRequest req])
    | Unreachable => (Raise ConnectionError, [EvRequest req])
    end.

(** The [while url:] loop of [get_all_pages]; an empty string is as
    false as [None]. *)
Fixpoint get_all_pages_from (fuel : nat) (u : option string)
         (hdrs : list (string * string))
         (ps : option (list (string * string)))
         (results : list json) : M (list json) :=
  match u with
  | None => ret results
  | Some u' =>
      if String.eqb u' "" then ret results
      else
        match fuel with
        | O => out_of_fuel
        | S fuel' =>
            (r <- requests_get u' hdrs ps ;;
             raise_for_status r u' >>
             decoded <- response_json r ;;
             items <- lift (py_iter decoded) ;;
             match assoc "next" (links r) with
             | Some next =>
                 get_all_pages_from fuel' (Some next) hdrs None (results ++ items)
             | None =>
                 get_all_pages_from fuel' None hdrs ps (results ++ items)
             end)%monad
        end
  end.

Definition get_all_pages (fuel : nat) (u : string)
           (hdrs : list (string * string))
           (ps : option (list (string * string))) : M (list json) :=
  get_all_pages_from fuel (Some u) hdrs ps [].

Definition parse_due_date (due_str : json) : pure_result datetime :=
  match due_str with
  | JStr s =>
      match fromisoformat (PyStr.replace s "Z" "+00:00") with
      | Some d => inr d
      | None => inl (ValueError "Invalid isoformat string")
      end
  | other => inl (AttributeError (type_name other) "replace")
  end.

(** [datetime.now(tz)] *)
Definition datetime_now (tz : Z -> Z) : M datetime :=
  fun t =>
    let utc := clock w (clock_reads t) in
    (Ok (Aware (utc + tz utc) (tz utc)), [EvNow]).

(** Lines 138-141. *)
Definition local_tz : Z -> Z :=
  match zoneinfo w "America/Los_Angeles" with
  | Some tz => tz
  | None => timezone_utc
  end.

(** [d.astimezone(tz)]: [d] is taken to UTC and from there to [tz]; a
    naive [d] is read in the system zone. Either step raises
    [OverflowError] when it leaves the years 1 to 9999. *)
Definition astimezone (tz : Z -> Z) (d : datetime) : pure_result datetime :=
  let utc :=
    match d with
    | Aware wall off => utc_of wall off
    | Naive wall => utc_of wall (system_utcoffset w wall)
    end in
  if in_range utc && in_range (utc + tz utc)
  then inr (Aware (utc + tz utc) (tz utc))
  else inl (OverflowError "date value out of range").

(** The condition of the comprehension of lines 144-147. *)
Definition is_upcoming (now : datetime) (a : assignment) : pure_result bool :=
  if is_None (due_at a) then inr false
  else (d <- parse_due_date (due_at a) ;; dt_ge d now)%pure.

Fixpoint filter_upcoming (now : datetime) (all : list assignment)
  : pure_result (list assignment) :=
  match all with
  | [] => inr []
  | a :: rest =>
      (keep <- is_upcoming now a ;;
       kept <- filter_upcoming now rest ;;
       inr (if keep then a :: kept else kept))%pure
  end.

(** Line 148. *)
Definition no_due_of (all : list assignment) : list assignment :=
  filter (fun a => is_None (due_at a)) all.

(** [list.sort(key=...)]: the key of every element is computed first,
    then the keys are compared with [<]. The sort is stable; the stable
    insertion sort below returns what any stable sort returns. *)
Fixpoint sort_keys (l : list assignment)
  : pure_result (list (datetime * assignment)) :=
  match l with
  | [] => inr []
  | x :: l' =>
      (k <- parse_due_date (due_at x) ;;
       rest <- sort_keys l' ;;
       inr ((k, x) :: rest))%pure
  end.

Fixpoint insert_keyed (x : datetime * assignment)
         (l : list (datetime * assignment))
  : pure_result (list (datetime * assignment)) :=
  match l with
  | [] => inr [x]
  | y :: l' =>
      (lt <- dt_lt (fst y) (fst x) ;;
       if lt then (r <- insert_keyed x l' ;; inr (y :: r))
       else inr (x :: l))%pure
  end.

Fixpoint sort_keyed (l : list (datetime * assignment))
  : pure_result (list (datetime * assignment)) :=
  match l with
  | [] => inr []
  | x :: l' => (s <- sort_keyed l' ;; insert_keyed x s)%pure
  end.

Definition sort_by_due (l : list assignment) : pure_result (list assignment) :=
  (keyed <- sort_keys l ;;
   sorted <- sort_keyed keyed ;;
   inr (map snd sorted))%pure.

(** Lines 144-149: the sorted upcoming list and the no-due list. *)
Definition classify (now : datetime) (all : list assignment)
  : pure_result (list assignment * list assignment) :=
  (upcoming <- filter_upcoming now all ;;
   sorted <- sort_by_due upcoming ;;
   inr (sorted, no_due_of all))%pure.

(** Lines 157-168 for one item. *)
Definition group_item (item : assignment) (g : grouping) : M grouping :=
  (due_dt_utc <- lift (parse_due_date (due_at item)) ;;
   due_dt_local <- lift (astimezone local_tz due_dt_utc) ;;
   let weekday := weekday_name due_dt_local in
   now_local <- datetime_now local_tz ;;
   let delta := dt_sub_same_tz due_dt_local now_local in
   let days_remaining := days delta in
   let hours_remaining := Z.max 0 (seconds delta / 3600) in
   lift (bucket_append weekday
           (DueItem (course_name item) (assignment_name item)
                    due_dt_local days_remaining hours_remaining) g))%monad.

Fixpoint group_by_weekday (items : list assignment) (g : grouping)
  : M grouping :=
  match items with
  | [] => ret g
  | item :: rest => (g' <- group_item item g ;; group_by_weekday rest g')%monad
  end.

(** Lines 172-177 for one day. *)
Definition populate_day (g : grouping) (day : string) : M unit :=
  (texts <- lift (bucket_get day g) ;;
   match texts with
   | [] => emit (EvLabel day (Placeholder "No assignments due."))
   | _ :: _ => for_each (fun text => emit (EvLabel day text)) texts
   end)%monad.

(** Lines 179-187. *)
Definition populate_no_due (no_due : list assignment) : M unit :=
  match no_due with
  | [] =>
      emit (EvLabel "No Due Date"
              (Placeholder "No assignments without due dates."))
  | _ :: _ =>
      for_each
        (fun item =>
           emit (EvLabel "No Due Date"
                   (NoDueItem (course_name item) (assignment_name item))))
        no_due
  end.

Definition count_str (n : nat) : string := py_str (JNum (Z.of_nat n)).

(** Lines 137-190: classification, grouping and display. *)
Definition present (all : list assignment) : M unit :=
  (now <- datetime_now timezone_utc ;;
   classified <- lift (classify now all) ;;
   let upcoming_assignments := fst classified in
   let no_due_assignments := snd classified in
   log_status ("Upcoming assignments: "
               ++ count_str (length upcoming_assignments))%string >>
   log_status ("No due date: "
               ++ count_str (length no_due_assignments))%string >>
   grouped <- group_by_weekday upcoming_assignments
                (map (fun day => (day, [])) day_tabs) ;;
   for_each (populate_day grouped) day_tabs >>
   populate_no_due no_due_assignments >>
   log_status "✅ Everything is loaded." >>
   emit (EvProgressLabel (LitText "Progress: 100%")))%monad.

(** Lines 118-135: the loop over the courses. *)
Fixpoint compile_assignments (fuel : nat) (hdrs : list (string * string))
         (total idx : nat) (courses : list json) (all : list assignment)
  : M (list assignment) :=
  match courses with
  | [] => ret all
  | course :: rest =>
      (course_id <- lift (getitem course "id") ;;
       cname <- lift (get_method course "name" (JStr "Unnamed Course")) ;;
       log_status ("  → Fetching assignments for " ++ py_str cname)%string >>
       assignments <-
         get_all_pages fuel
           (BASE_URL ++ "/courses/" ++ py_str course_id ++ "/assignments")%string
           hdrs None ;;
       all' <- lift (tag_assignments cname assignments all) ;;
       report_progress idx total >>
       compile_assignments fuel hdrs total (S idx) rest all')%monad
  end.

(** Lines 97-114: who the caller is and which courses are active. *)
Definition fetch_courses (fuel : nat) (hdrs : list (string * string))
  : M (list json) :=
  (log_status "----- New fetch started -----" >>
   log_status "Authenticating user..." >>
   user_resp <- requests_get (BASE_URL ++ "/users/self")%string hdrs None ;;
   raise_for_status user_resp (BASE_URL ++ "/users/self")%string >>
   user <- response_json user_resp ;;
   user_id <- lift (getitem user "id") ;;
   name <- lift (get_method user "name" JNull) ;;
   emit (EvStatusLabel ("Authenticated as: " ++ py_str name
                        ++ " (ID: " ++ py_str user_id ++ ")")%string) >>
   log_status ("Authenticated as " ++ py_str name
               ++ " (User ID: " ++ py_str user_id ++ ")")%string >>
   log_status "Fetching active courses..." >>
   courses <-
     get_all_pages fuel
       (BASE_URL ++ "/users/" ++ py_str user_id ++ "/courses")%string
       hdrs (Some [("enrollment_state", "active")]) ;;
   log_status ("Found " ++ count_str (length courses)
               ++ " active courses.")%string >>
   emit (EvBarMaximum (Nat.max (length courses) 1)) >>
   ret courses)%monad.

(** Lines 97-135: the merge buffer [all_assignments]. *)
Definition gather (fuel : nat) (hdrs : list (string * string))
  : M (list assignment) :=
  (courses <- fetch_courses fuel hdrs ;;
   log_status "Compiling assignments..." >>
   compile_assignments fuel hdrs (length courses) 1 courses [])%monad.

Definition auth_headers (token : string) : list (string * string) :=
  [("Authorization", ("Bearer " ++ token)%string)].

(** Lines 85-190: the body of the [try]. *)
Definition fetch_body (fuel : nat) : M unit :=
  let token := PyStr.strip (token_entry w) in
  if String.eqb token "" then
    emit (EvShowError "Error" (Message "Please enter your Canvas access token."))
  else
    (for_each (fun tab => emit (EvClearTab tab)) all_tabs >>
     all_assignments <- gather fuel (auth_headers token) ;;
     present all_assignments)%monad.

(** Lines 192-195: the two [except] clauses. *)
Definition on_exception (e : exn) : M unit :=
  if is_HTTPError e then emit (EvShowError "HTTP Error" (StrOf e))
  else emit (EvShowError "Error" (StrOf e)).

Definition fetch_assignments_thread (fuel : nat) : M unit :=
  (emit (EvButton false) >>
   emit (EvBarValue 0) >>
   emit (EvProgressLabel (LitText "Progress: 0%")) >>
   try_finally (try_except (fetch_body fuel) on_exception)
               (emit (EvButton true)))%monad.

End Program.

(** ** Reference instances of the two library functions *)

(** The documented grammar of [datetime.fromisoformat]:
    [YYYY-MM-DD[*HH[:MM[:SS[.fff[fff]]]][+HH:MM[:SS[.ffffff]]]]], where [*]
    is any one character. *)
Module IsoFormat.

Definition digit (c : ascii) : option Z :=
  let n := nat_of_ascii c in
  if ((48 <=? n) && (n <=? 57))%nat then Some (Z.of_nat (n - 48)) else None.

Fixpoint number (cs : list ascii) (acc : Z) : option Z :=
  match cs with
  | [] => Some acc
  | c :: cs' =>
      match digit c with
      | Some d => number cs' (10 * acc + d)
      | None => None
      end
  end.

(** Exactly [n] digits at the head of [cs]. *)
Definition digits (n : nat) (cs : list ascii) : option (Z * list ascii) :=
  if (length (firstn n cs) =? n)%nat then
    match number (firstn n cs) 0 with
    | Some v => Some (v, skipn n cs)
    | None => None
    end
  else None.

Definition is_leap (y : Z) : bool :=
  (y mod 4 =? 0) && (negb (y mod 100 =? 0) || (y mod 400 =? 0)).

Definition days_in_month (y m : Z) : Z :=
  if m =? 2 then (if is_leap y then 29 else 28)
  else if (m =? 4) || (m =? 6) || (m =? 9) || (m =? 11) then 30
  else 31.

Definition days_before_year (y : Z) : Z :=
  let p := y - 1 in p * 365 + p / 4 - p / 100 + p / 400.

Fixpoint days_before_month (y : Z) (m : nat) : Z :=
  match m with
  | O => 0
  | S k => days_before_month y k + days_in_month y (Z.of_nat (S k))
  end.

(** [date(y, m, d).toordinal()] *)
Definition ordinal (y m d : Z) : Z :=
  days_before_year y + days_before_month y (Z.to_nat (m - 1)) + d.

Definition epoch_ordinal : Z := 719163.

Definition valid_date (y m d : Z) : bool :=
  (1 <=? y) && (y <=? 9999) && (1 <=? m) && (m <=? 12)
  && (1 <=? d) && (d <=? days_in_month y m).

(** [HH[:MM[:SS[.fff[fff]]]]], the whole of [cs]. *)
Definition hh_mm_ss_ff (cs : list ascii) : option (Z * Z * Z * Z) :=
  match digits 2 cs with
  | None => None
  | Some (h, []) => Some (h, 0, 0, 0)
  | Some (h, ":"%char :: r1) =>
      match digits 2 r1 with
      | None => None
      | Some (m, []) => Some (h, m, 0, 0)
      | Some (m, ":"%char :: r2) =>
          match digits 2 r2 with
          | None => None
          | Some (sec, []) => Some (h, m, sec, 0)
          | Some (sec, "."%char :: f) =>
              match number f 0 with
              | Some v =>
                  if (length f =? 3)%nat then Some (h, m, sec, v * 1000)
                  else if (length f =? 6)%nat then Some (h, m, sec, v)
                  else None
              | None => None
              end
          | Some (_, _ :: _) => None
          end
      | Some (_, _ :: _) => None
      end
  | Some (_, _ :: _) => None
  end.

Definition usec_of (t : Z * Z * Z * Z) : Z :=
  let '(h, m, sec, us) := t in
  ((h * 60 + m) * 60 + sec) * usec_per_second + us.

Definition is_sign (c : ascii) : bool :=
  Ascii.eqb c "+"%char || Ascii.eqb c "-"%char.

(** The time string cut at its first sign. *)
Fixpoint split_zone (cs : list ascii)
  : list ascii * option (ascii * list ascii) :=
  match cs with
  | [] => ([], None)
  | c :: cs' =>
      if is_sign c then ([], Some (c, cs'))
      else let (t, z) := split_zone cs' in (c :: t, z)
  end.

Definition valid_time (t : Z * Z * Z * Z) : bool :=
  let '(h, m, sec, _) := t in (h <=? 23) && (m <=? 59) && (sec <=? 59).

Definition zone_length_ok (z : list ascii) : bool :=
  let n := length z in ((n =? 5) || (n =? 8) || (n =? 15))%nat.

Definition fromisoformat (s : string) : option datetime :=
  let cs := list_ascii_of_string s in
  match digits 4 cs with
  | Some (y, "-"%char :: r1) =>
      match digits 2 r1 with
      | Some (m, "-"%char :: r2) =>
          match digits 2 r2 with
          | Some (d, rest) =>
              if valid_date y m d then
                let day := (ordinal y m d - epoch_ordinal) * usec_per_day in
                match rest with
                | [] => Some (Naive day)
                | _ :: tstr =>
                    let (tpart, zpart) := split_zone tstr in
                    match hh_mm_ss_ff tpart with
                    | Some t =>
                        if valid_time t then
                          match zpart with
                          | None => Some (Naive (day + usec_of t))
                          | Some (sign, z) =>
                              if zone_length_ok z then
                                match hh_mm_ss_ff z with
                                | Some o =>
                                    let off :=
                                      if Ascii.eqb sign "-"%char
                                      then - usec_of o else usec_of o in
                                    if Z.abs off <? usec_per_day
                                    then Some (Aware (day + usec_of t) off)
                                    else None
                                | None => None
                                end
                              else None
                          end
                        else None
                    | None => None
                    end
                end
              else None
          | None => None
          end
      | _ => None
      end
  | _ => None
  end.

End IsoFormat.

(** [str] on the scalar values; a container prints as its type name. *)
Definition py_str_ref (j : json) : string :=
  match j with
  | JNull => "None"
  | JBool true => "True"
  | JBool false => "False"
  | JNum n => NilZero.string_of_int (Z.to_int n)
  | JStr s => s
  | JArr _ => "<list>"
  | JObj _ => "<dict>"
  end.

(** ** Vocabulary of the specification *)

Definition mk_request (u : string) (hdrs : list (string * string))
           (ps : option (list (string * string))) : request :=
  {| url := u; headers := hdrs; params := ps |}.

(** [page_chain w hdrs hist u ps pages reqs]: asked for [u] with [ps]
    after the requests [hist], the server answers with a chain of
    successful pages whose bodies are the arrays [pages], each but the
    last linking to the next, the last carrying no next link; [reqs] are
    the requests that walk the chain. *)
Inductive page_chain (w : world) (hdrs : list (string * string))
  : list request -> string -> option (list (string * string)) ->
    list (list json) -> list request -> Prop :=
| chain_last : forall hist u ps r items,
    u <> "" ->
    server w hist (mk_request u hdrs ps) = Reply r ->
    is_error_status (status_code r) = false ->
    body r = Some (JArr items) ->
    assoc "next" (links r) = None ->
    page_chain w hdrs hist u ps [items] [mk_request u hdrs ps]
| chain_next : forall hist u ps r items next pages reqs,
    u <> "" ->
    server w hist (mk_request u hdrs ps) = Reply r ->
    is_error_status (status_code r) = false ->
    body r = Some (JArr items) ->
    assoc "next" (links r) = Some next ->
    page_chain w hdrs (hist ++ [mk_request u hdrs ps]) next None pages reqs ->
    page_chain w hdrs hist u ps (items :: pages) (mk_request u hdrs ps :: reqs).

(** ** Worlds for the examples *)

Module Examples.

Definition ok_page (items : list json) (next : option string) : reply :=
  Reply {| status_code := 200;
           body := Some (JArr items);
           links := match next with
                    | Some u => [("next", u)]
                    | None => []
                    end |}.

Definition not_found : reply :=
  Reply {| status_code := 404; body := Some JNull; links := [] |}.

Definition quiet_world (srv : list request -> request -> reply)
           (now : Z) : world :=
  {| token_entry := " secret ";
     server := srv;
     clock := fun _ => now;
     zoneinfo := fun _ => None;
     system_utcoffset := fun _ => 0 |}.

(** 2024-03-04T00:00:00Z *)
Definition march_4 : Z := 1709510400000000.

Definition rec (n : Z) : json := JObj [("name", JNum n)].

(** A collection of three pages, of sizes 2, 2 and 1. *)
Definition three_pages (_ : list request) (r : request) : reply :=
  if String.eqb (url r) "page1" then ok_page [rec 1; rec 2] (Some "page2")
  else if String.eqb (url r) "page2" then ok_page [rec 3; rec 4] (Some "page3")
  else if String.eqb (url r) "page3" then ok_page [rec 5] None
  else not_found.

Definition w_three_pages : world := quiet_world three_pages march_4.

Definition self_url : string := "https://canvas.sfu.ca/api/v1/users/self".
Definition courses_url : string := "https://canvas.sfu.ca/api/v1/users/7/courses".
Definition course_1_url : string :=
  "https://canvas.sfu.ca/api/v1/courses/1/assignments".
Definition course_2_url : string :=
  "https://canvas.sfu.ca/api/v1/courses/2/assignments".

Definition ada : reply :=
  Reply {| status_code := 200;
           body := Some (JObj [("id", JNum 7); ("name", JStr "Ada")]);
           links := [] |}.

Definition homework (name : string) (due : json) : json :=
  JObj [("name", JStr name); ("due_at", due)].

(** One course, [Calc], with [HW1] due 2024-03-07T23:59:00Z and [HW2]
    without a due date. *)
Definition calc_server (_ : list request) (r : request) : reply :=
  if String.eqb (url r) self_url then ada
  else if String.eqb (url r) courses_url then
    ok_page [JObj [("id", JNum 1); ("name", JStr "Calc")]] None
  else if String.eqb (url r) course_1_url then
    ok_page [homework "HW1" (JStr "2024-03-07T23:59:00Z");
             homework "HW2" JNull] None
  else not_found.

Definition w_calc : world := quiet_world calc_server march_4.

(** The same course, with a third assignment whose due date is
    malformed. *)
Definition malformed_server (_ : list request) (r : request) : reply :=
  if String.eqb (url r) self_url then ada
  else if String.eqb (url r) courses_url then
    ok_page [JObj [("id", JNum 1); ("name", JStr "Calc")]] None
  else if String.eqb (url r) course_1_url then
    ok_page [homework "HW1" (JStr "2024-03-07T23:59:00Z");
             homework "HW2" JNull;
             homework "HW3" (JStr "not-a-date")] None
  else not_found.

Definition w_malformed : world := quiet_world malformed_server march_4.

Definition bearer : list (string * string) := auth_headers "secret".






Definition course_3_url : string :=
  "https://canvas.sfu.ca/api/v1/courses/3/assignments".

(** Three courses: the second has no assignment, the third no name. *)
Definition three_courses_server (_ : list request) (r : request) : reply :=
  if String.eqb (url r) self_url then ada
  else if String.eqb (url r) courses_url then
    ok_page [JObj [("id", JNum 1); ("name", JStr "Calc")];
             JObj [("id", JNum 2); ("name", JStr "Chem")];
             JObj [("id", JNum 3)]] None
  else if String.eqb (url r) course_1_url then
    ok_page [homework "HW1" (JStr "2024-03-07T23:59:00Z");
             homework "HW2" JNull] None
  else if String.eqb (url r) course_2_url then ok_page [] None
  else if String.eqb (url r) course_3_url then
    ok_page [homework "Essay" (JStr "2024-03-05T08:00:00Z")] None
  else not_found.

Definition w_three_courses : world :=
  quiet_world three_courses_server march_4.

(** One assignment due thirty seconds after the cutoff, and a clock
    that has moved on by a minute when what remains is computed. *)
Definition late_server (_ : list request) (r : request) : reply :=
  if String.eqb (url r) self_url then ada
  else if String.eqb (url r) courses_url then
    ok_page [JObj [("id", JNum 1); ("name", JStr "Calc")]] None
  else if String.eqb (url r) course_1_url then
    ok_page [homework "Quiz" (JStr "2024-03-04T00:00:30Z")] None
  else not_found.

Definition w_late : world :=
  {| token_entry := "secret";
     server := late_server;
     clock := fun k =>
                match k with
                | O => march_4
                | S _ => march_4 + 60 * usec_per_second
                end;
     zoneinfo := fun _ => None;
     system_utcoffset := fun _ => 0 |}.




(** One assignment, due in the last second of the year 9999 of a zone
    eight hours behind UTC: an instant of the year 10000. *)
Definition far_server (_ : list request) (r : request) : reply :=
  if String.eqb (url r) self_url then ada
  else if String.eqb (url r) courses_url then
    ok_page [JObj [("id", JNum 1); ("name", JStr "Calc")]] None
  else if String.eqb (url r) course_1_url then
    ok_page [homework "Last" (JStr "9999-12-31T23:59:59-08:00")] None
  else not_found.

Definition w_far : world := quiet_world far_server march_4.

(** A server that answers every request with a page that is no JSON. *)
Definition html_server (_ : list request) (_ : request) : reply :=
  Reply {| status_code := 200; body := None; links := [] |}.

Definition w_html : world := quiet_world html_server march_4.

End Examples.

(** ** Vocabulary of classification and ordering *)

Section ClassificationVocabulary.

Variable fromisoformat : string -> option datetime.

(** The absolute instant at which a record is due, when its due date
    is a string that parses to an aware datetime. *)
Definition due_instant (a : assignment) : option Z :=
  match parse_due_date fromisoformat (due_at a) with
  | inr (Aware wall off) => Some (utc_of wall off)
  | _ => None
  end.

(** The three sets of the specification, for a cutoff [now]. *)
Definition in_upcoming (now : Z) (a : assignment) : bool :=
  match due_instant a with
  | Some i => now <=? i
  | None => false
  end.

Definition in_no_due (a : assignment) : bool := is_None (due_at a).

Definition in_discarded_past (now : Z) (a : assignment) : bool :=
  match due_instant a with
  | Some i => i <? now
  | None => false
  end.

(** A record classification can place: its due date is absent, or
    parses to an aware datetime. *)
Definition resolvable (a : assignment) : Prop :=
  due_at a = JNull \/ exists i, due_instant a = Some i.

(** The key [list.sort] orders a record by, as an integer: the absolute
    instant of an aware datetime, the reading of a naive one. *)
Definition due_key (a : assignment) : Z :=
  match parse_due_date fromisoformat (due_at a) with
  | inr (Aware wall off) => utc_of wall off
  | inr (Naive wall) => wall
  | inl _ => 0
  end.

(** Whether the comprehension of lines 144-147 keeps a record. *)
Definition kept (now : datetime) (a : assignment) : bool :=
  match is_upcoming fromisoformat now a with
  | inr b => b
  | inl _ => false
  end.

End ClassificationVocabulary.

(** A stable insertion sort on integer keys. *)
Section StableSort.

Variable A : Type.
Variable key : A -> Z.

Fixpoint insert_by (x : A) (l : list A) : list A :=
  match l with
  | [] => [x]
  | y :: l' => if key y <? key x then y :: insert_by x l' else x :: l
  end.

Fixpoint sort_by (l : list A) : list A :=
  match l with
  | [] => []
  | x :: l' => insert_by x (sort_by l')
  end.

Definition key_le (a b : A) : Prop := key a <= key b.

Definition has_key (k : Z) (a : A) : bool := key a =? k.

End StableSort.

(** The integer a datetime is compared by among datetimes of its kind. *)
Definition dt_key (d : datetime) : Z :=
  match d with
  | Aware wall off => utc_of wall off
  | Naive wall => wall
  end.

(** Exactly one of three conditions holds. *)
Definition one_of_three (a b c : bool) : bool :=
  match a, b, c with
  | true, false, false | false, true, false | false, false, true => true
  | _, _, _ => false
  end.

(** A record whose due date parses to a datetime of the kind of [now]
    (aware or naive). *)
Definition parses_like (fromisoformat : string -> option datetime)
           (now : datetime) (a : assignment) : Prop :=
  exists d,
    parse_due_date fromisoformat (due_at a) = inr d
    /\ is_aware d = is_aware now.

Definition pair_key (p : datetime * assignment) : Z := dt_key (fst p).

(** ** Vocabulary of runs *)

(** [sound P Q R m]: whatever the events so far, [m] adds only events
    that satisfy [P], raises only exceptions that satisfy [Q], and
    returns only values that satisfy [R]. *)
Definition sound (A : Type) (P : event -> Prop) (Q : exn -> Prop)
           (R : A -> Prop) (m : M A) : Prop :=
  forall t,
    Forall P (snd (m t)) /\
    match fst (m t) with
    | Ok a => R a
    | Raise e => Q e
    | OutOfFuel => True
    end.

Definition anything (A : Type) (_ : A) : Prop := True.

(** Whether the server turns a request down, given the requests before
    it: an error status, or no answer at all. *)
Definition request_fails (w : world) (hist : list request) (r : request)
  : bool :=
  match server w hist r with
  | Reply resp => is_error_status (status_code resp)
  | Unreachable => true
  end.

(** Every request among [evs], issued after [hist], was answered with a
    status that is no error. *)
Fixpoint served_ok (w : world) (hist : list request) (evs : list event)
  : Prop :=
  match evs with
  | [] => True
  | EvRequest r :: evs' =>
      request_fails w hist r = false /\ served_ok w (hist ++ [r]) evs'
  | _ :: evs' => served_ok w hist evs'
  end.

(** What the exception [e] says about the request it was raised for. *)
Definition explains (w : world) (hist : list request) (r : request)
           (e : exn) : Prop :=
  match e with
  | HTTPError status u =>
      exists resp,
        server w hist r = Reply resp
        /\ is_error_status (status_code resp) = true
        /\ status = status_code resp /\ u = url r
  | ConnectionError => server w hist r = Unreachable
  | Builtin _ | JSONDecodeError => False
  end.


(** [halted w t r evs]: if the outcome [r] is the exception of a failed
    request, that request is the last of the events [evs] and all before
    it were served; otherwise every request among [evs] was served. *)
Definition halted (w : world) (A : Type) (t : trace) (r : outcome A)
           (evs : list event) : Prop :=
  match r with
  | Raise (Builtin _) | Raise JSONDecodeError | Ok _ | OutOfFuel =>
      served_ok w (requests_of t) evs
  | Raise e =>
      exists evs0 req,
        evs = evs0 ++ [EvRequest req]
        /\ served_ok w (requests_of t) evs0
        /\ explains w (requests_of (t ++ evs0)) req e
  end.

(** [halting w m]: a request that fails is the last thing [m] does. *)
Definition halting (w : world) (A : Type) (m : M A) : Prop :=
  forall t, halted w t (fst (m t)) (snd (m t)).

Definition not_label (e : event) : Prop := is_label e = false.
Definition not_request (e : event) : Prop := is_request e = false.
Definition not_clock (e : event) : Prop := e <> EvNow.
Definition only_request (e : event) : Prop := is_request e = true.

(** What each part of the worker may emit and raise. *)

Definition pages_exn (e : exn) : Prop :=
  match e with
  | HTTPError _ _ | ConnectionError | JSONDecodeError
  | Builtin (TypeError _) => True
  | Builtin _ => False
  end.

Definition gather_event (e : event) : Prop :=
  match e with
  | EvLog _ | EvRequest _ | EvStatusLabel _ | EvBarMaximum _ | EvBarValue _
  | EvProgressLabel (PercentOf _ _) | EvUpdateIdle => True
  | _ => False
  end.

(** The events of lines 97-114. *)
Definition courses_event (e : event) : Prop :=
  match e with
  | EvLog _ | EvRequest _ | EvStatusLabel _ | EvBarMaximum _ => True
  | _ => False
  end.

Definition record_exn (e : builtin_exn) : Prop :=
  match e with
  | KeyError _ | TypeError _ => True
  | AttributeError _ attr => attr = "get"
  | ValueError _ | OverflowError _ => False
  end.

Definition gather_exn (e : exn) : Prop :=
  match e with
  | HTTPError _ _ | ConnectionError | JSONDecodeError => True
  | Builtin b => record_exn b
  end.

(** A label whose two figures come from one delta of [us] microseconds:
    the days are its whole days, rounded down, and the hours are the
    whole hours of what is left of it, which lie within one day. *)
Definition label_ok (c : label_content) : Prop :=
  match c with
  | DueItem _ _ _ days_remaining hours_remaining =>
      (exists us,
          days_remaining = us / usec_per_day
          /\ hours_remaining = (us mod usec_per_day) / usec_per_hour)
      /\ 0 <= hours_remaining <= 23
  | _ => True
  end.

Definition present_event (e : event) : Prop :=
  match e with
  | EvNow | EvLog _ | EvProgressLabel (LitText _) => True
  | EvLabel _ c => label_ok c
  | _ => False
  end.

(** Exceptions of classification: never the one [None.replace] raises. *)
Definition classify_exn (e : builtin_exn) : Prop :=
  match e with
  | AttributeError type _ => type <> "NoneType"
  | _ => True
  end.

Definition present_exn (e : exn) : Prop :=
  match e with
  | Builtin b => classify_exn b
  | _ => False
  end.

Definition grouping_ok (g : grouping) : Prop :=
  Forall (fun bucket => Forall label_ok (snd bucket)) g.

Definition thread_event (e : event) : Prop :=
  match e with
  | EvLabel _ c => label_ok c
  | _ => True
  end.

Definition body_exn (e : exn) : Prop := gather_exn e \/ present_exn e.

(** ** Vocabulary of the display *)

Definition prelude : list event :=
  [EvButton false; EvBarValue 0; EvProgressLabel (LitText "Progress: 0%")].

Definition cleared : list event := map EvClearTab all_tabs.

Section DisplayVocabulary.

Variable fromisoformat : string -> option datetime.
Variable w : world.

(** Lines 157-158: the due date of a record in the local zone. *)
Definition due_local (a : assignment) : pure_result datetime :=
  (due_dt_utc <- parse_due_date fromisoformat (due_at a) ;;
   astimezone w (local_tz w) due_dt_utc)%pure.

(** A record the loop of lines 156-168 can label: its due date parses
    and can be taken to the local zone. *)
Definition displayable (a : assignment) : Prop :=
  exists due_dt_local, due_local a = inr due_dt_local.

(** The label of an upcoming record due at [due_dt_local] in the local
    zone, when the clock is read for the [k]-th time to compute what
    remains. *)
Definition due_label (k : nat) (item : assignment) (due_dt_local : datetime)
  : label_content :=
  let utc := clock w k in
  let now_local := Aware (utc + local_tz w utc) (local_tz w utc) in
  let delta := dt_sub_same_tz due_dt_local now_local in
  DueItem (course_name item) (assignment_name item) due_dt_local
          (days delta) (Z.max 0 (seconds delta / 3600)).

(** The labels of the [items] that fall on [day], in order; the first
    item reads the clock for the [k]-th time, the next for the
    [k+1]-th. *)
Fixpoint day_items (day : string) (k : nat) (items : list assignment)
  : list label_content :=
  match items with
  | [] => []
  | item :: rest =>
      match due_local item with
      | inr due_dt_local =>
          (if String.eqb (weekday_name due_dt_local) day
           then [due_label k item due_dt_local] else [])
          ++ day_items day (S k) rest
      | inl _ => []
      end
  end.

(** The figures [dd] days [hh] hrs of a label that shows the local due
    date [due], in a run whose cutoff is the reading [cutoff_reads] of the
    clock: the record is due at or after the cutoff, and the figures are
    those of the delta from a later reading of the clock, on the wall
    clock of the local zone, to the due date. *)
Definition figures_at (cutoff_reads : nat) (due : datetime) (dd hh : Z)
  : Prop :=
  exists k i,
    (cutoff_reads < k)%nat
    /\ clock w cutoff_reads <= i
    /\ due = Aware (i + local_tz w i) (local_tz w i)
    /\ let delta := wall_of due - (clock w k + local_tz w (clock w k)) in
       dd = delta / usec_per_day
       /\ hh = (delta mod usec_per_day) / usec_per_hour
       /\ 0 <= hh <= 23
       /\ 0 <= delta - (dd * 24 + hh) * usec_per_hour < usec_per_hour.

End DisplayVocabulary.

(** What a day's tab receives. *)
Definition day_events (day : string) (texts : list label_content)
  : list event :=
  match texts with
  | [] => [EvLabel day (Placeholder "No assignments due.")]
  | _ :: _ => map (EvLabel day) texts
  end.

(** What the tab of records without a due date receives. *)
Definition no_due_events (no_due : list assignment) : list event :=
  match no_due with
  | [] =>
      [EvLabel "No Due Date"
         (Placeholder "No assignments without due dates.")]
  | _ :: _ =>
      map (fun item =>
             EvLabel "No Due Date"
               (NoDueItem (course_name item) (assignment_name item)))
          no_due
  end.

(** No request follows the first reading of the clock. *)
Fixpoint fetches_before_clock (evs : list event) : Prop :=
  match evs with
  | [] => True
  | EvNow :: rest => Forall not_request rest
  | _ :: rest => fetches_before_clock rest
  end.

Definition has_days (g : grouping) : Prop :=
  forall d, In (weekday_name d) (map fst g).

(** The datetime line 137 captures when the events so far are [t]. *)
Definition captured_now (w : world) (t : trace) : datetime :=
  let utc := clock w (clock_reads t) in
  Aware (utc + timezone_utc utc) (timezone_utc utc).

(** The events of lines 151-190 for a classification [(up, nd)], the
    clock having been read [k] times before the loop over [up]. *)
Definition display_events (fromisoformat : string -> option datetime)
           (py_str : json -> string) (w : world) (k : nat)
           (up nd : list assignment) : list event :=
  [EvLog ("Upcoming assignments: " ++ py_str (JNum (Z.of_nat (length up))))%string;
   EvLog ("No due date: " ++ py_str (JNum (Z.of_nat (length nd))))%string]
  ++ repeat EvNow (length up)
  ++ flat_map (fun day => day_events day (day_items fromisoformat w day k up))
              day_tabs
  ++ no_due_events nd
  ++ [EvLog "✅ Everything is loaded.";
      EvProgressLabel (LitText "Progress: 100%")].

(** The title of the dialog the two [except] clauses show. *)
Definition dialog_title (e : exn) : string :=
  if is_HTTPError e then "HTTP Error" else "Error".

(** The request that resolves the caller's identity (line 99). *)
Definition identity_request (w : world) : request :=
  mk_request (BASE_URL ++ "/users/self")%string
             (auth_headers (PyStr.strip (token_entry w))) None.

(** ** The normalizer as the specification words it *)

(** The substitution the specification describes: a trailing zone marker
    [Z], and only that one, becomes [+00:00]. *)
Fixpoint replace_trailing_Z (s : string) : string :=
  match s with
  | EmptyString => EmptyString
  | String c EmptyString =>
      if Ascii.eqb c "Z"%char then "+00:00" else s
  | String c s' => String c (replace_trailing_Z s')
  end.

(** The substitution of the amended wording: every [Z], wherever it
    stands, becomes [+00:00]. *)
Fixpoint replace_every_Z (s : string) : string :=
  match s with
  | EmptyString => EmptyString
  | String c s' =>
      if Ascii.eqb c "Z"%char then ("+00:00" ++ replace_every_Z s')%string
      else String c (replace_every_Z s')
  end.

(** The string has a [Z] before its last character. *)
Fixpoint inner_Z (s : string) : bool :=
  match s with
  | EmptyString => false
  | String c EmptyString => false
  | String c s' => Ascii.eqb c "Z"%char || inner_Z s'
  end.

Definition parse_spec (fromisoformat : string -> option datetime)
           (s : string) : pure_result datetime :=
  match fromisoformat (replace_trailing_Z s) with
  | Some d => inr d
  | None => inl (ValueError "Invalid isoformat string")
  end.

(** Records for the examples of classification. *)
Module Records.

Definition hw (name : string) (due : json) : assignment :=
  {| course_name := JStr "Calc";
     assignment_name := JStr name;
     due_at := due |}.

Definition thursday : assignment := hw "HW1" (JStr "2024-03-07T23:59:00Z").
Definition tuesday_a : assignment := hw "HW2" (JStr "2024-03-05T08:00:00Z").
(** The same instant as [tuesday_a], written with another offset. *)
Definition tuesday_b : assignment :=
  hw "HW3" (JStr "2024-03-05T09:00:00+01:00").
Definition undated : assignment := hw "HW4" JNull.
Definition past : assignment := hw "HW0" (JStr "2024-03-01T12:00:00Z").
Definition at_cutoff : assignment :=
  hw "HW5" (JStr "2024-03-04T00:00:00Z").
Definition malformed : assignment := hw "HW6" (JStr "not-a-date").

Definition now : datetime := Aware Examples.march_4 0.

End Records.

(** A merged record and the fetched record it was made from, for a course
    named [cname]. *)
Definition tags (cname : json) (fetched : json) (r : assignment) : Prop :=
  course_name r = cname
  /\ getitem fetched "name" = inr (assignment_name r)
  /\ get_method fetched "due_at" JNull = inr (due_at r).

Definition unnamed : json := JStr "Unnamed Course".

(** ** Vocabulary of the fetcher's further properties *)

(** A request carries the headers [hdrs] and a URL that is not empty;
    any other event passes. *)
Definition addressed (hdrs : list (string * string)) (e : event) : Prop :=
  match e with
  | EvRequest r => headers r = hdrs /\ url r <> ""
  | _ => True
  end.

(** A server every page of which names a next page. *)
Definition endless (w : world) : Prop :=
  forall hist req,
    exists r decoded items next,
      server w hist req = Reply r
      /\ is_error_status (status_code r) = false
      /\ body r = Some decoded
      /\ py_iter decoded = inr items
      /\ assoc "next" (links r) = Some next
      /\ next <> "".

Module Loops.

(** Every page links to the page ["again"]. *)
Definition again (_ : list request) (_ : request) : reply :=
  Examples.ok_page [Examples.rec 1] (Some "again").

Definition w_again : world := Examples.quiet_world again Examples.march_4.

End Loops.
(** ** Vocabulary of the worker's further properties *)

Definition not_button (e : event) : Prop :=
  match e with
  | EvButton _ => False
  | _ => True
  end.

(** A string of white space only, the empty one included: every
    character of it is one [str.strip()] removes. *)
Definition blank (s : string) : bool :=
  forallb PyStr.is_whitespace (PyStr.code_points s).

(** U+00A0, the no-break space. *)
Definition nbsp : string := PyStr.bytes [194; 160]%nat.

(** The dialog of line 87. *)
Definition token_dialog : event :=
  EvShowError "Error" (Message "Please enter your Canvas access token.").

(** The first three events of lines 97-99. *)
Definition opening (w : world) : list event :=
  [EvLog "----- New fetch started -----";
   EvLog "Authenticating user...";
   EvRequest (identity_request w)].

(** What the tabs receive when there is nothing to show. *)
Definition placeholders : list event :=
  map (fun day => EvLabel day (Placeholder "No assignments due.")) day_tabs
  ++ [EvLabel "No Due Date"
        (Placeholder "No assignments without due dates.")].

(** The request for the first page of the active courses of [user_id]
    (line 110). *)
Definition courses_request (py_str : json -> string) (w : world)
           (user_id : json) : request :=
  mk_request (BASE_URL ++ "/users/" ++ py_str user_id ++ "/courses")%string
             (auth_headers (PyStr.strip (token_entry w)))
             (Some [("enrollment_state", "active")]).

Module NoCourses.

(** A user without any active course. *)
Definition lonely_server (_ : list request) (r : request) : reply :=
  if String.eqb (url r) Examples.self_url then Examples.ada
  else if String.eqb (url r) Examples.courses_url then
    Examples.ok_page [] None
  else Examples.not_found.

Definition w_lonely : world :=
  Examples.quiet_world lonely_server Examples.march_4.

Definition w_blank : world :=
  {| token_entry := (" " ++ nbsp)%string;
     server := lonely_server;
     clock := fun _ => Examples.march_4;
     zoneinfo := fun _ => None;
     system_utcoffset := fun _ => 0 |}.

End NoCourses.
(** ** Vocabulary of what the tabs show *)

(** A label that shows a record, not a placeholder. *)
Definition is_item (c : label_content) : bool :=
  match c with
  | Placeholder _ => false
  | _ => true
  end.

(** The records the tab [tab] received among the events [evs], in the
    order in which it received them. *)
Definition tab_items (tab : string) (evs : list event)
  : list label_content :=
  flat_map (fun e =>
              match e with
              | EvLabel tab' c =>
                  if String.eqb tab' tab && is_item c then [c] else []
              | _ => []
              end) evs.

(** Whether the due date of a record falls on [day] in the local
    zone. *)
Definition on_day (fromisoformat : string -> option datetime) (w : world)
           (day : string) (a : assignment) : bool :=
  match due_local fromisoformat w a with
  | inr due_dt_local => String.eqb (weekday_name due_dt_local) day
  | inl _ => false
  end.

(** The label [c] is that of the dated record [a]: its course, its name
    and its due date in the local zone. *)
Definition shows_due (fromisoformat : string -> option datetime) (w : world)
           (c : label_content) (a : assignment) : Prop :=
  exists due_dt_local days_remaining hours_remaining,
    due_local fromisoformat w a = inr due_dt_local
    /\ c = DueItem (course_name a) (assignment_name a) due_dt_local
                   days_remaining hours_remaining.

(** The label of a record without a due date. *)
Definition no_due_label (a : assignment) : label_content :=
  NoDueItem (course_name a) (assignment_name a).

Definition not_dialog (e : event) : Prop :=
  match e with
  | EvShowError _ _ => False
  | _ => True
  end.

Module NoIdentity.

(** A server whose answer to the identity request lacks the user id. *)
Definition nameless_server (_ : list request) (_ : request) : reply :=
  Reply {| status_code := 200;
           body := Some (JObj [("name", JStr "Ada")]);
           links := [] |}.

Definition w_nameless : world :=
  Examples.quiet_world nameless_server Examples.march_4.

End NoIdentity.
(** ** The tabs and the wheel *)

(** An event that touches a tab touches one of the eight tabs the
    window has (lines 267-297 build one frame for each of [all_tabs]): a
    dated label goes to the tab of the weekday of the local due date it
    shows, an undated one to the last tab, and each placeholder to a tab
    of its kind. *)
Definition well_placed (e : event) : Prop :=
  match e with
  | EvClearTab tab => In tab all_tabs
  | EvLabel tab (DueItem _ _ due_dt_local _ _) =>
      tab = weekday_name due_dt_local /\ In tab day_tabs
  | EvLabel tab (NoDueItem _ _) => tab = "No Due Date"
  | EvLabel tab (Placeholder text) =>
      (In tab day_tabs /\ text = "No assignments due.")
      \/ (tab = "No Due Date" /\ text = "No assignments without due dates.")
  | _ => True
  end.

Module Wheel.

(** What [on_mousewheel] reads of a Tk event: [num], when the event has
    one that is an integer, and [delta]. *)
Record wheel_event : Type := {
  num : option Z;
  delta : Z
}.

(** Lines 62-69: the number of units passed to [canvas.yview_scroll].
    [event.delta / 120] is a quotient of floats; for an integer [delta]
    of fewer than 53 bits, which every Tk delta is, its truncation by
    [int] is the integer quotient rounded towards zero. *)
Definition on_mousewheel (event : wheel_event) : Z :=
  match num event with
  | Some 4 => -1
  | Some 5 => 1
  | _ => - (Z.quot (delta event) 120)
  end.

(** An event of the wheel on Windows or macOS: no button number. *)
Definition turned (event : wheel_event) : Prop :=
  num event <> Some 4 /\ num event <> Some 5.

End Wheel.

(** * WebAssign homework viewer

    A shallow embedding of [hackathon(real) (2) (1).py]: the callback
    [submit_cookie] of the Submit button and the printer
    [print_homework_assignments].

    Conventions of the embedding.
    - The output box is the text inserted into it so far;
      [output_box.insert(tk.END, s)] appends [s] and
      [output_box.delete("1.0", tk.END)] empties it.
    - [requests.get(url, cookies=cookies)] followed by [response.json()]
      is one call of the [service]: it answers with the decoded body or
      with the exception either of the two raised. The status of the
      response is not part of the answer: the program never reads it.
    - The library functions are parameters: [datetime.fromisoformat],
      [strftime("%Y-%m-%d %H:%M")], [str.lower] and the builtin [str],
      on decoded values and on exceptions.
    - An exception that no [except] clause catches ends the callback;
      the run records it as [uncaught]. *)

Module WebAssign.

(** ** Python strings, continued *)

Definition nl : string := String (ascii_of_nat 10) EmptyString.

(** [s * n] *)
Fixpoint times (s : string) (n : nat) : string :=
  match n with
  | O => EmptyString
  | S n' => (s ++ times s n')%string
  end.

Fixpoint drop (n : nat) (s : string) : string :=
  match n, s with
  | S n', String _ s' => drop n' s'
  | _, _ => s
  end.

(** [split_from sep s skip]: the piece of [s] before the first
    occurrence of [sep] and the pieces after it; the first [skip]
    characters of [s] belong to an occurrence already found. *)
Fixpoint split_from (sep s : string) (skip : nat) : string * list string :=
  match s with
  | EmptyString => (EmptyString, [])
  | String c s' =>
      match skip with
      | S k => split_from sep s' k
      | O =>
          if PyStr.starts_with sep s
          then (EmptyString,
                let (p, ps) := split_from sep s' (Nat.pred (String.length sep))
                in p :: ps)
          else let (p, ps) := split_from sep s' 0 in (String c p, ps)
      end
  end.

(** [s.split(sep)]: the pieces between the occurrences of [sep], found
    left to right without overlap. *)
Definition split (s sep : string) : pure_result (list string) :=
  match sep with
  | EmptyString => inl (ValueError "empty separator")
  | String _ _ => let (p, ps) := split_from sep s 0 in inr (p :: ps)
  end.

(** The two pieces of [s] around the first occurrence of [sep]. *)
Fixpoint cut (sep s : string) : option (string * string) :=
  match s with
  | EmptyString => None
  | String c s' =>
      if PyStr.starts_with sep s
      then Some (EmptyString, drop (String.length sep) s)
      else match cut sep s' with
           | Some (a, b) => Some (String c a, b)
           | None => None
           end
  end.

(** [s.split(sep, 1)] *)
Definition split_1 (s sep : string) : pure_result (list string) :=
  match sep with
  | EmptyString => inl (ValueError "empty separator")
  | String _ _ =>
      match cut sep s with
      | Some (a, b) => inr [a; b]
      | None => inr [s]
      end
  end.

(** ** Dictionaries of strings *)

(** [d[k] = v]: a key keeps the place of its first insertion. *)
Fixpoint dict_set (k v : string) (d : list (string * string))
  : list (string * string) :=
  match d with
  | [] => [(k, v)]
  | (k', v') :: d' =>
      if String.eqb k k' then (k', v) :: d' else (k', v') :: dict_set k v d'
  end.

Definition decimal (n : nat) : string :=
  NilEmpty.string_of_uint (Nat.to_uint n).

(** [dict(elements)], the elements from number [i] on, added to [d]:
    every element must have two members. *)
Fixpoint dict_update (i : nat) (elements : list (list string))
         (d : list (string * string)) : pure_result (list (string * string)) :=
  match elements with
  | [] => inr d
  | [k; v] :: rest => dict_update (S i) rest (dict_set k v d)
  | e :: _ =>
      inl (ValueError
             ("dictionary update sequence element #" ++ decimal i
              ++ " has length " ++ decimal (length e)
              ++ "; 2 is required")%string)
  end.

(** [item.split("=", 1) for item in items] *)
Fixpoint split_items (items : list string) : pure_result (list (list string)) :=
  match items with
  | [] => inr []
  | item :: rest =>
      (e <- split_1 item "=" ;;
       es <- split_items rest ;;
       inr (e :: es))%pure
  end.

(** Line 33. The generator is consumed by [dict] one element at a time;
    with the separator ["="] no split raises, so the only exception is
    that of the first element without two members. *)
Definition parse_cookies (cookie_input : string)
  : pure_result (list (string * string)) :=
  (items <- split cookie_input "; " ;;
   elements <- split_items items ;;
   dict_update 0 elements [])%pure.

(** The names of lines 36-43. *)
Definition cookie_names : list string :=
  ["seen_student_memo"; "dtCookie"; "cmp-session-id"; "UserPass";
   "scalcet9"; "cmp-policy"; "AWSELB"; "QSI_HistorySession"].

(** The dictionary [cookies]: [None] for a name the input lacks. *)
Definition cookies_of (cookie_dict : list (string * string))
  : list (string * option string) :=
  map (fun name => (name, assoc name cookie_dict)) cookie_names.

(** ** The window *)

Record site : Type := {
  entry_field : string;
  service : list (string * option string) -> exn + json
}.

(** What a callback leaves behind. *)
Record run : Type := {
  uncaught : option exn;
  output_box : string;
  sent : list (list (string * option string))
}.

Section Viewer.

Variable fromisoformat : string -> option datetime.

(** [d.strftime("%Y-%m-%d %H:%M")] *)
Variable strftime : datetime -> string.

Variable lower : string -> string.

Variable py_str : json -> string.

Variable str_exn : exn -> string.

(** Line 19. *)
Definition header (label : string) : string :=
  (nl ++ label ++ " Homework Assignments:" ++ nl ++ times "-" 40 ++ nl)%string.

(** Lines 23-28: the bare [except] also catches the [TypeError] of a
    due date that is no string. *)
Definition due_text (due : json) : string :=
  match due with
  | JStr s =>
      match fromisoformat s with
      | Some due_dt => strftime due_dt
      | None => py_str due
      end
  | _ => py_str due
  end.

(** The condition of line 21. *)
Definition is_homework (a : json) : pure_result bool :=
  (category <- get_method a "category" (JStr "") ;;
   match category with
   | JStr s => inr (String.eqb (lower s) "homework")
   | other => inl (AttributeError (type_name other) "lower")
   end)%pure.

(** Lines 22-29: the text inserted for a homework record. *)
Definition item_text (a : json) : pure_result string :=
  (due <- get_method a "due" JNull ;;
   name <- getitem a "name" ;;
   inr (py_str name ++ " | Due: " ++ due_text due ++ nl)%string)%pure.

(** Lines 20-29: the loop, the box being [box]; it returns the
    exception that ended it, if any, and the box it leaves. *)
Fixpoint print_items (items : list json) (box : string)
  : option builtin_exn * string :=
  match items with
  | [] => (None, box)
  | a :: rest =>
      match is_homework a with
      | inl e => (Some e, box)
      | inr false => print_items rest box
      | inr true =>
          match item_text a with
          | inl e => (Some e, box)
          | inr text => print_items rest (box ++ text)%string
          end
      end
  end.

Definition print_homework_assignments (assignments : json) (label : string)
           (box : string) : option builtin_exn * string :=
  let box' := (box ++ header label)%string in
  match py_iter assignments with
  | inl e => (Some e, box')
  | inr items => print_items items box'
  end.

Definition error_line (e : exn) : string :=
  ("Error: " ++ str_exn e ++ nl)%string.

(** Lines 54-56, [data] being what line 49 returned. *)
Definition show_assignments (data : json) : option builtin_exn * string :=
  match get_method data "currentAssignments" (JArr []) with
  | inl e => (Some e, EmptyString)
  | inr current =>
      match print_homework_assignments current "Current" EmptyString with
      | (Some e, box) => (Some e, box)
      | (None, box) =>
          match get_method data "pastAssignments" (JArr []) with
          | inl e => (Some e, box)
          | inr past => print_homework_assignments past "Past" box
          end
      end
  end.

(** The callback of the Submit button, the box holding [box]. *)
Definition submit_cookie (s : site) (box : string) : run :=
  match parse_cookies (entry_field s) with
  | inl e => {| uncaught := Some (Builtin e); output_box := box; sent := [] |}
  | inr cookie_dict =>
      let cookies := cookies_of cookie_dict in
      let fetched :=
        match service s cookies with
        | inl e => inl e
        | inr body =>
            match get_method body "data" (JObj []) with
            | inl e => inl (Builtin e)
            | inr data => inr data
            end
        end in
      match fetched with
      | inl e =>
          {| uncaught := None;
             output_box := (box ++ error_line e)%string;
             sent := [cookies] |}
      | inr data =>
          let (e, box') := show_assignments data in
          {| uncaught := option_map Builtin e;
             output_box := box';
             sent := [cookies] |}
      end
  end.

End Viewer.

(** ** Vocabulary of the viewer's properties *)

(** [sep.join(items)] *)
Fixpoint join (sep : string) (items : list string) : string :=
  match items with
  | [] => EmptyString
  | [item] => item
  | item :: rest => (item ++ sep ++ join sep rest)%string
  end.

(** A cookie header as a browser shows it: [name=value] pairs joined by
    ["; "]. *)
Definition cookie_header (pairs : list (string * string)) : string :=
  join "; " (map (fun kv => (fst kv ++ "=" ++ snd kv)%string) pairs).

(** A pair a cookie header can carry: no [;] in either part, and no [=]
    in the name. *)
Definition plain_pair (kv : string * string) : Prop :=
  PyStr.contains_char ";" (fst kv) = false
  /\ PyStr.contains_char "=" (fst kv) = false
  /\ PyStr.contains_char ";" (snd kv) = false.

(** The category of a record: the empty string when it has none. *)
Definition category_of (fields : list (string * json)) : json :=
  match assoc "category" fields with
  | Some category => category
  | None => JStr ""
  end.

(** A record the printer can read: a dictionary whose category is a
    string, and which has a name when that category makes it
    homework. *)
Definition readable (lower : string -> string) (a : json) : Prop :=
  exists fields s,
    a = JObj fields
    /\ category_of fields = JStr s
    /\ (String.eqb (lower s) "homework" = true ->
        exists name, assoc "name" fields = Some name).

(** Whether the printer takes a record for homework. *)
Definition homework_record (lower : string -> string) (a : json) : bool :=
  match a with
  | JObj fields =>
      match category_of fields with
      | JStr s => String.eqb (lower s) "homework"
      | _ => false
      end
  | _ => false
  end.

(** The line of a record: its name, and its due date as the printer
    shows it. *)
Definition line_of (fromisoformat : string -> option datetime)
           (strftime : datetime -> string) (py_str : json -> string)
           (a : json) : string :=
  match a with
  | JObj fields =>
      (py_str (match assoc "name" fields with
               | Some name => name
               | None => JNull
               end)
       ++ " | Due: "
       ++ due_text fromisoformat strftime py_str
            (match assoc "due" fields with
             | Some due => due
             | None => JNull
             end)
       ++ nl)%string
  | _ => EmptyString
  end.

(** Concatenation of texts. *)
Fixpoint text_of (lines : list string) : string :=
  match lines with
  | [] => EmptyString
  | l :: rest => (l ++ text_of rest)%string
  end.

End WebAssign.
Module Cookies.

(** A header with a cookie the viewer sends, one it does not, and a
    name given twice. *)
Definition pairs : list (string * string) :=
  [("UserPass", "abc"); ("theme", "dark"); ("AWSELB", "x=1");
   ("UserPass", "xyz")].

Definition quiet_site (entry : string) (answer : exn + json)
  : WebAssign.site :=
  {| WebAssign.entry_field := entry;
     WebAssign.service := fun _ => answer |}.

Definition record (name category : string) (due : json) : json :=
  JObj [("name", JStr name); ("category", JStr category); ("due", due)].

(** A current homework with a due date that does not parse, a current
    quiz, and a past homework without due date. *)
Definition listing : json :=
  JObj [("data",
         JObj [("currentAssignments",
                JArr [record "HW 7" "Homework" (JStr "soon");
                      record "Quiz 3" "quiz" JNull]);
               ("pastAssignments",
                JArr [JObj [("category", JStr "homework");
                            ("name", JStr "HW 1")]])])].

(** ASCII lower case. *)
Definition lower_char (c : ascii) : ascii :=
  let n := nat_of_ascii c in
  if ((65 <=? n) && (n <=? 90))%nat then ascii_of_nat (n + 32) else c.

Fixpoint lower (s : string) : string :=
  match s with
  | EmptyString => EmptyString
  | String c s' => String (lower_char c) (lower s')
  end.

Definition strftime (_ : datetime) : string := "<date>".

Definition str_exn (_ : exn) : string := "<exception>".

End Cookies.

(** * Properties *)

(** ** Traces and computations *)

Lemma requests_of_app (a b : trace) :
  requests_of (a ++ b) = requests_of a ++ requests_of b.
Proof.
  induction a as [|e a IH]; simpl; [reflexivity|].
  destruct e; simpl; rewrite ?IH; reflexivity.
Qed.

Lemma clock_reads_app (a b : trace) :
  clock_reads (a ++ b) = (clock_reads a + clock_reads b)%nat.
Proof.
  induction a as [|e a IH]; simpl; [reflexivity|].
  destruct e; simpl; rewrite ?IH; reflexivity.
Qed.

Lemma progress_calls_app (a b : trace) :
  progress_calls (a ++ b) = progress_calls a ++ progress_calls b.
Proof.
  induction a as [|e a IH]; simpl; [reflexivity|].
  destruct e as [| | |[|]| | | | | | | |]; simpl; rewrite ?IH; reflexivity.
Qed.

Lemma bind_Ok (A B : Type) (m : M A) (f : A -> M B) t a e1 :
  m t = (Ok a, e1) ->
  bind m f t = (fst (f a (t ++ e1)), e1 ++ snd (f a (t ++ e1))).
Proof.
  intros H. unfold bind. rewrite H. destruct (f a (t ++ e1)); reflexivity.
Qed.

Lemma bind_Raise (A B : Type) (m : M A) (f : A -> M B) t e e1 :
  m t = (Raise e, e1) -> bind m f t = (Raise e, e1).
Proof. intros H. unfold bind. rewrite H. reflexivity. Qed.

Lemma bind_OutOfFuel (A B : Type) (m : M A) (f : A -> M B) t e1 :
  m t = (OutOfFuel, e1) -> bind m f t = (OutOfFuel, e1).
Proof. intros H. unfold bind. rewrite H. reflexivity. Qed.

Arguments bind_Ok {A B m} f {t a e1} _.
Arguments bind_Raise {A B m} f {t e e1} _.
Arguments bind_OutOfFuel {A B m} f {t e1} _.

Lemma bind_Ok_inv (A B : Type) (m : M A) (f : A -> M B) t b evs :
  bind m f t = (Ok b, evs) ->
  exists a e1 e2,
    m t = (Ok a, e1) /\ f a (t ++ e1) = (Ok b, e2) /\ evs = e1 ++ e2.
Proof.
  unfold bind. destruct (m t) as [[a|e|] e1]; try discriminate.
  destruct (f a (t ++ e1)) as [r e2] eqn:E. intros H. inversion H; subst.
  exists a, e1, e2. auto.
Qed.

Lemma bind_ret (A B : Type) (a : A) (f : A -> M B) t :
  bind (ret a) f t = f a t.
Proof.
  unfold bind, ret. rewrite app_nil_r. destruct (f a t); reflexivity.
Qed.

Lemma bind_emit (B : Type) (e : event) (f : unit -> M B) t :
  bind (emit e) f t = (fst (f tt (t ++ [e])), e :: snd (f tt (t ++ [e]))).
Proof.
  unfold bind, emit. destruct (f tt (t ++ [e])); reflexivity.
Qed.

Lemma bind_raise (A B : Type) (e : exn) (f : A -> M B) t :
  bind (raise e) f t = (Raise e, []).
Proof. reflexivity. Qed.

(** ** The paginated fetcher *)

Section Fetcher.

Variable w : world.
Variable hdrs : list (string * string).

Lemma requests_get_reply u ps t r :
  server w (requests_of t) (mk_request u hdrs ps) = Reply r ->
  requests_get w u hdrs ps t = (Ok r, [EvRequest (mk_request u hdrs ps)]).
Proof. intros H. unfold requests_get. fold (mk_request u hdrs ps). rewrite H. reflexivity. Qed.

Lemma eqb_empty_false u : u <> "" -> String.eqb u "" = false.
Proof. intros H. apply String.eqb_neq. exact H. Qed.

Lemma get_all_pages_from_None fuel ps results :
  get_all_pages_from w fuel None hdrs ps results = ret results.
Proof. destruct fuel; reflexivity. Qed.

(** One successful turn of the loop. *)
Lemma get_all_pages_from_step fuel u ps results t r items :
  u <> "" ->
  server w (requests_of t) (mk_request u hdrs ps) = Reply r ->
  is_error_status (status_code r) = false ->
  body r = Some (JArr items) ->
  get_all_pages_from w (S fuel) (Some u) hdrs ps results t =
  let t' := t ++ [EvRequest (mk_request u hdrs ps)] in
  let k :=
    match assoc "next" (links r) with
    | Some next => get_all_pages_from w fuel (Some next) hdrs None (results ++ items)
    | None => get_all_pages_from w fuel None hdrs ps (results ++ items)
    end in
  (fst (k t'), EvRequest (mk_request u hdrs ps) :: snd (k t')).
Proof.
  intros Hu Hs He Hb. simpl.
  rewrite (@eqb_empty_false u Hu).
  rewrite (bind_Ok _ (@requests_get_reply u ps t r Hs)).
  unfold raise_for_status, response_json. rewrite He, Hb.
  rewrite !bind_ret. simpl lift. rewrite bind_ret.
  destruct (assoc "next" (links r)); reflexivity.
Qed.

Lemma get_all_pages_from_chain hist u ps pages reqs :
  page_chain w hdrs hist u ps pages reqs ->
  forall fuel t results,
    requests_of t = hist ->
    (length pages <= fuel)%nat ->
    get_all_pages_from w fuel (Some u) hdrs ps results t =
    (Ok (results ++ concat pages), map EvRequest reqs).
Proof.
  induction 1 as [hist u ps r items Hu Hs He Hb Hn
                 |hist u ps r items next pages reqs Hu Hs He Hb Hn Hc IH];
    intros fuel t results Ht Hf; subst hist;
    (destruct fuel as [|fuel]; [simpl in Hf; lia|]);
    rewrite (@get_all_pages_from_step fuel u ps results t r items Hu Hs He Hb), Hn; simpl.
  - rewrite get_all_pages_from_None, app_nil_r. reflexivity.
  - rewrite IH.
    + simpl. rewrite app_assoc. reflexivity.
    + rewrite requests_of_app. reflexivity.
    + simpl in Hf. lia.
Qed.

Lemma page_chain_requests hist u ps pages reqs :
  page_chain w hdrs hist u ps pages reqs ->
  length reqs = length pages /\
  exists urls, reqs = mk_request u hdrs ps
                      :: map (fun u' => mk_request u' hdrs None) urls.
Proof.
  induction 1 as [|hist u ps r items next pages reqs Hu Hs He Hb Hn Hc IH].
  - split; [reflexivity|]. exists []. reflexivity.
  - destruct IH as [Hl [urls Hr]]. split; [simpl; congruence|].
    exists (next :: urls). simpl. rewrite Hr. reflexivity.
Qed.

End Fetcher.

(** C3. When the server answers with a chain of pages that ends in a page
    without a next link, [get_all_pages] returns the bodies concatenated
    in page order, issues one request per page, and sends the caller's
    query parameters with the first request only. *)
Theorem get_all_pages_follows_chain
        (w : world) (hdrs : list (string * string)) (u : string)
        (ps : option (list (string * string)))
        (pages : list (list json)) (reqs : list request)
        (fuel : nat) (t : trace) :
  page_chain w hdrs (requests_of t) u ps pages reqs ->
  (length pages <= fuel)%nat ->
  get_all_pages w fuel u hdrs ps t = (Ok (concat pages), map EvRequest reqs)
  /\ length reqs = length pages
  /\ exists urls,
      reqs = mk_request u hdrs ps
             :: map (fun u' => mk_request u' hdrs None) urls.
Proof.
  intros Hc Hf. split.
  - unfold get_all_pages.
    erewrite get_all_pages_from_chain by eauto. reflexivity.
  - eapply page_chain_requests; eauto.
Qed.

(** Three pages of sizes 2, 2 and 1: five records from three requests. *)
Lemma get_all_pages_three_pages :
  let ps := Some [("enrollment_state", "active")] in
  let hdrs := Examples.bearer in
  get_all_pages Examples.w_three_pages 3 "page1" hdrs ps []
  = (Ok [Examples.rec 1; Examples.rec 2; Examples.rec 3; Examples.rec 4;
         Examples.rec 5],
     [EvRequest (mk_request "page1" hdrs ps);
      EvRequest (mk_request "page2" hdrs None);
      EvRequest (mk_request "page3" hdrs None)]).
Proof.
  intros ps hdrs.
  assert (Hc : page_chain Examples.w_three_pages hdrs (requests_of []) "page1" ps
                 [[Examples.rec 1; Examples.rec 2];
                  [Examples.rec 3; Examples.rec 4];
                  [Examples.rec 5]]
                 [mk_request "page1" hdrs ps;
                  mk_request "page2" hdrs None;
                  mk_request "page3" hdrs None]).
  { eapply chain_next;
      [discriminate | reflexivity | reflexivity | reflexivity | reflexivity |].
    eapply chain_next;
      [discriminate | reflexivity | reflexivity | reflexivity | reflexivity |].
    eapply chain_last;
      [discriminate | reflexivity | reflexivity | reflexivity | reflexivity]. }
  exact (proj1 (@get_all_pages_follows_chain Examples.w_three_pages hdrs "page1"
                  ps _ _ 3 [] Hc (le_n 3))).
Defined.

(** ** Stable sorting *)

Section StableSortFacts.

Variable A : Type.
Variable key : A -> Z.

Lemma insert_by_perm x l : Permutation (insert_by key x l) (x :: l).
Proof.
  induction l as [|y l IH]; simpl; [reflexivity|].
  destruct (key y <? key x); [|reflexivity].
  rewrite IH. apply perm_swap.
Qed.

Lemma sort_by_perm l : Permutation (sort_by key l) l.
Proof.
  induction l as [|x l IH]; simpl; [reflexivity|].
  rewrite insert_by_perm. constructor. exact IH.
Qed.

Lemma insert_by_sorted x l :
  StronglySorted (key_le key) l ->
  StronglySorted (key_le key) (insert_by key x l).
Proof.
  induction 1 as [|y l Hs IH Hy]; simpl.
  - repeat constructor.
  - destruct (key y <? key x) eqn:E.
    + constructor; [exact IH|].
      eapply Permutation_Forall; [symmetry; apply insert_by_perm|].
      constructor; [|exact Hy]. unfold key_le. lia.
    + constructor; [constructor; assumption|].
      constructor; [unfold key_le; lia|].
      eapply Forall_impl; [|exact Hy].
      unfold key_le. intros a Ha. lia.
Qed.

Lemma sort_by_sorted l : StronglySorted (key_le key) (sort_by key l).
Proof.
  induction l as [|x l IH]; simpl; [constructor|].
  apply insert_by_sorted. exact IH.
Qed.

(** Insertion never moves a record past another with the same key. *)
Lemma insert_by_stable k x l :
  filter (has_key key k) (insert_by key x l)
  = filter (has_key key k) (x :: l).
Proof.
  induction l as [|y l IH]; [reflexivity|].
  simpl insert_by. destruct (key y <? key x) eqn:E; [|reflexivity].
  simpl. simpl in IH. rewrite IH. unfold has_key.
  destruct (key y =? k) eqn:Ey; destruct (key x =? k) eqn:Ex;
    try reflexivity.
  lia.
Qed.

Lemma sort_by_stable k l :
  filter (has_key key k) (sort_by key l) = filter (has_key key k) l.
Proof.
  induction l as [|x l IH]; [reflexivity|].
  simpl sort_by. rewrite insert_by_stable. simpl. rewrite IH. reflexivity.
Qed.

Lemma sort_by_fixes_sorted l :
  StronglySorted (key_le key) l -> sort_by key l = l.
Proof.
  induction 1 as [|x l Hs IH Hx]; [reflexivity|].
  simpl. rewrite IH. destruct l as [|y l]; [reflexivity|].
  simpl. inversion Hx as [|? ? Hy _]; subst. unfold key_le in Hy.
  destruct (key y <? key x) eqn:E; [lia|reflexivity].
Qed.

Lemma sort_by_idempotent l : sort_by key (sort_by key l) = sort_by key l.
Proof. apply sort_by_fixes_sorted, sort_by_sorted. Qed.

Lemma insert_by_map (B : Type) (f : B -> A) x l :
  map f (insert_by (fun b => key (f b)) x l) = insert_by key (f x) (map f l).
Proof.
  induction l as [|y l IH]; [reflexivity|].
  simpl. destruct (key (f y) <? key (f x)); simpl; rewrite ?IH; reflexivity.
Qed.

Lemma sort_by_map (B : Type) (f : B -> A) l :
  map f (sort_by (fun b => key (f b)) l) = sort_by key (map f l).
Proof.
  induction l as [|x l IH]; [reflexivity|].
  simpl. rewrite insert_by_map, IH. reflexivity.
Qed.

Lemma insert_by_ext (key' : A -> Z) x l :
  (forall a, In a (x :: l) -> key' a = key a) ->
  insert_by key' x l = insert_by key x l.
Proof.
  induction l as [|y l IH]; intros H; [reflexivity|].
  simpl. rewrite (H x), (H y) by (simpl; auto).
  rewrite IH; [reflexivity|].
  intros a [Ha|Ha]; apply H; simpl; auto.
Qed.

Lemma sort_by_ext (key' : A -> Z) l :
  (forall a, In a l -> key' a = key a) ->
  sort_by key' l = sort_by key l.
Proof.
  induction l as [|x l IH]; intros H; [reflexivity|].
  simpl. rewrite IH by (intros; apply H; simpl; auto).
  apply insert_by_ext. intros a [Ha|Ha]; apply H; simpl; auto.
  right. eapply Permutation_in; [apply sort_by_perm|exact Ha].
Qed.

End StableSortFacts.

(** ** Classification *)

Section ClassificationFacts.

Variable fromisoformat : string -> option datetime.

Lemma dt_ge_inr d now b :
  dt_ge d now = inr b -> is_aware d = is_aware now.
Proof. destruct d, now; simpl; intros H; congruence. Qed.

Lemma dt_lt_same_kind a b :
  is_aware a = is_aware b -> dt_lt a b = inr (dt_key a <? dt_key b).
Proof. destruct a, b; simpl; intros H; congruence. Qed.

Lemma is_upcoming_true now a :
  is_upcoming fromisoformat now a = inr true -> (parses_like fromisoformat) now a.
Proof.
  unfold is_upcoming. destruct (is_None (due_at a)); [discriminate|].
  destruct (parse_due_date fromisoformat (due_at a)) as [e|d] eqn:E; simpl; [discriminate|].
  intros H. exists d. split; [exact E|]. eapply dt_ge_inr; eauto.
Qed.

Lemma filter_upcoming_inr now all l :
  filter_upcoming fromisoformat now all = inr l ->
  l = filter ((kept fromisoformat) now) all /\ Forall ((parses_like fromisoformat) now) l.
Proof.
  revert l. induction all as [|a all IH]; simpl; intros l H.
  - inversion H. split; [reflexivity|constructor].
  - destruct (is_upcoming fromisoformat now a) as [e|b] eqn:Ea;
      simpl in H; [discriminate|].
    destruct (filter_upcoming fromisoformat now all) as [e|l'] eqn:El;
      simpl in H; [discriminate|].
    destruct (IH l' eq_refl) as [Hl Hp]. inversion H; subst l.
    assert (Hk : kept fromisoformat now a = b)
      by (unfold kept; rewrite Ea; reflexivity).
    rewrite Hk. destruct b.
    + split; [rewrite <- Hl; reflexivity|].
      constructor; [apply is_upcoming_true; exact Ea|exact Hp].
    + split; assumption.
Qed.

Lemma due_key_parsed a d : parse_due_date fromisoformat (due_at a) = inr d -> (due_key fromisoformat) a = dt_key d.
Proof.
  intros H. unfold due_key. rewrite H. destruct d; reflexivity.
Qed.

(** Keys of records of one kind: computed without an exception, one per
    record, each the datetime the record is ordered by. *)
Lemma sort_keys_inr now l :
  Forall ((parses_like fromisoformat) now) l ->
  exists keyed,
    sort_keys fromisoformat l = inr keyed /\
    map snd keyed = l /\
    Forall (fun p => is_aware (fst p) = is_aware now
                     /\ dt_key (fst p) = (due_key fromisoformat) (snd p)) keyed.
Proof.
  induction 1 as [|a l [d [Hd Ha]] Hl [keyed [Hk [Hm Hf]]]]; simpl.
  - exists []. repeat split; constructor.
  - rewrite Hd, Hk. simpl. exists ((d, a) :: keyed). repeat split.
    + simpl. rewrite Hm. reflexivity.
    + constructor; [|exact Hf]. simpl. split; [exact Ha|].
      symmetry. apply due_key_parsed. exact Hd.
Qed.

Lemma insert_keyed_inr aw x l :
  is_aware (fst x) = aw ->
  Forall (fun p => is_aware (fst p) = aw) l ->
  insert_keyed x l = inr (insert_by pair_key x l).
Proof.
  intros Hx. induction 1 as [|y l Hy Hl IH]; [reflexivity|].
  simpl. rewrite dt_lt_same_kind by congruence. simpl.
  unfold pair_key at 1 2.
  destruct (dt_key (fst y) <? dt_key (fst x)); [|reflexivity].
  rewrite IH. reflexivity.
Qed.

Lemma sort_keyed_inr aw l :
  Forall (fun p => is_aware (fst p) = aw) l ->
  sort_keyed l = inr (sort_by pair_key l).
Proof.
  induction 1 as [|x l Hx Hl IH]; [reflexivity|].
  simpl. rewrite IH. simpl. apply insert_keyed_inr with (aw := aw).
  - exact Hx.
  - eapply Permutation_Forall; [symmetry; apply sort_by_perm|exact Hl].
Qed.

(** On records of one kind [list.sort] is the stable sort by [(due_key fromisoformat)]. *)
Lemma sort_by_due_inr now l :
  Forall ((parses_like fromisoformat) now) l ->
  sort_by_due fromisoformat l = inr (sort_by (due_key fromisoformat) l).
Proof.
  intros H. destruct (sort_keys_inr H) as [keyed [Hk [Hm Hf]]].
  unfold sort_by_due. rewrite Hk. simpl.
  rewrite (@sort_keyed_inr (is_aware now) keyed).
  - simpl. f_equal. rewrite <- Hm.
    rewrite <- (sort_by_map (due_key fromisoformat) snd). f_equal.
    apply sort_by_ext. intros p Hp.
    rewrite Forall_forall in Hf. apply (Hf p Hp).
  - eapply Forall_impl; [|exact Hf]. intros p Hp. apply Hp.
Qed.

Lemma classify_inr now all up nd :
  classify fromisoformat now all = inr (up, nd) ->
  up = sort_by (due_key fromisoformat) (filter ((kept fromisoformat) now) all)
  /\ nd = no_due_of all
  /\ Forall ((parses_like fromisoformat) now) up.
Proof.
  unfold classify.
  destruct (filter_upcoming fromisoformat now all) as [e|l] eqn:El;
    simpl; [discriminate|].
  destruct (filter_upcoming_inr _ _ El) as [Hl Hp].
  rewrite (sort_by_due_inr Hp). simpl. intros H. inversion H; subst.
  repeat split.
  eapply Permutation_Forall; [symmetry; apply sort_by_perm|exact Hp].
Qed.

(** *** Records that can be placed *)

Lemma is_upcoming_resolvable nw no a :
  (resolvable fromisoformat) a ->
  is_upcoming fromisoformat (Aware nw no) a
  = inr ((in_upcoming fromisoformat) (utc_of nw no) a).
Proof.
  unfold is_upcoming, in_upcoming, due_instant.
  intros [H|[i H]].
  - rewrite H. reflexivity.
  - unfold due_instant in H.
    destruct (due_at a) eqn:Ed; simpl in *; try discriminate.
    destruct (fromisoformat _) as [[wall|wall off]|]; simpl;
      try discriminate.
    reflexivity.
Qed.

Lemma filter_upcoming_resolvable nw no all :
  Forall (resolvable fromisoformat) all ->
  filter_upcoming fromisoformat (Aware nw no) all
  = inr (filter ((in_upcoming fromisoformat) (utc_of nw no)) all).
Proof.
  induction 1 as [|a all Ha Hall IH]; [reflexivity|].
  simpl. rewrite (is_upcoming_resolvable nw no Ha), IH. reflexivity.
Qed.

Lemma resolvable_one_of_three now a :
  (resolvable fromisoformat) a ->
  one_of_three ((in_upcoming fromisoformat) now a) (in_no_due a) ((in_discarded_past fromisoformat) now a)
  = true.
Proof.
  unfold in_upcoming, in_no_due, in_discarded_past.
  intros [H|[i H]].
  - unfold due_instant. rewrite H. reflexivity.
  - rewrite H. assert (Hn : is_None (due_at a) = false).
    { unfold due_instant in H.
      destruct (due_at a); try reflexivity. discriminate. }
    rewrite Hn. destruct (now <=? i) eqn:E1; destruct (i <? now) eqn:E2;
      try reflexivity; lia.
Qed.

Lemma three_filters_partition (A : Type) (p q r : A -> bool) l :
  Forall (fun a => one_of_three (p a) (q a) (r a) = true) l ->
  Permutation l (filter p l ++ filter q l ++ filter r l).
Proof.
  induction 1 as [|a l Ha Hl IH]; [reflexivity|].
  simpl. destruct (p a), (q a), (r a); try discriminate; simpl.
  - constructor. exact IH.
  - etransitivity; [constructor; exact IH|]. apply Permutation_middle.
  - etransitivity; [constructor; exact IH|].
    rewrite !app_assoc. apply Permutation_middle.
Qed.

End ClassificationFacts.

(** ** What a computation may emit, raise and return *)

Section Soundness.

Variable P : event -> Prop.
Variable Q : exn -> Prop.

Lemma sound_ret (A : Type) (R : A -> Prop) (a : A) :
  R a -> sound P Q R (ret a).
Proof. intros H t. simpl. auto. Qed.

Lemma sound_emit (R : unit -> Prop) (e : event) :
  P e -> R tt -> sound P Q R (emit e).
Proof. intros H Hr t. simpl. auto. Qed.

Lemma sound_raise (A : Type) (R : A -> Prop) (e : exn) :
  Q e -> sound P Q R (raise e).
Proof. intros H t. simpl. auto. Qed.

Lemma sound_out_of_fuel (A : Type) (R : A -> Prop) :
  sound P Q R (@out_of_fuel A).
Proof. intros t. simpl. auto. Qed.

Lemma sound_lift (A : Type) (R : A -> Prop) (p : pure_result A) :
  (forall e, p = inl e -> Q (Builtin e)) ->
  (forall a, p = inr a -> R a) ->
  sound P Q R (lift p).
Proof.
  intros He Ha. destruct p as [e|a]; simpl.
  - apply sound_raise. auto.
  - apply sound_ret. auto.
Qed.

Lemma sound_response_json (R : json -> Prop) (r : response) :
  Q JSONDecodeError ->
  (forall j, body r = Some j -> R j) ->
  sound P Q R (response_json r).
Proof.
  intros Hq Hr. unfold response_json. destruct (body r) as [j|].
  - apply sound_ret. auto.
  - apply sound_raise. exact Hq.
Qed.

Lemma sound_bind (A B : Type) (Ra : A -> Prop) (Rb : B -> Prop)
      (m : M A) (f : A -> M B) :
  sound P Q Ra m ->
  (forall a, Ra a -> sound P Q Rb (f a)) ->
  sound P Q Rb (bind m f).
Proof.
  intros Hm Hf t. specialize (Hm t). unfold bind.
  destruct (m t) as [[a|e|] e1]; simpl in *; try exact Hm.
  destruct Hm as [He1 Ha]. specialize (Hf a Ha (t ++ e1)).
  destruct (f a (t ++ e1)) as [r e2]. simpl in *.
  destruct Hf as [He2 Hr]. split; [|exact Hr].
  apply Forall_app. auto.
Qed.

Lemma sound_for_each (A : Type) (f : A -> M unit) (l : list A) :
  (forall a, In a l -> sound P Q (@anything unit) (f a)) ->
  sound P Q (@anything unit) (for_each f l).
Proof.
  induction l as [|a l IH]; intros H; simpl.
  - apply sound_ret. exact I.
  - eapply sound_bind; [apply H; simpl; auto|].
    intros _ _. apply IH. intros b Hb. apply H. simpl. auto.
Qed.

Lemma sound_try_except (A : Type) (R : A -> Prop) (Q' : exn -> Prop)
      (m : M A) (handler : exn -> M A) :
  sound P Q' R m ->
  (forall e, Q' e -> sound P Q R (handler e)) ->
  sound P Q R (try_except m handler).
Proof.
  intros Hm Hh t. specialize (Hm t). unfold try_except.
  destruct (m t) as [[a|e|] e1]; simpl in *; try exact Hm.
  destruct Hm as [He1 He]. specialize (Hh e He (t ++ e1)).
  destruct (handler e (t ++ e1)) as [r e2]. simpl in *.
  destruct Hh as [He2 Hr]. split; [|exact Hr]. apply Forall_app. auto.
Qed.

Lemma sound_try_finally (A : Type) (R : A -> Prop)
      (m : M A) (fin : M unit) :
  sound P Q R m ->
  sound P Q (@anything unit) fin ->
  sound P Q R (try_finally m fin).
Proof.
  intros Hm Hf t. specialize (Hm t). unfold try_finally.
  destruct (m t) as [r e1]. simpl in Hm. destruct Hm as [He1 Hr].
  specialize (Hf (t ++ e1)).
  destruct (fin (t ++ e1)) as [r2 e2]. simpl in Hf. destruct Hf as [He2 Hr2].
  destruct r as [a|e|]; [| |simpl; auto];
    destruct r2 as [[]|e'|]; simpl; (split; [apply Forall_app; auto|auto]).
Qed.

End Soundness.

Lemma sound_weaken (A : Type) (P P' : event -> Prop) (Q Q' : exn -> Prop)
      (R R' : A -> Prop) (m : M A) :
  sound P Q R m ->
  (forall e, P e -> P' e) -> (forall e, Q e -> Q' e) ->
  (forall a, R a -> R' a) ->
  sound P' Q' R' m.
Proof.
  intros Hm HP HQ HR t. destruct (Hm t) as [He Hr]. split.
  - eapply Forall_impl; [|exact He]. exact HP.
  - destruct (fst (m t)); auto.
Qed.

(** ** The parts of the worker, one by one *)

Lemma getitem_exn j k e : getitem j k = inl e -> record_exn e.
Proof.
  destruct j; simpl; try (intros H; inversion H; exact I).
  destruct (assoc k fields); intros H; inversion H. exact I.
Qed.

Lemma get_method_exn j k d e : get_method j k d = inl e -> record_exn e.
Proof.
  destruct j; simpl; try (intros H; inversion H; reflexivity).
  destruct (assoc k fields); discriminate.
Qed.

Lemma py_iter_exn j e : py_iter j = inl e -> exists s, e = TypeError s.
Proof.
  destruct j; simpl; intros H; inversion H; eauto.
Qed.

Lemma tag_assignments_exn cname l all e :
  tag_assignments cname l all = inl e -> record_exn e.
Proof.
  revert all. induction l as [|a l IH]; simpl; intros all H; [discriminate|].
  destruct (getitem a "name") as [e1|name] eqn:E1; simpl in H.
  { inversion H; subst. eapply getitem_exn; eauto. }
  destruct (get_method a "due_at" JNull) as [e2|due] eqn:E2; simpl in H.
  { inversion H; subst. eapply get_method_exn; eauto. }
  eapply IH; eauto.
Qed.

Lemma hours_within_day (us : Z) :
  0 <= seconds (timedelta_of_usec us) / 3600 <= 23.
Proof.
  unfold timedelta_of_usec. simpl seconds.
  assert (Hm : 0 <= us mod usec_per_day < usec_per_day)
    by (apply Z.mod_pos_bound; reflexivity).
  assert (Hs : 0 <= us mod usec_per_day / usec_per_second < 86400).
  { split.
    - apply Z.div_pos; [lia|reflexivity].
    - apply Z.div_lt_upper_bound; [reflexivity|].
      change (usec_per_second * 86400) with usec_per_day. lia. }
  assert (Hh : 0 <= us mod usec_per_day / usec_per_second / 3600 < 24).
  { split.
    - apply Z.div_pos; lia.
    - apply Z.div_lt_upper_bound; lia. }
  lia.
Qed.

Lemma delta_label_ok cn an due (us : Z) :
  label_ok (DueItem cn an due
              (days (timedelta_of_usec us))
              (Z.max 0 (seconds (timedelta_of_usec us) / 3600))).
Proof.
  pose proof (hours_within_day us) as Hh.
  rewrite Z.max_r by apply Hh. split; [|exact Hh].
  exists us. split; [reflexivity|].
  unfold timedelta_of_usec. simpl seconds.
  rewrite Z.div_div by (unfold usec_per_second; lia). reflexivity.
Qed.

Lemma bucket_append_inl day x g e :
  bucket_append day x g = inl e -> e = KeyError day.
Proof.
  induction g as [|[d items] g IH]; simpl; intros H.
  - inversion H. reflexivity.
  - destruct (String.eqb day d); [discriminate|].
    destruct (bucket_append day x g); simpl in H; [|discriminate].
    inversion H; subst. apply IH. reflexivity.
Qed.

Lemma bucket_append_ok day x g g' :
  label_ok x -> grouping_ok g -> bucket_append day x g = inr g' ->
  grouping_ok g'.
Proof.
  intros Hx. revert g'. induction g as [|[d items] g IH]; simpl;
    intros g' Hg H; [discriminate|].
  inversion Hg as [|? ? Hb Hg']; subst.
  destruct (String.eqb day d).
  - inversion H; subst. constructor; [|exact Hg'].
    simpl. apply Forall_app. split; [exact Hb|]. constructor; auto.
  - destruct (bucket_append day x g) as [e|r]; simpl in H; [discriminate|].
    inversion H; subst. constructor; [exact Hb|]. apply IH; auto.
Qed.

Lemma bucket_get_ok day g items :
  grouping_ok g -> bucket_get day g = inr items -> Forall label_ok items.
Proof.
  unfold bucket_get. induction g as [|[d b] g IH]; simpl; intros Hg H;
    [discriminate|].
  inversion Hg as [|? ? Hb Hg']; subst.
  destruct (String.eqb day d).
  - inversion H; subst. exact Hb.
  - apply IH; assumption.
Qed.

Section Parts.

Variable fromisoformat : string -> option datetime.
Variable py_str : json -> string.
Variable w : world.

Lemma sound_requests_get u hdrs ps :
  sound only_request pages_exn (@anything response)
        (requests_get w u hdrs ps).
Proof.
  intros t. unfold requests_get.
  destruct (server w (requests_of t) _); simpl;
    (split; [repeat constructor|exact I]).
Qed.

Lemma sound_raise_for_status r u :
  sound only_request pages_exn (@anything unit) (raise_for_status r u).
Proof.
  unfold raise_for_status. destruct (is_error_status (status_code r)).
  - apply sound_raise. exact I.
  - apply sound_ret. exact I.
Qed.

Lemma sound_get_all_pages_from fuel :
  forall u hdrs ps results,
    sound only_request pages_exn (@anything (list json))
          (get_all_pages_from w fuel u hdrs ps results).
Proof.
  induction fuel as [|fuel IH]; intros u hdrs ps results;
    destruct u as [u|]; simpl; try (apply sound_ret; exact I);
    destruct (String.eqb u ""); try (apply sound_ret; exact I).
  - apply sound_out_of_fuel.
  - eapply sound_bind; [apply sound_requests_get|]. intros r _.
    eapply sound_bind; [apply sound_raise_for_status|]. intros _ _.
    eapply sound_bind with (Ra := @anything json);
      [apply sound_response_json; [exact I|intros; exact I]|].
    intros decoded _.
    eapply sound_bind with (Ra := @anything (list json)).
    + apply sound_lift; [|intros; exact I].
      intros e He. destruct (py_iter_exn _ He) as [s Hs]. subst. exact I.
    + intros items _. destruct (assoc "next" (links r)); apply IH.
Qed.

Lemma pages_exn_gather e : pages_exn e -> gather_exn e.
Proof. destruct e as [| |[]|]; simpl; intros H; try exact I; destruct H. Qed.

Lemma sound_get_all_pages (P : event -> Prop) fuel u hdrs ps :
  (forall r, P (EvRequest r)) ->
  sound P gather_exn (@anything (list json))
        (get_all_pages w fuel u hdrs ps).
Proof.
  intros HP.
  eapply sound_weaken; [apply sound_get_all_pages_from| | |auto].
  - intros [] H; try discriminate H. apply HP.
  - apply pages_exn_gather.
Qed.

Lemma sound_lift_record (P : event -> Prop) (A : Type) (p : pure_result A) :
  (forall e, p = inl e -> record_exn e) ->
  sound P gather_exn (@anything A) (lift p).
Proof.
  intros H. apply sound_lift; [|intros; exact I].
  intros e He. simpl. apply H. exact He.
Qed.

Lemma sound_log (P : event -> Prop) (Q : exn -> Prop) msg :
  P (EvLog msg) -> sound P Q (@anything unit) (log_status msg).
Proof. intros H. apply sound_emit; [exact H|exact I]. Qed.

Lemma sound_report_progress idx total :
  sound gather_event gather_exn (@anything unit)
        (report_progress idx total).
Proof.
  unfold report_progress.
  repeat (eapply sound_bind with (Ra := @anything unit);
          [apply sound_emit; exact I|intros _ _]).
  apply sound_emit; exact I.
Qed.

Lemma sound_compile_assignments fuel hdrs total courses :
  forall idx all,
    sound gather_event gather_exn (@anything (list assignment))
          (compile_assignments py_str w fuel hdrs total idx courses all).
Proof.
  induction courses as [|course courses IH]; intros idx all; simpl.
  - apply sound_ret. exact I.
  - eapply sound_bind;
      [apply sound_lift_record; intros e; apply getitem_exn|].
    intros course_id _.
    eapply sound_bind;
      [apply sound_lift_record; intros e; apply get_method_exn|].
    intros cname _.
    eapply sound_bind; [apply sound_log; exact I|]. intros _ _.
    eapply sound_bind; [apply sound_get_all_pages; intros; exact I|].
    intros assignments _.
    eapply sound_bind;
      [apply sound_lift_record; intros e; apply tag_assignments_exn|].
    intros all' _.
    eapply sound_bind; [apply sound_report_progress|]. intros _ _.
    apply IH.
Qed.

Lemma sound_fetch_courses fuel hdrs :
  sound courses_event gather_exn (@anything (list json))
        (fetch_courses py_str w fuel hdrs).
Proof.
  unfold fetch_courses.
  eapply sound_bind; [apply sound_log; exact I|]. intros _ _.
  eapply sound_bind; [apply sound_log; exact I|]. intros _ _.
  eapply sound_bind with (Ra := @anything response).
  { eapply sound_weaken; [apply sound_requests_get| | |auto].
    - intros [] H; try discriminate H. exact I.
    - apply pages_exn_gather. }
  intros user_resp _.
  eapply sound_bind with (Ra := @anything unit).
  { eapply sound_weaken; [apply sound_raise_for_status| | |auto].
    - intros [] H; try discriminate H. exact I.
    - apply pages_exn_gather. }
  intros _ _.
  eapply sound_bind with (Ra := @anything json);
    [apply sound_response_json; [exact I|intros; exact I]|].
  intros user _.
  eapply sound_bind;
    [apply sound_lift_record; intros e; apply getitem_exn|].
  intros user_id _.
  eapply sound_bind;
    [apply sound_lift_record; intros e; apply get_method_exn|].
  intros name _.
  eapply sound_bind with (Ra := @anything unit);
    [apply sound_emit; exact I|]. intros _ _.
  eapply sound_bind; [apply sound_log; exact I|]. intros _ _.
  eapply sound_bind; [apply sound_log; exact I|]. intros _ _.
  eapply sound_bind; [apply sound_get_all_pages; intros; exact I|].
  intros courses _.
  eapply sound_bind; [apply sound_log; exact I|]. intros _ _.
  eapply sound_bind with (Ra := @anything unit);
    [apply sound_emit; exact I|]. intros _ _.
  apply sound_ret. exact I.
Qed.

Lemma courses_event_gather e : courses_event e -> gather_event e.
Proof. destruct e; simpl; intros H; try exact I; destruct H. Qed.

Lemma sound_gather fuel hdrs :
  sound gather_event gather_exn (@anything (list assignment))
        (gather py_str w fuel hdrs).
Proof.
  unfold gather.
  eapply sound_bind with (Ra := @anything (list json)).
  { eapply sound_weaken; [apply sound_fetch_courses| | |auto]; auto.
    apply courses_event_gather. }
  intros courses _.
  eapply sound_bind; [apply sound_log; exact I|]. intros _ _.
  apply sound_compile_assignments.
Qed.

End Parts.

Section PresentParts.

Variable fromisoformat : string -> option datetime.
Variable py_str : json -> string.
Variable w : world.

Lemma parse_due_date_exn j e :
  is_None j = false ->
  parse_due_date fromisoformat j = inl e -> classify_exn e.
Proof.
  intros Hn H.
  destruct j; simpl in *; try discriminate Hn;
    try (inversion H; subst; simpl; discriminate).
  destruct (fromisoformat _); inversion H. exact I.
Qed.

Lemma dt_ge_exn a b e : dt_ge a b = inl e -> classify_exn e.
Proof. destruct a, b; simpl; intros H; inversion H; exact I. Qed.

Lemma is_upcoming_exn now a e :
  is_upcoming fromisoformat now a = inl e -> classify_exn e.
Proof.
  unfold is_upcoming. destruct (is_None (due_at a)) eqn:En; [discriminate|].
  destruct (parse_due_date fromisoformat (due_at a)) as [e'|d] eqn:Ep;
    simpl; intros H.
  - inversion H; subst. eapply parse_due_date_exn; eauto.
  - eapply dt_ge_exn; eauto.
Qed.

Lemma filter_upcoming_exn now all e :
  filter_upcoming fromisoformat now all = inl e -> classify_exn e.
Proof.
  induction all as [|a all IH]; simpl; [discriminate|].
  destruct (is_upcoming fromisoformat now a) as [e'|b] eqn:Ea; simpl.
  { intros H. inversion H; subst. eapply is_upcoming_exn; eauto. }
  destruct (filter_upcoming fromisoformat now all) as [e'|l]; simpl.
  { intros H. inversion H; subst. apply IH. reflexivity. }
  discriminate.
Qed.

(** Classification fails only where the comprehension fails: the sort
    of what the comprehension kept cannot. *)
Lemma classify_inl now all e :
  classify fromisoformat now all = inl e ->
  filter_upcoming fromisoformat now all = inl e.
Proof.
  unfold classify.
  destruct (filter_upcoming fromisoformat now all) as [e'|l] eqn:El;
    simpl; [intros H; inversion H; reflexivity|].
  destruct (filter_upcoming_inr _ _ _ El) as [_ Hp].
  rewrite (sort_by_due_inr Hp). discriminate.
Qed.

Lemma kept_present now a :
  kept fromisoformat now a = true -> is_None (due_at a) = false.
Proof.
  unfold kept, is_upcoming. destruct (is_None (due_at a)); [discriminate|].
  reflexivity.
Qed.

Lemma classify_present now all up nd :
  classify fromisoformat now all = inr (up, nd) ->
  Forall (fun a => is_None (due_at a) = false) up.
Proof.
  intros H. destruct (classify_inr _ _ _ H) as [Hu _]. subst up.
  eapply Permutation_Forall; [symmetry; apply sort_by_perm|].
  apply Forall_forall. intros a Ha. apply filter_In in Ha.
  eapply kept_present. apply Ha.
Qed.

Lemma sound_datetime_now tz :
  sound present_event present_exn (@anything datetime)
        (datetime_now w tz).
Proof. intros t. simpl. split; [repeat constructor|exact I]. Qed.

Lemma sound_group_item item g :
  is_None (due_at item) = false ->
  grouping_ok g ->
  sound present_event present_exn grouping_ok
        (group_item fromisoformat w item g).
Proof.
  intros Hn Hg. unfold group_item.
  eapply sound_bind with (Ra := @anything datetime).
  { apply sound_lift; [|intros; exact I].
    intros e He. simpl. eapply parse_due_date_exn; eauto. }
  intros due_dt_utc _.
  eapply sound_bind with (Ra := @anything datetime).
  { apply sound_lift; [|intros; exact I].
    intros e He. unfold astimezone in He.
    destruct (in_range _ && in_range _); inversion He. exact I. }
  intros due_dt_local _.
  eapply sound_bind; [apply sound_datetime_now|]. intros now_local _.
  apply sound_lift.
  - intros e He. rewrite (bucket_append_inl _ _ _ He). exact I.
  - intros g' Hg'. eapply bucket_append_ok; [|exact Hg|exact Hg'].
    apply delta_label_ok.
Qed.

Lemma sound_group_by_weekday items :
  Forall (fun a => is_None (due_at a) = false) items ->
  forall g,
    grouping_ok g ->
    sound present_event present_exn grouping_ok
          (group_by_weekday fromisoformat w items g).
Proof.
  induction 1 as [|item items Hi Hs IH]; intros g Hg; simpl.
  - apply sound_ret. exact Hg.
  - eapply sound_bind; [apply sound_group_item; assumption|].
    intros g' Hg'. apply IH. exact Hg'.
Qed.

Lemma sound_populate_day g day :
  grouping_ok g ->
  sound present_event present_exn (@anything unit) (populate_day g day).
Proof.
  intros Hg. unfold populate_day.
  eapply sound_bind with (Ra := Forall label_ok).
  { apply sound_lift.
    - intros e He. unfold bucket_get in He.
      destruct (assoc day g); inversion He. exact I.
    - intros items Hi. eapply bucket_get_ok; eauto. }
  intros [|x items] Hi.
  - apply sound_emit; exact I.
  - apply sound_for_each. intros c Hc. apply sound_emit; [|exact I].
    simpl. rewrite Forall_forall in Hi. apply Hi. exact Hc.
Qed.

Lemma sound_populate_no_due no_due :
  sound present_event present_exn (@anything unit)
        (populate_no_due no_due).
Proof.
  destruct no_due as [|x l]; unfold populate_no_due.
  - apply sound_emit; exact I.
  - apply sound_for_each. intros c Hc. apply sound_emit; exact I.
Qed.

Lemma empty_grouping_ok (days : list string) :
  grouping_ok (map (fun day => (day, [])) days).
Proof.
  induction days as [|d days IH]; constructor; [constructor|exact IH].
Qed.

Lemma sound_present all :
  sound present_event present_exn (@anything unit)
        (present fromisoformat py_str w all).
Proof.
  unfold present.
  eapply sound_bind; [apply sound_datetime_now|]. intros now _.
  eapply sound_bind
    with (Ra := fun c => Forall (fun a => is_None (due_at a) = false) (fst c)).
  { apply sound_lift.
    - intros e He. simpl. eapply filter_upcoming_exn.
      apply classify_inl. exact He.
    - intros [up nd] Hc. simpl. eapply classify_present; eauto. }
  intros classified Hc.
  eapply sound_bind; [apply sound_log; exact I|]. intros _ _.
  eapply sound_bind; [apply sound_log; exact I|]. intros _ _.
  eapply sound_bind;
    [apply sound_group_by_weekday; [exact Hc|apply empty_grouping_ok]|].
  intros grouped Hg.
  eapply sound_bind
    with (Ra := @anything unit).
  { apply sound_for_each. intros day _. apply sound_populate_day. exact Hg. }
  intros _ _.
  eapply sound_bind; [apply sound_populate_no_due|]. intros _ _.
  eapply sound_bind; [apply sound_log; exact I|]. intros _ _.
  apply sound_emit; exact I.
Qed.

End PresentParts.

(** ** The worker as a whole *)

Section Worker.

Variable fromisoformat : string -> option datetime.
Variable py_str : json -> string.
Variable w : world.

Lemma gather_event_thread e : gather_event e -> thread_event e.
Proof. destruct e; simpl; auto. intros []. Qed.

Lemma present_event_thread e : present_event e -> thread_event e.
Proof. destruct e; simpl; auto. Qed.

Lemma sound_fetch_body fuel :
  sound thread_event body_exn (@anything unit)
        (fetch_body fromisoformat py_str w fuel).
Proof.
  unfold fetch_body.
  destruct (String.eqb (PyStr.strip (token_entry w)) "").
  - apply sound_emit; exact I.
  - eapply sound_bind with (Ra := @anything unit).
    { apply sound_for_each. intros tab _. apply sound_emit; exact I. }
    intros _ _.
    eapply sound_bind with (Ra := @anything (list assignment)).
    { eapply sound_weaken; [apply sound_gather| | |auto].
      - apply gather_event_thread.
      - intros e He. left. exact He. }
    intros all _.
    eapply sound_weaken; [apply sound_present| | |auto].
    + apply present_event_thread.
    + intros e He. right. exact He.
Qed.

Lemma sound_on_exception e :
  sound thread_event (fun _ => False) (@anything unit) (on_exception e).
Proof.
  unfold on_exception. destruct (is_HTTPError e); apply sound_emit; exact I.
Qed.

(** Every event of a run is well-formed, and no exception leaves the
    worker. *)
Lemma sound_fetch_assignments_thread fuel :
  sound thread_event (fun _ => False) (@anything unit)
        (fetch_assignments_thread fromisoformat py_str w fuel).
Proof.
  unfold fetch_assignments_thread.
  do 3 (eapply sound_bind with (Ra := @anything unit);
        [apply sound_emit; exact I|intros _ _]).
  apply sound_try_finally; [|apply sound_emit; exact I].
  eapply sound_try_except; [apply sound_fetch_body|].
  intros e _. apply sound_on_exception.
Qed.

Lemma body_exn_not_None_replace e :
  body_exn e -> e <> Builtin (AttributeError "NoneType" "replace").
Proof.
  intros [H|H] E; subst; simpl in H.
  - discriminate H.
  - apply H. reflexivity.
Qed.

End Worker.

(** ** Failed requests end the run *)

Section Halting.

Variable w : world.

Lemma served_ok_app hist e1 e2 :
  served_ok w hist (e1 ++ e2) <->
  served_ok w hist e1 /\ served_ok w (hist ++ requests_of e1) e2.
Proof.
  revert hist. induction e1 as [|e e1 IH]; intros hist; simpl.
  - rewrite app_nil_r. tauto.
  - destruct e; simpl; rewrite ?IH, <- ?app_assoc; simpl; tauto.
Qed.


Lemma halted_prefix (A : Type) t e1 (r : outcome A) e2 :
  served_ok w (requests_of t) e1 ->
  halted w (t ++ e1) r e2 ->
  halted w t r (e1 ++ e2).
Proof.
  intros H1 H2.
  assert (Hs : served_ok w (requests_of (t ++ e1)) e2 ->
               served_ok w (requests_of t) (e1 ++ e2)).
  { intros H. apply served_ok_app. rewrite requests_of_app in H. auto. }
  assert (Hx : forall e,
             (exists evs0 req,
                 e2 = evs0 ++ [EvRequest req]
                 /\ served_ok w (requests_of (t ++ e1)) evs0
                 /\ explains w (requests_of ((t ++ e1) ++ evs0)) req e) ->
             exists evs0 req,
               e1 ++ e2 = evs0 ++ [EvRequest req]
               /\ served_ok w (requests_of t) evs0
               /\ explains w (requests_of (t ++ evs0)) req e).
  { intros e [evs0 [req [He [Hok Hex]]]]. exists (e1 ++ evs0), req.
    subst e2. rewrite app_assoc. split; [reflexivity|]. split.
    - apply served_ok_app. rewrite requests_of_app in Hok. auto.
    - rewrite app_assoc. exact Hex. }
  destruct r as [a|[status u'| |b|]|]; simpl in H2 |- *.
  all: try (apply Hs; exact H2).
  - apply (Hx (HTTPError status u')). exact H2.
  - apply (Hx ConnectionError). exact H2.
Qed.

Lemma halting_bind (A B : Type) (m : M A) (f : A -> M B) :
  halting w m -> (forall a, halting w (f a)) -> halting w (bind m f).
Proof.
  intros Hm Hf t. specialize (Hm t). unfold bind.
  destruct (m t) as [[a|e|] e1]; simpl in *; try exact Hm.
  specialize (Hf a (t ++ e1)).
  destruct (f a (t ++ e1)) as [r e2]. simpl in *.
  apply halted_prefix; assumption.
Qed.


Lemma halting_ret (A : Type) (a : A) : halting w (ret a).
Proof. intros t. exact I. Qed.


Lemma halting_lift (A : Type) (p : pure_result A) : halting w (lift p).
Proof. destruct p; intros t; exact I. Qed.

Lemma halting_response_json r : halting w (response_json r).
Proof.
  unfold response_json. destruct (body r); intros t; exact I.
Qed.


(** A request whose status is checked at once. *)
Lemma halting_checked_get (B : Type) u hdrs ps (k : response -> M B) :
  (forall r, halting w (k r)) ->
  halting w (bind (requests_get w u hdrs ps)
                  (fun r => bind (raise_for_status r u) (fun _ => k r))).
Proof.
  intros Hk t.
  set (req := mk_request u hdrs ps).
  destruct (server w (requests_of t) req) as [r|] eqn:Es.
  - rewrite (bind_Ok _ (@requests_get_reply w hdrs u ps t r Es)).
    unfold raise_for_status.
    destruct (is_error_status (status_code r)) eqn:Ee.
    + rewrite bind_raise. simpl. exists [], req.
      rewrite app_nil_r. split; [reflexivity|]. split; [exact I|].
      exists r. auto.
    + rewrite bind_ret. simpl fst. simpl snd.
      change (EvRequest (mk_request u hdrs ps)
              :: snd (k r (t ++ [EvRequest (mk_request u hdrs ps)])))
        with ([EvRequest req] ++ snd (k r (t ++ [EvRequest req]))).
      apply halted_prefix; [|apply Hk].
      simpl. unfold request_fails. rewrite Es. auto.
  - assert (Hu : requests_get w u hdrs ps t
                 = (Raise ConnectionError, [EvRequest req])).
    { unfold requests_get. fold (mk_request u hdrs ps). fold req.
      rewrite Es. reflexivity. }
    rewrite (bind_Raise _ Hu). simpl. exists [], req. rewrite app_nil_r.
    split; [reflexivity|]. split; [exact I|exact Es].
Qed.

Lemma halting_get_all_pages_from fuel :
  forall u hdrs ps results,
    halting w (get_all_pages_from w fuel u hdrs ps results).
Proof.
  induction fuel as [|fuel IH]; intros u hdrs ps results;
    destruct u as [u|]; simpl; try apply halting_ret;
    destruct (String.eqb u ""); try apply halting_ret.
  - intros t. exact I.
  - apply halting_checked_get. intros r.
    apply halting_bind; [apply halting_response_json|]. intros decoded.
    apply halting_bind; [apply halting_lift|]. intros items.
    destruct (assoc "next" (links r)); apply IH.
Qed.


Variable fromisoformat : string -> option datetime.
Variable py_str : json -> string.




Lemma present_event_quiet e : present_event e -> not_request e.
Proof. destruct e; simpl; intros H; try reflexivity; destruct H. Qed.





End Halting.

(** ** What the display receives *)

Lemma for_each_emit (A : Type) (h : A -> event) (l : list A) t :
  for_each (fun a => emit (h a)) l t = (Ok tt, map h l).
Proof.
  revert t. induction l as [|a l IH]; intros t; [reflexivity|].
  simpl for_each. rewrite bind_emit, IH. reflexivity.
Qed.

Lemma weekday_name_in_day_tabs d : In (weekday_name d) day_tabs.
Proof.
  unfold weekday_name, weekday_index.
  assert (H : 0 <= (wall_of d / usec_per_day + 3) mod 7 < 7)
    by (apply Z.mod_pos_bound; lia).
  set (i := (wall_of d / usec_per_day + 3) mod 7) in *.
  assert (Hi : i = 0 \/ i = 1 \/ i = 2 \/ i = 3 \/ i = 4 \/ i = 5 \/ i = 6)
    by lia.
  destruct Hi as [E|[E|[E|[E|[E|[E|E]]]]]]; rewrite E; simpl; tauto.
Qed.

Lemma bucket_append_spec day x g :
  In day (map fst g) ->
  exists g',
    bucket_append day x g = inr g'
    /\ map fst g' = map fst g
    /\ forall day',
        assoc day' g'
        = if String.eqb day' day
          then option_map (fun b => b ++ [x]) (assoc day' g)
          else assoc day' g.
Proof.
  induction g as [|[d items] g IH]; simpl; [intros []|]. intros Hin.
  destruct (String.eqb day d) eqn:E.
  - apply String.eqb_eq in E. subst d.
    exists ((day, items ++ [x]) :: g). repeat split. intros day'. simpl.
    destruct (String.eqb day' day); reflexivity.
  - assert (Hg : In day (map fst g)).
    { destruct Hin as [H|H]; [|exact H].
      subst d. rewrite String.eqb_refl in E. discriminate. }
    destruct (IH Hg) as [g' [Hb [Hk Ha]]]. rewrite Hb. simpl.
    exists ((d, items) :: g'). repeat split.
    + simpl. rewrite Hk. reflexivity.
    + intros day'. simpl. destruct (String.eqb day' d) eqn:E'.
      * apply String.eqb_eq in E'. subst day'.
        rewrite String.eqb_sym, E. reflexivity.
      * apply Ha.
Qed.

Section Display.

Variable fromisoformat : string -> option datetime.
Variable py_str : json -> string.
Variable w : world.

Lemma group_item_run item g t dl g1 :
  due_local fromisoformat w item = inr dl ->
  bucket_append (weekday_name dl) (due_label w (clock_reads t) item dl) g
  = inr g1 ->
  group_item fromisoformat w item g t = (Ok g1, [EvNow]).
Proof.
  unfold due_local. intros Hd Hb. unfold group_item.
  destruct (parse_due_date fromisoformat (due_at item)) as [e|d];
    [discriminate Hd|].
  cbn [pbind] in Hd. simpl lift at 1. rewrite bind_ret, Hd. simpl lift at 1.
  rewrite bind_ret. unfold bind, datetime_now.
  match goal with
  | |- context [lift ?p] =>
      change p
        with (bucket_append (weekday_name dl)
                (due_label w (clock_reads t) item dl) g)
  end.
  rewrite Hb. reflexivity.
Qed.

(** A record whose due date cannot be taken to the local zone stops the
    loop before the clock is read for it. *)
Lemma group_item_raise item g t e :
  due_local fromisoformat w item = inl e ->
  group_item fromisoformat w item g t = (Raise (Builtin e), []).
Proof.
  unfold due_local. intros Hd. unfold group_item.
  destruct (parse_due_date fromisoformat (due_at item)) as [e'|d].
  - inversion Hd; subst. reflexivity.
  - cbn [pbind] in Hd. simpl lift at 1. rewrite bind_ret, Hd. reflexivity.
Qed.

(** The loop of lines 156-168 reads the clock once per item and files
    each item under its day. *)
Lemma group_by_weekday_run items :
  Forall (displayable fromisoformat w) items ->
  forall g t,
    has_days g ->
    exists g',
      group_by_weekday fromisoformat w items g t
      = (Ok g', repeat EvNow (length items))
      /\ map fst g' = map fst g
      /\ forall day,
          assoc day g'
          = option_map
              (fun b => b ++ day_items fromisoformat w day (clock_reads t) items)
              (assoc day g).
Proof.
  induction 1 as [|item items [dl Hd] Hs IH]; intros g t Hg.
  - exists g. repeat split. intros day. simpl.
    destruct (assoc day g); simpl; rewrite ?app_nil_r; reflexivity.
  - set (label := due_label w (clock_reads t) item dl).
    destruct (@bucket_append_spec (weekday_name dl) label g (Hg _))
      as [g1 [Hb [Hk Ha]]].
    assert (Hg1 : has_days g1) by (intros d'; rewrite Hk; apply Hg).
    destruct (IH g1 (t ++ [EvNow]) Hg1) as [g' [Hrun [Hk' Ha']]].
    exists g'. split; [|split].
    + simpl group_by_weekday.
      rewrite (bind_Ok _ (group_item_run item g t Hd Hb)).
      rewrite Hrun. reflexivity.
    + rewrite Hk', Hk. reflexivity.
    + intros day. rewrite Ha', Ha.
      rewrite clock_reads_app. simpl clock_reads.
      replace (clock_reads t + 1)%nat with (S (clock_reads t)) by lia.
      simpl day_items. rewrite Hd. fold label.
      rewrite (String.eqb_sym day (weekday_name dl)).
      destruct (String.eqb (weekday_name dl) day); destruct (assoc day g);
        simpl; rewrite <- ?app_assoc; reflexivity.
Qed.

(** The loop stops at the first item it cannot label. *)
Lemma group_by_weekday_stops good bad rest e :
  Forall (displayable fromisoformat w) good ->
  due_local fromisoformat w bad = inl e ->
  forall g t,
    has_days g ->
    group_by_weekday fromisoformat w (good ++ bad :: rest) g t
    = (Raise (Builtin e), repeat EvNow (length good)).
Proof.
  intros Hgood Hbad.
  induction Hgood as [|item items [dl Hd] Hs IH]; intros g t Hg.
  - cbn [app group_by_weekday length repeat].
    apply bind_Raise. apply group_item_raise. exact Hbad.
  - set (label := due_label w (clock_reads t) item dl).
    destruct (@bucket_append_spec (weekday_name dl) label g (Hg _))
      as [g1 [Hb [Hk Ha]]].
    assert (Hg1 : has_days g1) by (intros d'; rewrite Hk; apply Hg).
    cbn [app group_by_weekday].
    rewrite (bind_Ok _ (group_item_run item g t Hd Hb)).
    rewrite (IH g1 (t ++ [EvNow]) Hg1). reflexivity.
Qed.

(** A list of records can be labelled throughout, or has a first record
    that cannot. *)
Lemma displayable_split items :
  Forall (displayable fromisoformat w) items
  \/ exists good bad rest e,
      items = good ++ bad :: rest
      /\ Forall (displayable fromisoformat w) good
      /\ due_local fromisoformat w bad = inl e.
Proof.
  induction items as [|a items IH]; [left; constructor|].
  destruct (due_local fromisoformat w a) as [e|dl] eqn:Ea.
  - right. exists [], a, items, e.
    split; [reflexivity|]. split; [apply Forall_nil|exact Ea].
  - destruct IH as [IH|(good & bad & rest & e & -> & Hg & Hb)].
    + left. constructor; [exists dl; exact Ea|exact IH].
    + right. exists (a :: good), bad, rest, e.
      split; [reflexivity|]. split; [|exact Hb].
      constructor; [exists dl; exact Ea|exact Hg].
Qed.

Lemma populate_day_run g day t items :
  assoc day g = Some items ->
  populate_day g day t = (Ok tt, day_events day items).
Proof.
  intros H. unfold populate_day, bucket_get. rewrite H. simpl lift.
  rewrite bind_ret. destruct items as [|x items]; [reflexivity|].
  apply for_each_emit.
Qed.

Lemma populate_days_run g (bucket : string -> list label_content) days :
  (forall day, In day days -> assoc day g = Some (bucket day)) ->
  forall t,
    for_each (populate_day g) days t
    = (Ok tt, flat_map (fun day => day_events day (bucket day)) days).
Proof.
  induction days as [|day days IH]; intros H t; [reflexivity|].
  simpl for_each.
  rewrite (bind_Ok _ (populate_day_run g day t (H day (or_introl eq_refl)))).
  rewrite IH by (intros; apply H; simpl; auto). reflexivity.
Qed.

Lemma populate_no_due_run no_due t :
  populate_no_due no_due t = (Ok tt, no_due_events no_due).
Proof.
  destruct no_due as [|x l]; [reflexivity|]. apply for_each_emit.
Qed.

End Display.

Section PresentRun.

Variable fromisoformat : string -> option datetime.
Variable py_str : json -> string.
Variable w : world.

Lemma captured_now_utc t :
  captured_now w t = Aware (clock w (clock_reads t)) 0.
Proof. unfold captured_now, timezone_utc. rewrite Z.add_0_r. reflexivity. Qed.

Lemma datetime_now_run tz t :
  datetime_now w tz t
  = (Ok (Aware (clock w (clock_reads t) + tz (clock w (clock_reads t)))
               (tz (clock w (clock_reads t)))), [EvNow]).
Proof. reflexivity. Qed.

Lemma empty_grouping_days : has_days (map (fun day => (day, [])) day_tabs).
Proof. intros d. apply weekday_name_in_day_tabs. Qed.

(** When classification succeeds and the upcoming records can be taken
    to the local zone, so does the rest of the run, and the display
    receives the classified records. *)
Lemma present_run all t up nd :
  classify fromisoformat (captured_now w t) all = inr (up, nd) ->
  Forall (displayable fromisoformat w) up ->
  present fromisoformat py_str w all t
  = (Ok tt,
     EvNow :: display_events fromisoformat py_str w (S (clock_reads t)) up nd).
Proof.
  intros Hc Hps. unfold present.
  rewrite (bind_Ok _ (datetime_now_run timezone_utc t)).
  fold (captured_now w t). rewrite Hc. simpl lift. rewrite bind_ret.
  unfold log_status. rewrite !bind_emit. simpl fst. simpl snd.
  set (t2 := ((t ++ [EvNow]) ++ _) ++ _).
  destruct (group_by_weekday_run Hps t2 empty_grouping_days)
    as [g' [Hrun [Hk Ha]]].
  rewrite (bind_Ok _ Hrun).
  assert (Hk2 : clock_reads t2 = S (clock_reads t)).
  { unfold t2. rewrite !clock_reads_app. simpl. lia. }
  rewrite Hk2 in Ha.
  assert (Hb : forall day,
             In day day_tabs ->
             assoc day g'
             = Some (day_items fromisoformat w day (S (clock_reads t)) up)).
  { intros day Hd. rewrite Ha.
    assert (Hg0 : assoc day (map (fun day => (day, @nil label_content)) day_tabs)
                  = Some []).
    { simpl in Hd.
      destruct Hd as [E|[E|[E|[E|[E|[E|[E|[]]]]]]]]; subst day; reflexivity. }
    rewrite Hg0. reflexivity. }
  rewrite (bind_Ok _ (populate_days_run g' _ day_tabs Hb _)).
  rewrite (bind_Ok _ (populate_no_due_run nd _)).
  rewrite !bind_emit. simpl. unfold display_events, count_str. simpl.
  repeat f_equal.
Qed.

(** When an upcoming record cannot be taken to the local zone, the run
    ends at that record: the two counts were logged and the clock was
    read for the records before it; no tab has received anything. *)
Lemma present_stops all t good bad rest nd e :
  classify fromisoformat (captured_now w t) all
  = inr (good ++ bad :: rest, nd) ->
  Forall (displayable fromisoformat w) good ->
  due_local fromisoformat w bad = inl e ->
  present fromisoformat py_str w all t
  = (Raise (Builtin e),
     [EvNow;
      EvLog ("Upcoming assignments: "
             ++ count_str py_str (length (good ++ bad :: rest)))%string;
      EvLog ("No due date: " ++ count_str py_str (length nd))%string]
     ++ repeat EvNow (length good)).
Proof.
  intros Hc Hg Hb. unfold present.
  rewrite (bind_Ok _ (datetime_now_run timezone_utc t)).
  fold (captured_now w t). rewrite Hc. simpl lift. rewrite bind_ret.
  unfold log_status. rewrite !bind_emit. cbn [fst snd].
  set (t2 := ((t ++ [EvNow]) ++ _) ++ _).
  rewrite (bind_Raise _ (@group_by_weekday_stops fromisoformat w good bad
                           rest e Hg Hb _ t2 empty_grouping_days)).
  reflexivity.
Qed.

(** When classification fails, the run ends there: the clock has been
    read, nothing else has happened. *)
Lemma present_raise all t e :
  classify fromisoformat (captured_now w t) all = inl e ->
  present fromisoformat py_str w all t = (Raise (Builtin e), [EvNow]).
Proof.
  intros Hc. unfold present.
  rewrite (bind_Ok _ (datetime_now_run timezone_utc t)).
  fold (captured_now w t). rewrite Hc. reflexivity.
Qed.

(** The three ways lines 137-190 can go. *)
Lemma present_cases all t :
  (exists e,
      classify fromisoformat (captured_now w t) all = inl e
      /\ present fromisoformat py_str w all t = (Raise (Builtin e), [EvNow]))
  \/ (exists up nd,
         classify fromisoformat (captured_now w t) all = inr (up, nd)
         /\ Forall (displayable fromisoformat w) up
         /\ present fromisoformat py_str w all t
            = (Ok tt,
               EvNow :: display_events fromisoformat py_str w
                                       (S (clock_reads t)) up nd))
  \/ (exists good bad rest nd e,
         classify fromisoformat (captured_now w t) all
         = inr (good ++ bad :: rest, nd)
         /\ Forall (displayable fromisoformat w) good
         /\ due_local fromisoformat w bad = inl e
         /\ present fromisoformat py_str w all t
            = (Raise (Builtin e),
               [EvNow;
                EvLog ("Upcoming assignments: "
                       ++ count_str py_str
                            (length (good ++ bad :: rest)))%string;
                EvLog ("No due date: "
                       ++ count_str py_str (length nd))%string]
               ++ repeat EvNow (length good))).
Proof.
  destruct (classify fromisoformat (captured_now w t) all) as [e|[up nd]] eqn:E.
  - left. exists e. split; [reflexivity|]. now apply present_raise.
  - right.
    destruct (displayable_split fromisoformat w up)
      as [Hd|(good & bad & rest & e & -> & Hg & Hb)].
    + left. exists up, nd. split; [reflexivity|]. split; [exact Hd|].
      now apply present_run.
    + right. exists good, bad, rest, nd, e.
      split; [reflexivity|]. split; [exact Hg|]. split; [exact Hb|].
      now apply present_stops.
Qed.

End PresentRun.

(** ** The run seen from outside *)


Section Run.

Variable fromisoformat : string -> option datetime.
Variable py_str : json -> string.
Variable w : world.

(** The worker is its body between the three resets of line 80-82 and
    the re-enabling of the button; an exception of the body becomes a
    dialog. *)
Lemma fetch_assignments_thread_run fuel t :
  fetch_assignments_thread fromisoformat py_str w fuel t
  = match fetch_body fromisoformat py_str w fuel (t ++ prelude) with
    | (Ok _, evs) => (Ok tt, prelude ++ evs ++ [EvButton true])
    | (Raise e, evs) =>
        (Ok tt,
         prelude ++ evs
         ++ [EvShowError (dialog_title e) (StrOf e); EvButton true])
    | (OutOfFuel, evs) => (OutOfFuel, prelude ++ evs)
    end.
Proof.
  unfold fetch_assignments_thread. rewrite !bind_emit.
  rewrite <- !app_assoc. simpl app.
  unfold try_finally, try_except.
  change ([EvButton false; EvBarValue 0;
           EvProgressLabel (LitText "Progress: 0%")]) with prelude.
  destruct (fetch_body fromisoformat py_str w fuel (t ++ prelude))
    as [[[]|e|] evs]; simpl.
  - reflexivity.
  - unfold on_exception, dialog_title. destruct (is_HTTPError e); simpl;
      rewrite <- app_assoc; reflexivity.
  - reflexivity.
Qed.

Lemma gather_event_not_label e : gather_event e -> not_label e.
Proof. destruct e; simpl; intros H; try reflexivity; destruct H. Qed.

Lemma present_quiet_unless_ok all t :
  fst (present fromisoformat py_str w all t) = Ok tt
  \/ Forall not_label (snd (present fromisoformat py_str w all t)).
Proof.
  destruct (present_cases fromisoformat py_str w all t)
    as [(e & _ & ->)|[(up & nd & _ & _ & ->)
                     |(good & bad & rest & nd & e & _ & _ & _ & ->)]].
  - right. repeat constructor.
  - left. reflexivity.
  - right. cbn [snd]. apply Forall_app. split; [repeat constructor|].
    apply Forall_forall. intros x Hx. apply repeat_spec in Hx. now subst x.
Qed.

Lemma cleared_run t :
  for_each (fun tab => emit (EvClearTab tab)) all_tabs t = (Ok tt, cleared).
Proof. apply for_each_emit. Qed.

(** Labels reach the tabs only in a run that ends well. *)
Lemma fetch_body_quiet_unless_ok fuel t :
  fst (fetch_body fromisoformat py_str w fuel t) = Ok tt
  \/ Forall not_label (snd (fetch_body fromisoformat py_str w fuel t)).
Proof.
  unfold fetch_body.
  destruct (String.eqb (PyStr.strip (token_entry w)) ""); [left; reflexivity|].
  rewrite (bind_Ok _ (cleared_run t)).
  set (hdrs := auth_headers _). set (t1 := t ++ cleared).
  pose proof (sound_gather py_str w fuel hdrs t1) as [Hg _].
  assert (Hq : Forall not_label (snd (gather py_str w fuel hdrs t1))).
  { eapply Forall_impl; [|exact Hg]. apply gather_event_not_label. }
  assert (Hc : Forall not_label cleared) by (repeat constructor).
  destruct (gather py_str w fuel hdrs t1) as [[all|e|] eg] eqn:Eg;
    simpl in Hq.
  - rewrite (bind_Ok _ Eg). cbn [fst snd].
    destruct (present_quiet_unless_ok all (t1 ++ eg)) as [H|H].
    + left. exact H.
    + right. apply Forall_app. split; [exact Hc|].
      apply Forall_app. split; [exact Hq|exact H].
  - right. rewrite (bind_Raise _ Eg). cbn [fst snd].
    apply Forall_app. auto.
  - right. rewrite (bind_OutOfFuel _ Eg). cbn [fst snd].
    apply Forall_app. auto.
Qed.


End Run.

Section Failures.

Variable fromisoformat : string -> option datetime.
Variable py_str : json -> string.
Variable w : world.


End Failures.




(** ** Progress *)

Lemma lift_Ok_inv (A : Type) (p : pure_result A) t a evs :
  lift p t = (Ok a, evs) -> p = inr a /\ evs = [].
Proof.
  destruct p as [e|a']; simpl; intros H; inversion H. auto.
Qed.

(** Taking apart a sequence that ended well, one step at a time. *)
Ltac invert_bind H a e e' Hm E :=
  apply bind_Ok_inv in H; destruct H as [a [e [e' [Hm [H E]]]]].

Ltac invert_lift H :=
  apply lift_Ok_inv in H; destruct H as [H ->].

Lemma progress_calls_quiet evs :
  Forall (fun e => progress_calls [e] = []) evs -> progress_calls evs = [].
Proof.
  induction 1 as [|e evs He Hs IH]; [reflexivity|].
  change (e :: evs) with ([e] ++ evs).
  rewrite progress_calls_app, He, IH. reflexivity.
Qed.

Lemma report_progress_run idx total t :
  report_progress idx total t
  = (Ok tt, [EvBarValue idx; EvProgressLabel (PercentOf idx total);
             EvUpdateIdle]).
Proof. reflexivity. Qed.

Section Progress.

Variable fromisoformat : string -> option datetime.
Variable py_str : json -> string.
Variable w : world.

Lemma get_all_pages_no_progress fuel u hdrs ps t :
  progress_calls (snd (get_all_pages w fuel u hdrs ps t)) = [].
Proof.
  apply progress_calls_quiet.
  destruct (sound_get_all_pages_from w fuel (Some u) hdrs ps [] t) as [H _].
  eapply Forall_impl; [|exact H].
  intros [] He; try discriminate He. reflexivity.
Qed.

Lemma fetch_courses_no_progress fuel hdrs t :
  progress_calls (snd (fetch_courses py_str w fuel hdrs t)) = [].
Proof.
  apply progress_calls_quiet.
  destruct (sound_fetch_courses py_str w fuel hdrs t) as [H _].
  eapply Forall_impl; [|exact H].
  intros [] He; try destruct He; reflexivity.
Qed.

Lemma present_no_progress all t :
  progress_calls (snd (present fromisoformat py_str w all t)) = [].
Proof.
  apply progress_calls_quiet.
  destruct (sound_present fromisoformat py_str w all t) as [H _].
  eapply Forall_impl; [|exact H].
  intros [| | |[|]| | | | | | | |] He; try destruct He; reflexivity.
Qed.

Lemma get_all_pages_run_no_progress fuel u hdrs ps t r evs :
  get_all_pages w fuel u hdrs ps t = (r, evs) -> progress_calls evs = [].
Proof.
  intros H. pose proof (get_all_pages_no_progress fuel u hdrs ps t) as Hg.
  rewrite H in Hg. exact Hg.
Qed.

(** The loop over the courses calls the sink once per course, with the
    index of the course. *)
Lemma compile_assignments_progress fuel hdrs total courses :
  forall idx all t all' evs,
    compile_assignments py_str w fuel hdrs total idx courses all t
    = (Ok all', evs) ->
    progress_calls evs
    = map (fun i => (i, total)) (seq idx (length courses)).
Proof.
  induction courses as [|course courses IH]; intros idx all t all' evs H.
  - inversion H. reflexivity.
  - cbn [compile_assignments] in H.
    invert_bind H cid e1 e1' Hid E1. invert_lift Hid.
    invert_bind H cname e2 e2' Hname E2. invert_lift Hname.
    invert_bind H u3 e3 e3' Hlog E3. inversion Hlog; subst e3. clear Hlog.
    invert_bind H recs e4 e4' Hpages E4.
    apply get_all_pages_run_no_progress in Hpages.
    invert_bind H all1 e5 e5' Htag E5. invert_lift Htag.
    invert_bind H u6 e6 e6' Hsink E6.
    rewrite report_progress_run in Hsink. inversion Hsink; subst e6.
    clear Hsink.
    apply IH in H.
    subst evs e1' e2' e3' e4' e5'.
    rewrite !progress_calls_app, Hpages, H. reflexivity.
Qed.

End Progress.

(** C4. In a run that ends well over N enrollments the progress sink is
    called N times, with completed counts 1, 2, .., N and total N: once
    per enrollment whatever the number of its assignments, and not at all
    when there is no enrollment. *)
Theorem progress_once_per_enrollment
        (fromisoformat : string -> option datetime) (py_str : json -> string)
        (w : world) (fuel : nat) (evs : list event) :
  PyStr.strip (token_entry w) <> "" ->
  fetch_body fromisoformat py_str w fuel prelude = (Ok tt, evs) ->
  exists courses e1,
    fetch_courses py_str w fuel
                  (auth_headers (PyStr.strip (token_entry w)))
                  (prelude ++ cleared)
    = (Ok courses, e1)
    /\ progress_calls
         (snd (fetch_assignments_thread fromisoformat py_str w fuel []))
       = map (fun i => (i, length courses)) (seq 1 (length courses)).
Proof.
  intros Htok Hrun. apply String.eqb_neq in Htok.
  rewrite fetch_assignments_thread_run.
  change ([] ++ prelude) with prelude. rewrite Hrun.
  cbn [snd]. rewrite !progress_calls_app.
  change (progress_calls prelude) with (@nil (nat * nat)).
  change (progress_calls [EvButton true]) with (@nil (nat * nat)).
  rewrite app_nil_r. cbn [app].
  unfold fetch_body in Hrun. rewrite Htok in Hrun.
  rewrite (bind_Ok _ (cleared_run _)) in Hrun.
  set (hdrs := auth_headers _) in *.
  destruct (gather py_str w fuel hdrs (prelude ++ cleared))
    as [[all|e|] eg] eqn:Eg.
  2:{ rewrite (bind_Raise _ Eg) in Hrun. discriminate Hrun. }
  2:{ rewrite (bind_OutOfFuel _ Eg) in Hrun. discriminate Hrun. }
  rewrite (bind_Ok _ Eg) in Hrun. cbn [fst snd] in Hrun.
  injection Hrun as Ho Hev. subst evs. cbn [progress_calls].
  rewrite !progress_calls_app, present_no_progress, app_nil_r.
  unfold gather in Eg.
  invert_bind Eg courses e1 e1' H1 E1.
  exists courses, e1. split; [exact H1|]. rename Eg into H.
  invert_bind H u2 e2 e2' H2 E2.
  inversion H2; subst e2. clear H2.
  apply compile_assignments_progress in H.
  subst eg e1'. rewrite !progress_calls_app, H.
  pose proof (fetch_courses_no_progress py_str w fuel hdrs (prelude ++ cleared))
    as Hc.
  rewrite H1 in Hc. simpl in Hc. rewrite Hc. reflexivity.
Qed.

(** Three enrollments, the second without assignments: three calls. *)
Lemma progress_once_per_enrollment_witness :
  progress_calls
    (snd (fetch_assignments_thread IsoFormat.fromisoformat py_str_ref
                                   Examples.w_three_courses 5 []))
  = [(1, 3); (2, 3); (3, 3)]%nat.
Proof.
  destruct (@progress_once_per_enrollment IsoFormat.fromisoformat py_str_ref
              Examples.w_three_courses 5
              (snd (fetch_body IsoFormat.fromisoformat py_str_ref
                               Examples.w_three_courses 5 prelude)))
    as [courses [e1 [Hc Hp]]].
  - intros H. vm_compute in H. discriminate H.
  - vm_compute. reflexivity.
  - rewrite Hp. vm_compute in Hc. inversion Hc. reflexivity.
Defined.

(** ** Claims about classification and ordering *)

(** C2, as amended. When every due date that is present parses to an
    aware datetime, classification succeeds and the records fall into
    exactly one of three sets each: upcoming (due at or after the
    cutoff), no-due (due date absent) and discarded-past (due before the
    cutoff); the upcoming list is a rearrangement of the first set, the
    no-due list is the second, and the three sets together are a
    rearrangement of the input. *)
Theorem classification_partitions
        (fromisoformat : string -> option datetime)
        (now_wall now_off : Z) (all : list assignment) :
  Forall (resolvable fromisoformat) all ->
  let now := utc_of now_wall now_off in
  exists upcoming,
    classify fromisoformat (Aware now_wall now_off) all
    = inr (upcoming, filter in_no_due all)
    /\ Permutation upcoming (filter (in_upcoming fromisoformat now) all)
    /\ Forall (fun a =>
                 one_of_three (in_upcoming fromisoformat now a)
                              (in_no_due a)
                              (in_discarded_past fromisoformat now a)
                 = true) all
    /\ Permutation all
                   (upcoming ++ filter in_no_due all
                    ++ filter (in_discarded_past fromisoformat now) all).
Proof.
  intros Hres now.
  assert (Hone : Forall (fun a =>
                   one_of_three (in_upcoming fromisoformat now a)
                                (in_no_due a)
                                (in_discarded_past fromisoformat now a)
                   = true) all).
  { eapply Forall_impl; [|exact Hres].
    intros a. apply resolvable_one_of_three. }
  pose proof (filter_upcoming_resolvable now_wall now_off Hres) as Hf.
  destruct (filter_upcoming_inr _ _ _ Hf) as [_ Hp].
  exists (sort_by (due_key fromisoformat)
                  (filter (in_upcoming fromisoformat now) all)).
  split; [|split; [|split]].
  - unfold classify. rewrite Hf. simpl. rewrite (sort_by_due_inr Hp).
    reflexivity.
  - apply sort_by_perm.
  - exact Hone.
  - rewrite sort_by_perm. apply three_filters_partition. exact Hone.
Qed.

(** An upcoming, an undated and a past record. *)
Lemma classification_partitions_witness :
  exists upcoming,
    classify IsoFormat.fromisoformat Records.now
             [Records.thursday; Records.undated; Records.past]
    = inr (upcoming, [Records.undated])
    /\ Permutation upcoming [Records.thursday].
Proof.
  destruct (@classification_partitions IsoFormat.fromisoformat
              Examples.march_4 0
              [Records.thursday; Records.undated; Records.past])
    as [upcoming [Hc [Hp _]]].
  - apply Forall_cons; [right; eexists; vm_compute; reflexivity|].
    apply Forall_cons; [left; reflexivity|].
    apply Forall_cons; [right; eexists; vm_compute; reflexivity|].
    apply Forall_nil.
  - exists upcoming. split; [exact Hc|exact Hp].
Defined.

(** C2, as stated, fails: a record whose due date does not parse belongs
    to none of the three sets, and classification places no record at
    all. *)
Lemma classification_loses_malformed :
  classify IsoFormat.fromisoformat Records.now
           [Records.thursday; Records.malformed]
  = inl (ValueError "Invalid isoformat string")
  /\ one_of_three
       (in_upcoming IsoFormat.fromisoformat Examples.march_4 Records.malformed)
       (in_no_due Records.malformed)
       (in_discarded_past IsoFormat.fromisoformat Examples.march_4
                          Records.malformed)
     = false.
Proof. split; vm_compute; reflexivity. Qed.

(** ** The due-date normalizer *)

Lemma contains_char_cons c a s :
  PyStr.contains_char c (String a s) = false ->
  Ascii.eqb c a = false /\ PyStr.contains_char c s = false.
Proof.
  cbn [PyStr.contains_char]. intros H. apply orb_false_iff in H. exact H.
Qed.

Lemma string_app_empty (s : string) : (s ++ "")%string = s.
Proof. induction s as [|c s IH]; simpl; [|rewrite IH]; reflexivity. Qed.

Lemma replace_from_Z_step new c s :
  PyStr.replace_from "Z" new (String c s) 0
  = if Ascii.eqb "Z"%char c
    then (new ++ PyStr.replace_from "Z" new s 0)%string
    else String c (PyStr.replace_from "Z" new s 0).
Proof.
  cbn [PyStr.replace_from PyStr.starts_with String.length Nat.pred].
  rewrite andb_true_r. reflexivity.
Qed.

Lemma replace_from_no_Z new s :
  PyStr.contains_char "Z"%char s = false ->
  PyStr.replace_from "Z" new s 0 = s.
Proof.
  induction s as [|c s IH]; [reflexivity|].
  intros H. apply contains_char_cons in H. destruct H as [Hc Hs].
  rewrite replace_from_Z_step, Hc, IH by exact Hs. reflexivity.
Qed.

Lemma replace_from_trailing_Z new body :
  PyStr.contains_char "Z"%char body = false ->
  PyStr.replace_from "Z" new (body ++ "Z")%string 0 = (body ++ new)%string.
Proof.
  induction body as [|c body IH].
  - intros _. cbn [String.append]. rewrite replace_from_Z_step.
    cbn [PyStr.replace_from]. rewrite Ascii.eqb_refl. apply string_app_empty.
  - intros H. apply contains_char_cons in H. destruct H as [Hc Hs].
    cbn [String.append]. rewrite replace_from_Z_step, Hc, IH by exact Hs.
    reflexivity.
Qed.

Lemma contains_char_app c s s' :
  PyStr.contains_char c (s ++ s')%string
  = PyStr.contains_char c s || PyStr.contains_char c s'.
Proof.
  induction s as [|a s IH]; [reflexivity|].
  cbn [String.append PyStr.contains_char]. rewrite IH, orb_assoc. reflexivity.
Qed.

Lemma replace_is_replace_every_Z s :
  PyStr.replace s "Z" "+00:00" = replace_every_Z s.
Proof.
  unfold PyStr.replace.
  induction s as [|c s IH]; [reflexivity|].
  rewrite replace_from_Z_step, IH. cbn [replace_every_Z].
  rewrite (Ascii.eqb_sym c). reflexivity.
Qed.

Lemma replace_every_trailing_iff s :
  replace_every_Z s = replace_trailing_Z s <-> inner_Z s = false.
Proof.
  induction s as [|c s IH]; [split; reflexivity|].
  destruct s as [|c' s'].
  - cbn. destruct (Ascii.eqb c "Z"); split; reflexivity.
  - remember (String c' s') as s1 eqn:E1.
    assert (Ht : replace_trailing_Z (String c s1)
                 = String c (replace_trailing_Z s1))
      by (subst s1; reflexivity).
    assert (Hi : inner_Z (String c s1) = Ascii.eqb c "Z" || inner_Z s1)
      by (subst s1; reflexivity).
    rewrite Ht, Hi. cbn [replace_every_Z].
    destruct (Ascii.eqb c "Z") eqn:Ec.
    + apply Ascii.eqb_eq in Ec. subst c. split; discriminate.
    + rewrite orb_false_l, <- IH. split; [now intros [= ->]|now intros ->].
Qed.

(** C7, as amended. [parse_due_date] reads its string with every [Z] in
    it, not only a trailing one, replaced by [+00:00]: it returns what
    [fromisoformat] makes of the substituted string and raises
    [ValueError] when that string is rejected. The substitution is the
    one of the specification exactly on the strings without a [Z] before
    the last character, and there the two normalizers agree; a trailing
    [Z] after a string without [Z] reads as [+00:00]. The worker
    never hands the normalizer an absent value: it never ends with the
    exception [None.replace] would raise. *)
Theorem parse_due_date_replaces_every_Z
        (fromisoformat : string -> option datetime) :
  (forall s,
      parse_due_date fromisoformat (JStr s)
      = match fromisoformat (replace_every_Z s) with
        | Some d => inr d
        | None => inl (ValueError "Invalid isoformat string")
        end)
  /\ (forall s,
         PyStr.replace s "Z" "+00:00" = replace_trailing_Z s
         <-> inner_Z s = false)
  /\ (forall s,
         inner_Z s = false ->
         parse_due_date fromisoformat (JStr s) = parse_spec fromisoformat s)
  /\ (forall body,
         PyStr.contains_char "Z"%char body = false ->
         parse_due_date fromisoformat (JStr (body ++ "Z"))
         = parse_due_date fromisoformat (JStr (body ++ "+00:00")))
  /\ parse_due_date fromisoformat JNull
     = inl (AttributeError "NoneType" "replace")
  /\ (forall py_str w fuel t,
         fst (fetch_body fromisoformat py_str w fuel t)
         <> Raise (Builtin (AttributeError "NoneType" "replace"))).
Proof.
  split; [|split; [|split; [|split; [|split; [reflexivity|]]]]].
  - intros s. unfold parse_due_date.
    rewrite replace_is_replace_every_Z. reflexivity.
  - intros s. rewrite replace_is_replace_every_Z.
    apply replace_every_trailing_iff.
  - intros s Hs. unfold parse_due_date, parse_spec.
    rewrite replace_is_replace_every_Z.
    apply replace_every_trailing_iff in Hs. rewrite Hs. reflexivity.
  - intros body Hb. unfold parse_due_date, PyStr.replace.
    rewrite (replace_from_trailing_Z _ _ Hb).
    rewrite replace_from_no_Z; [reflexivity|].
    rewrite contains_char_app, Hb. reflexivity.
  - intros py_str w fuel t H.
    destruct (sound_fetch_body fromisoformat py_str w fuel t) as [_ Hq].
    rewrite H in Hq.
    exact (body_exn_not_None_replace Hq eq_refl).
Qed.

(** The due date of the first example of the specification. *)
Lemma parse_due_date_replaces_every_Z_witness :
  inner_Z "2024-03-07T23:59:00Z" = false
  /\ parse_due_date IsoFormat.fromisoformat (JStr "2024-03-07T23:59:00Z")
     = parse_spec IsoFormat.fromisoformat "2024-03-07T23:59:00Z"
  /\ parse_due_date IsoFormat.fromisoformat (JStr "2024-03-07T23:59:00Z")
     = inr (Aware 1709855940000000 0).
Proof.
  split; [reflexivity|]. split.
  - exact (proj1 (proj2 (proj2
             (parse_due_date_replaces_every_Z IsoFormat.fromisoformat)))
             "2024-03-07T23:59:00Z" eq_refl).
  - vm_compute. reflexivity.
Defined.

(** C7, as stated, fails: a [Z] that is not trailing is replaced too. The
    string below is no ISO 8601 timestamp and has no trailing [Z], so the
    substitution of the specification leaves it alone and the
    specification has the parse fail; [parse_due_date] rewrites the [Z]
    into the start of an offset with seconds, [+00:00:00], and returns a
    datetime. *)
Lemma parse_due_date_accepts_inner_Z :
  IsoFormat.fromisoformat "2024-03-07T23:59:00Z:00" = None
  /\ parse_spec IsoFormat.fromisoformat "2024-03-07T23:59:00Z:00"
     = inl (ValueError "Invalid isoformat string")
  /\ parse_due_date IsoFormat.fromisoformat (JStr "2024-03-07T23:59:00Z:00")
     = inr (Aware 1709855940000000 0).
Proof.
  split; [vm_compute; reflexivity|].
  split; vm_compute; reflexivity.
Qed.

(** ** The cutoff *)

Lemma fetches_before_clock_quiet evs :
  Forall not_request evs -> fetches_before_clock evs.
Proof.
  induction 1 as [|e evs He Hs IH]; simpl; [exact I|].
  destruct e; try exact IH. exact Hs.
Qed.

Lemma fetches_before_clock_app e1 e2 :
  Forall not_clock e1 -> Forall not_request e2 ->
  fetches_before_clock (e1 ++ e2).
Proof.
  induction 1 as [|e e1 He Hs IH]; intros H2; simpl.
  - apply fetches_before_clock_quiet. exact H2.
  - destruct e; try (apply IH; exact H2). exfalso. apply He. reflexivity.
Qed.

Section Cutoff.

Variable fromisoformat : string -> option datetime.
Variable py_str : json -> string.
Variable w : world.

Lemma gather_event_not_clock e : gather_event e -> not_clock e.
Proof. destruct e; simpl; intros H; try discriminate; destruct H. Qed.

(** Whatever the run, every request comes before the first reading of
    the clock. *)
Lemma fetch_body_fetches_before_clock fuel t :
  fetches_before_clock (snd (fetch_body fromisoformat py_str w fuel t)).
Proof.
  unfold fetch_body.
  destruct (String.eqb (PyStr.strip (token_entry w)) ""); [exact I|].
  rewrite (bind_Ok _ (cleared_run t)). cbn [snd].
  set (hdrs := auth_headers _). set (t1 := t ++ cleared).
  pose proof (sound_gather py_str w fuel hdrs t1) as [Hg _].
  assert (Hc : Forall not_clock (cleared ++ snd (gather py_str w fuel hdrs t1))).
  { apply Forall_app. split.
    - repeat constructor; discriminate.
    - eapply Forall_impl; [|exact Hg]. apply gather_event_not_clock. }
  destruct (gather py_str w fuel hdrs t1) as [[all|e|] eg] eqn:Eg;
    cbn [snd] in Hc.
  - rewrite (bind_Ok _ Eg). cbn [snd]. rewrite app_assoc.
    apply fetches_before_clock_app; [exact Hc|].
    destruct (sound_present fromisoformat py_str w all (t1 ++ eg)) as [Hp _].
    eapply Forall_impl; [|exact Hp]. apply present_event_quiet.
  - rewrite (bind_Raise _ Eg). cbn [snd].
    rewrite <- (app_nil_r (cleared ++ eg)).
    apply fetches_before_clock_app; [exact Hc|constructor].
  - rewrite (bind_OutOfFuel _ Eg). cbn [snd].
    rewrite <- (app_nil_r (cleared ++ eg)).
    apply fetches_before_clock_app; [exact Hc|constructor].
Qed.

Lemma kept_iff_not_before now_wall now_off a i :
  due_instant fromisoformat a = Some i ->
  kept fromisoformat (Aware now_wall now_off) a = true
  <-> utc_of now_wall now_off <= i.
Proof.
  unfold due_instant, kept, is_upcoming. intros H.
  destruct (parse_due_date fromisoformat (due_at a))
    as [e|[wall|wall off]] eqn:Ep; try discriminate H.
  inversion H; subst i.
  destruct (is_None (due_at a)) eqn:En.
  - destruct (due_at a); try discriminate En. discriminate Ep.
  - simpl. apply Z.leb_le.
Qed.

Lemma day_items_In items :
  Forall (displayable fromisoformat w) items ->
  forall k a,
    In a items ->
    exists j dl,
      due_local fromisoformat w a = inr dl
      /\ In (due_label w (k + j) a dl)
            (day_items fromisoformat w (weekday_name dl) k items).
Proof.
  induction 1 as [|item items [dl Hd] Hs IH]; intros k a Ha; [destruct Ha|].
  destruct Ha as [Ha|Ha].
  - subst item. exists O, dl. split; [exact Hd|].
    simpl. rewrite Hd, String.eqb_refl, Nat.add_0_r. left. reflexivity.
  - destruct (IH (S k) a Ha) as [j [dl' [Hd' Hin]]].
    exists (S j), dl'. split; [exact Hd'|].
    simpl. rewrite Hd. apply in_or_app. right.
    replace (k + S j)%nat with (S k + j)%nat by lia. exact Hin.
Qed.

Lemma day_items_inv day items :
  forall k c,
    In c (day_items fromisoformat w day k items) ->
    exists a j dl,
      In a items
      /\ due_local fromisoformat w a = inr dl
      /\ weekday_name dl = day
      /\ c = due_label w (k + j) a dl.
Proof.
  induction items as [|item items IH]; intros k c Hc; [destruct Hc|].
  simpl in Hc.
  destruct (due_local fromisoformat w item) as [e|dl] eqn:Hd;
    [destruct Hc|].
  apply in_app_or in Hc. destruct Hc as [Hc|Hc].
  - destruct (String.eqb (weekday_name dl) day) eqn:E; [|destruct Hc].
    destruct Hc as [Hc|[]]. apply String.eqb_eq in E.
    exists item, O, dl. rewrite Nat.add_0_r. simpl. auto.
  - destruct (IH (S k) c Hc) as [a [j [dl' [Ha [Hd' [Hday Hl]]]]]].
    exists a, (S j), dl'. simpl.
    replace (k + S j)%nat with (S k + j)%nat by lia. auto.
Qed.

Lemma day_events_In day c items :
  In c items -> In (EvLabel day c) (day_events day items).
Proof.
  destruct items as [|x items]; [intros []|].
  intros H. unfold day_events. apply in_map. exact H.
Qed.

(** Each upcoming record is shown under its local day. *)
Lemma display_events_shows k up nd a :
  Forall (displayable fromisoformat w) up ->
  In a up ->
  exists j dl,
    due_local fromisoformat w a = inr dl
    /\ In (EvLabel (weekday_name dl) (due_label w (k + j) a dl))
          (display_events fromisoformat py_str w k up nd).
Proof.
  intros Hp Ha. destruct (day_items_In Hp k a Ha) as [j [dl [Hd Hin]]].
  exists j, dl. split; [exact Hd|].
  unfold display_events. apply in_or_app. right.
  apply in_or_app. right. apply in_or_app. left.
  apply in_flat_map. exists (weekday_name dl). split.
  - apply weekday_name_in_day_tabs.
  - apply day_events_In. exact Hin.
Qed.

(** Each dated label shown is the label of an upcoming record. *)
Lemma display_events_only k up nd day cn an due dd hh :
  In (EvLabel day (DueItem cn an due dd hh))
     (display_events fromisoformat py_str w k up nd) ->
  exists a j dl,
    In a up
    /\ due_local fromisoformat w a = inr dl
    /\ DueItem cn an due dd hh = due_label w (k + j) a dl.
Proof.
  unfold display_events. intros H.
  apply in_app_or in H. destruct H as [H|H].
  { destruct H as [H|[H|[]]]; discriminate H. }
  apply in_app_or in H. destruct H as [H|H].
  { apply repeat_spec in H. discriminate H. }
  apply in_app_or in H. destruct H as [H|H].
  { apply in_flat_map in H. destruct H as [day' [_ H]].
    unfold day_events in H.
    destruct (day_items fromisoformat w day' k up) as [|x items] eqn:E.
    - destruct H as [H|[]]. discriminate H.
    - apply in_map_iff in H. destruct H as [c [Hc Hin]].
      inversion Hc; subst. rewrite <- E in Hin.
      destruct (day_items_inv _ _ _ _ Hin) as [a [j [dl [Ha [Hd [_ Hl]]]]]].
      exists a, j, dl. auto. }
  apply in_app_or in H. destruct H as [H|H].
  { unfold no_due_events in H. destruct nd as [|x nd'].
    - destruct H as [H|[]]. discriminate H.
    - apply in_map_iff in H. destruct H as [c [Hc _]]. discriminate Hc. }
  destruct H as [H|[H|[]]]; discriminate H.
Qed.

End Cutoff.

(** C5. The cutoff is one reading of the clock, taken after the last
    request of the run and before anything else of lines 137-190. A
    record with a due instant is upcoming exactly when that instant is at
    or after the reading, so a record due at the reading itself is
    upcoming. When every upcoming record can be taken to the local zone,
    the records shown in the weekday tabs are the upcoming ones, whatever
    the clock says when it is read again for their remaining time;
    otherwise the run ends with the exception of the first that cannot,
    and shows nothing. In either case a dated label is the label of an
    upcoming record. *)
Theorem cutoff_captured_once
        (fromisoformat : string -> option datetime) (py_str : json -> string)
        (w : world) (all : list assignment) (t : trace)
        (upcoming no_due : list assignment) :
  classify fromisoformat (captured_now w t) all = inr (upcoming, no_due) ->
  let now := clock w (clock_reads t) in
  let shown := snd (present fromisoformat py_str w all t) in
  captured_now w t = Aware now 0
  /\ (forall a i,
         In a all -> due_instant fromisoformat a = Some i ->
         (In a upcoming <-> now <= i))
  /\ (forall a,
         In a all -> due_instant fromisoformat a = Some now ->
         In a upcoming)
  /\ (Forall (displayable fromisoformat w) upcoming ->
      present fromisoformat py_str w all t
      = (Ok tt,
         EvNow :: display_events fromisoformat py_str w (S (clock_reads t))
                                 upcoming no_due)
      /\ forall a,
          In a upcoming ->
          exists j due_dt_local,
            due_local fromisoformat w a = inr due_dt_local
            /\ In (EvLabel (weekday_name due_dt_local)
                           (due_label w (S (clock_reads t) + j) a
                                      due_dt_local)) shown)
  /\ (~ Forall (displayable fromisoformat w) upcoming ->
      exists e,
        fst (present fromisoformat py_str w all t) = Raise (Builtin e)
        /\ Forall not_label shown)
  /\ (forall day cn an due dd hh,
         In (EvLabel day (DueItem cn an due dd hh)) shown ->
         exists a j due_dt_local,
           In a upcoming
           /\ due_local fromisoformat w a = inr due_dt_local
           /\ DueItem cn an due dd hh
              = due_label w (S (clock_reads t) + j) a due_dt_local)
  /\ (forall fuel t0,
         fetches_before_clock
           (snd (fetch_body fromisoformat py_str w fuel t0))).
Proof.
  intros Hc now shown.
  assert (Hiff : forall a i,
             In a all -> due_instant fromisoformat a = Some i ->
             (In a upcoming <-> now <= i)).
  { intros a i Ha Hi.
    destruct (classify_inr _ _ _ Hc) as [Hu _].
    rewrite captured_now_utc in Hu. fold now in Hu.
    assert (Hk : kept fromisoformat (Aware now 0) a = true
                 <-> utc_of now 0 <= i)
      by (apply kept_iff_not_before; exact Hi).
    unfold utc_of in Hk. rewrite Z.sub_0_r in Hk.
    split.
    - intros Hin. apply Hk. subst upcoming.
      apply (Permutation_in _ (sort_by_perm _ _)) in Hin.
      apply filter_In in Hin. apply Hin.
    - intros Hle. subst upcoming.
      apply (Permutation_in _ (Permutation_sym (sort_by_perm _ _))).
      apply filter_In. split; [exact Ha|]. apply Hk. exact Hle. }
  split; [apply captured_now_utc|].
  split; [exact Hiff|]. split; [|split; [|split; [|split]]].
  - intros a Ha Hi. apply (Hiff a now Ha Hi). lia.
  - intros Hp.
    assert (Hrun : present fromisoformat py_str w all t
                   = (Ok tt,
                      EvNow :: display_events fromisoformat py_str w
                                 (S (clock_reads t)) upcoming no_due))
      by (apply present_run; assumption).
    split; [exact Hrun|]. intros a Ha.
    destruct (@display_events_shows fromisoformat py_str w
                (S (clock_reads t)) upcoming no_due a Hp Ha)
      as [j [dl [Hd Hin]]].
    exists j, dl. split; [exact Hd|].
    unfold shown. rewrite Hrun. right. exact Hin.
  - intros Hn.
    destruct (present_cases fromisoformat py_str w all t)
      as [(e & He & _)|[(up & nd & Hc' & Hd & _)
                       |(good & bad & rest & nd & e & _ & _ & _ & Hrun)]].
    + congruence.
    + exfalso. apply Hn. congruence.
    + exists e. unfold shown. rewrite Hrun. split; [reflexivity|].
      cbn [snd]. apply Forall_app. split; [repeat constructor|].
      apply Forall_forall. intros x Hx. apply repeat_spec in Hx. now subst x.
  - intros day cn an due dd hh Hin. unfold shown in Hin.
    destruct (present_cases fromisoformat py_str w all t)
      as [(e & He & _)|[(up & nd & Hc' & _ & Hrun)
                       |(good & bad & rest & nd & e & _ & _ & _ & Hrun)]].
    + congruence.
    + rewrite Hrun in Hin. rewrite Hc in Hc'. inversion Hc'; subst up nd.
      destruct Hin as [Hin|Hin]; [discriminate Hin|].
      eapply display_events_only. exact Hin.
    + exfalso. rewrite Hrun in Hin. cbn [snd] in Hin.
      apply in_app_or in Hin. destruct Hin as [Hin|Hin].
      * destruct Hin as [Hin|[Hin|[Hin|[]]]]; discriminate Hin.
      * apply repeat_spec in Hin. discriminate Hin.
  - intros fuel t0. apply fetch_body_fetches_before_clock.
Qed.

(** A record due at the very instant of the cutoff is upcoming. *)
Lemma cutoff_captured_once_witness :
  classify IsoFormat.fromisoformat (captured_now Examples.w_calc [])
           [Records.thursday; Records.past; Records.at_cutoff;
            Records.undated]
  = inr ([Records.at_cutoff; Records.thursday], [Records.undated])
  /\ due_instant IsoFormat.fromisoformat Records.at_cutoff
     = Some (clock Examples.w_calc (clock_reads []))
  /\ In Records.at_cutoff [Records.at_cutoff; Records.thursday].
Proof.
  split; [vm_compute; reflexivity|]. split; [vm_compute; reflexivity|].
  refine (proj1 (proj2 (proj2
            (@cutoff_captured_once IsoFormat.fromisoformat py_str_ref
               Examples.w_calc
               [Records.thursday; Records.past; Records.at_cutoff;
                Records.undated]
               [] [Records.at_cutoff; Records.thursday] [Records.undated]
               _))) Records.at_cutoff _ _).
  - vm_compute. reflexivity.
  - simpl. tauto.
  - vm_compute. reflexivity.
Defined.

(** ** Due dates that do not parse *)

Section Malformed.

Variable fromisoformat : string -> option datetime.

Lemma is_upcoming_malformed now a s :
  due_at a = JStr s ->
  fromisoformat (PyStr.replace s "Z" "+00:00") = None ->
  is_upcoming fromisoformat now a
  = inl (ValueError "Invalid isoformat string").
Proof.
  intros Hd Hf. unfold is_upcoming, parse_due_date. rewrite Hd, Hf.
  reflexivity.
Qed.

Lemma filter_upcoming_malformed now all a s :
  In a all ->
  due_at a = JStr s ->
  fromisoformat (PyStr.replace s "Z" "+00:00") = None ->
  exists e, filter_upcoming fromisoformat now all = inl e.
Proof.
  intros Ha Hd Hf. induction all as [|b all IH]; [destruct Ha|].
  simpl. destruct Ha as [Ha|Ha].
  - subst b. rewrite (is_upcoming_malformed now a Hd Hf). simpl. eauto.
  - destruct (is_upcoming fromisoformat now b) as [e|keep]; simpl; [eauto|].
    destruct (IH Ha) as [e He]. rewrite He. simpl. eauto.
Qed.

Lemma classify_malformed now all a s :
  In a all ->
  due_at a = JStr s ->
  fromisoformat (PyStr.replace s "Z" "+00:00") = None ->
  exists e, classify fromisoformat now all = inl e.
Proof.
  intros Ha Hd Hf.
  destruct (filter_upcoming_malformed now all a Ha Hd Hf) as [e He].
  exists e. unfold classify. rewrite He. reflexivity.
Qed.

End Malformed.

(** C1, as amended. A due date that is present and does not parse is not
    tolerated: when the merge buffer holds such a record, classification
    raises, the run ends in the generic error dialog right after the
    cutoff was taken, and no label reaches any tab, the no-due tab
    included. The records of the no-due list are those whose due date is
    absent, and no other. *)
Theorem malformed_due_date_aborts_run
        (fromisoformat : string -> option datetime) (py_str : json -> string)
        (w : world) (fuel : nat)
        (all : list assignment) (fetched : list event)
        (a : assignment) (s : string) :
  PyStr.strip (token_entry w) <> "" ->
  gather py_str w fuel (auth_headers (PyStr.strip (token_entry w)))
         (prelude ++ cleared)
  = (Ok all, fetched) ->
  In a all ->
  due_at a = JStr s ->
  fromisoformat (PyStr.replace s "Z" "+00:00") = None ->
  exists e,
    fetch_body fromisoformat py_str w fuel prelude
    = (Raise (Builtin e), cleared ++ fetched ++ [EvNow])
    /\ fetch_assignments_thread fromisoformat py_str w fuel []
       = (Ok tt,
          prelude ++ cleared ++ fetched
          ++ [EvNow; EvShowError "Error" (StrOf (Builtin e)); EvButton true])
    /\ Forall not_label
              (snd (fetch_assignments_thread fromisoformat py_str w fuel []))
    /\ (forall b, In b (no_due_of all) <-> In b all /\ due_at b = JNull).
Proof.
  intros Htok Hg Ha Hd Hf. apply String.eqb_neq in Htok.
  destruct (classify_malformed fromisoformat
              (captured_now w ((prelude ++ cleared) ++ fetched)) all a Ha Hd Hf)
    as [e He].
  exists e.
  assert (Hbody : fetch_body fromisoformat py_str w fuel prelude
                  = (Raise (Builtin e), cleared ++ fetched ++ [EvNow])).
  { unfold fetch_body. rewrite Htok.
    rewrite (bind_Ok _ (cleared_run _)), (bind_Ok _ Hg).
    erewrite present_raise by exact He. reflexivity. }
  assert (Hrun : fetch_assignments_thread fromisoformat py_str w fuel []
                 = (Ok tt,
                    prelude ++ cleared ++ fetched
                    ++ [EvNow; EvShowError "Error" (StrOf (Builtin e));
                        EvButton true])).
  { rewrite fetch_assignments_thread_run.
    change ([] ++ prelude) with prelude. rewrite Hbody.
    unfold dialog_title. simpl is_HTTPError. cbv iota.
    rewrite <- !app_assoc. reflexivity. }
  split; [exact Hbody|]. split; [exact Hrun|]. split.
  - rewrite Hrun. cbn [snd].
    apply Forall_app. split; [repeat constructor|].
    apply Forall_app. split; [repeat constructor|].
    apply Forall_app. split; [|repeat constructor].
    pose proof (sound_gather py_str w fuel
                  (auth_headers (PyStr.strip (token_entry w)))
                  (prelude ++ cleared)) as [Hs _].
    rewrite Hg in Hs. eapply Forall_impl; [|exact Hs].
    apply gather_event_not_label.
  - intros b. unfold no_due_of. rewrite filter_In.
    split; intros [Hb Hn]; (split; [exact Hb|]).
    + destruct (due_at b); try discriminate Hn. reflexivity.
    + rewrite Hn. reflexivity.
Qed.

(** The third assignment of the course has the due date "not-a-date". *)
Lemma malformed_due_date_aborts_run_witness :
  exists e,
    fetch_body IsoFormat.fromisoformat py_str_ref Examples.w_malformed 5 prelude
    = (Raise (Builtin e),
       cleared
       ++ snd (gather py_str_ref Examples.w_malformed 5 Examples.bearer
                      (prelude ++ cleared))
       ++ [EvNow]).
Proof.
  destruct (@malformed_due_date_aborts_run IsoFormat.fromisoformat py_str_ref
              Examples.w_malformed 5
              [Records.thursday; Records.hw "HW2" JNull;
               Records.hw "HW3" (JStr "not-a-date")]
              (snd (gather py_str_ref Examples.w_malformed 5 Examples.bearer
                           (prelude ++ cleared)))
              (Records.hw "HW3" (JStr "not-a-date")) "not-a-date")
    as [e [Hb _]].
  - intros H. vm_compute in H. discriminate H.
  - vm_compute. reflexivity.
  - simpl. tauto.
  - reflexivity.
  - vm_compute. reflexivity.
  - exists e. exact Hb.
Defined.

(** C1, as stated, fails: with the malformed due date in the buffer the
    run does not complete; it ends in the error dialog, and neither the
    malformed record nor any other record is shown, in the no-due tab or
    elsewhere. *)
Lemma malformed_due_date_is_fatal :
  let run :=
    fetch_assignments_thread IsoFormat.fromisoformat py_str_ref
                             Examples.w_malformed 5 [] in
  fst (fetch_body IsoFormat.fromisoformat py_str_ref Examples.w_malformed 5
                  prelude)
  = Raise (Builtin (ValueError "Invalid isoformat string"))
  /\ In (EvShowError "Error"
           (StrOf (Builtin (ValueError "Invalid isoformat string"))))
        (snd run)
  /\ filter is_label (snd run) = [].
Proof.
  split; [vm_compute; reflexivity|].
  split; [vm_compute; tauto|vm_compute; reflexivity].
Qed.

(** ** The merge buffer *)

Lemma tag_assignments_acc cname recs :
  forall all,
    tag_assignments cname recs all
    = match tag_assignments cname recs [] with
      | inr grp => inr (all ++ grp)
      | inl e => inl e
      end.
Proof.
  induction recs as [|a recs IH]; intros all; simpl.
  - rewrite app_nil_r. reflexivity.
  - destruct (getitem a "name") as [e|name]; simpl; [reflexivity|].
    destruct (get_method a "due_at" JNull) as [e|due]; simpl; [reflexivity|].
    rewrite (IH (all ++ _)), (IH [_]).
    destruct (tag_assignments cname recs []) as [e|grp]; [reflexivity|].
    rewrite <- app_assoc. reflexivity.
Qed.

(** The records of one course enter the buffer in the order fetched, one
    per fetched record, under the name of the course. *)
Lemma tag_assignments_tags cname recs :
  forall grp,
    tag_assignments cname recs [] = inr grp ->
    Forall2 (tags cname) recs grp.
Proof.
  induction recs as [|a recs IH]; intros grp H; simpl in H.
  - inversion H. constructor.
  - destruct (getitem a "name") as [e|name] eqn:En; simpl in H;
      [discriminate H|].
    destruct (get_method a "due_at" JNull) as [e|due] eqn:Ed; simpl in H;
      [discriminate H|].
    rewrite tag_assignments_acc in H.
    destruct (tag_assignments cname recs []) as [e|g] eqn:Eg;
      [discriminate H|].
    inversion H; subst grp. simpl. constructor.
    + unfold tags. simpl. auto.
    + apply IH. reflexivity.
Qed.

(** C9. A course record without the key [name] does not stop the run: it
    is handled exactly as the same record with the name "Unnamed Course"
    would be, and each assignment fetched for it enters the merge buffer,
    none dropped, under the course name "Unnamed Course"; the loop then
    goes on with the next course. *)
Theorem unnamed_course_fallback
        (py_str : json -> string) (w : world) (fuel : nat)
        (hdrs : list (string * string)) (total idx : nat)
        (fields : list (string * json)) (rest : list json)
        (all : list assignment) (t : trace) :
  assoc "name" fields = None ->
  get_method (JObj fields) "name" unnamed = inr unnamed
  /\ compile_assignments py_str w fuel hdrs total idx
                         (JObj fields :: rest) all t
     = compile_assignments py_str w fuel hdrs total idx
                           (JObj (("name", unnamed) :: fields) :: rest) all t
  /\ (forall cid recs fetched grp,
         assoc "id" fields = Some cid ->
         get_all_pages w fuel
           (BASE_URL ++ "/courses/" ++ py_str cid ++ "/assignments")%string
           hdrs None
           (t ++ [EvLog ("  → Fetching assignments for " ++ py_str unnamed)%string])
         = (Ok recs, fetched) ->
         tag_assignments unnamed recs [] = inr grp ->
         Forall2 (tags unnamed) recs grp
         /\ let evs :=
              EvLog ("  → Fetching assignments for " ++ py_str unnamed)%string
              :: fetched
              ++ [EvBarValue idx; EvProgressLabel (PercentOf idx total);
                  EvUpdateIdle] in
            let next :=
              compile_assignments py_str w fuel hdrs total (S idx) rest
                                  (all ++ grp) (t ++ evs) in
            compile_assignments py_str w fuel hdrs total idx
                                (JObj fields :: rest) all t
            = (fst next, evs ++ snd next)).
Proof.
  intros Hname.
  assert (Hget : get_method (JObj fields) "name" unnamed = inr unnamed)
    by (unfold get_method; rewrite Hname; reflexivity).
  split; [exact Hget|]. split.
  - cbn [compile_assignments]. fold unnamed. rewrite Hget.
    unfold getitem, get_method. cbn [assoc].
    change (String.eqb "id" "name") with false.
    change (String.eqb "name" "name") with true. cbv iota. reflexivity.
  - intros cid recs fetched grp Hid Hpages Htag.
    split; [apply tag_assignments_tags; exact Htag|].
    cbn [compile_assignments]. fold unnamed. rewrite Hget.
    unfold getitem. rewrite Hid. cbn [lift].
    rewrite !bind_ret. unfold log_status. rewrite bind_emit.
    rewrite (bind_Ok _ Hpages). rewrite tag_assignments_acc, Htag.
    cbn [lift]. rewrite bind_ret.
    rewrite (bind_Ok _ (report_progress_run idx total _)).
    cbn [fst snd]. rewrite <- !app_assoc. cbn [app].
    rewrite <- !app_assoc. reflexivity.
Qed.

(** A course record that has an id and nothing else. *)
Lemma unnamed_course_fallback_witness :
  compile_assignments py_str_ref Examples.w_three_courses 5 Examples.bearer
                      3 3 [JObj [("id", JNum 3)]] [] []
  = compile_assignments py_str_ref Examples.w_three_courses 5 Examples.bearer
                        3 3 [JObj [("name", unnamed); ("id", JNum 3)]] [] []
  /\ In (EvLabel "Tuesday"
           (DueItem unnamed (JStr "Essay") (Aware 1709625600000000 0) 1 8))
        (snd (fetch_assignments_thread IsoFormat.fromisoformat py_str_ref
                                       Examples.w_three_courses 5 [])).
Proof.
  split.
  - exact (proj1 (proj2 (@unnamed_course_fallback py_str_ref
                           Examples.w_three_courses 5 Examples.bearer 3 3
                           [("id", JNum 3)] [] [] [] eq_refl))).
  - vm_compute. tauto.
Defined.

Section MergeOrder.

Variable py_str : json -> string.
Variable w : world.

(** The merge buffer holds the records course by course, in the order
    the courses were enumerated, and within a course in the order its
    assignments were fetched. *)
Lemma compile_assignments_order fuel hdrs total courses :
  forall idx all t all' evs,
    compile_assignments py_str w fuel hdrs total idx courses all t
    = (Ok all', evs) ->
    exists groups,
      all' = all ++ concat groups
      /\ Forall2 (fun course grp =>
                    exists cname recs,
                      get_method course "name" unnamed = inr cname
                      /\ Forall2 (tags cname) recs grp)
                 courses groups.
Proof.
  induction courses as [|course courses IH]; intros idx all t all' evs H.
  - inversion H. exists []. simpl. rewrite app_nil_r. split; constructor.
  - cbn [compile_assignments] in H.
    invert_bind H cid e1 e1' Hid E1. invert_lift Hid.
    invert_bind H cname e2 e2' Hname E2. invert_lift Hname.
    invert_bind H u3 e3 e3' H3 E3.
    invert_bind H recs e4 e4' H4 E4.
    invert_bind H all1 e5 e5' Htag E5. invert_lift Htag.
    invert_bind H u6 e6 e6' H6 E6.
    apply IH in H. destruct H as [groups [Hall Hgroups]].
    rewrite tag_assignments_acc in Htag.
    destruct (tag_assignments cname recs []) as [e|grp] eqn:Eg;
      [discriminate Htag|].
    inversion Htag; subst all1.
    exists (grp :: groups). split.
    + rewrite Hall. simpl. rewrite app_assoc. reflexivity.
    + constructor; [|exact Hgroups].
      exists cname, recs. split; [exact Hname|].
      apply tag_assignments_tags. exact Eg.
Qed.

End MergeOrder.

(** C6. The upcoming list is in ascending order of due instant; records
    due at the same instant stand in the order they had in the merge
    buffer; and sorting the list again returns it unchanged. The merge
    buffer itself holds the records course by course in the order of
    enumeration, and within a course in the order fetched. *)
Theorem upcoming_sorted_stably
        (fromisoformat : string -> option datetime)
        (now_wall now_off : Z) (all upcoming no_due : list assignment) :
  classify fromisoformat (Aware now_wall now_off) all
  = inr (upcoming, no_due) ->
  StronglySorted (key_le (due_key fromisoformat)) upcoming
  /\ Forall (fun a => due_instant fromisoformat a
                      = Some (due_key fromisoformat a)) upcoming
  /\ Permutation upcoming
                 (filter (kept fromisoformat (Aware now_wall now_off)) all)
  /\ (forall k,
         filter (has_key (due_key fromisoformat) k) upcoming
         = filter (has_key (due_key fromisoformat) k)
                  (filter (kept fromisoformat (Aware now_wall now_off)) all))
  /\ sort_by_due fromisoformat upcoming = inr upcoming
  /\ (forall py_str w fuel hdrs total idx courses buffer t buffer' evs,
         compile_assignments py_str w fuel hdrs total idx courses buffer t
         = (Ok buffer', evs) ->
         exists groups,
           buffer' = buffer ++ concat groups
           /\ Forall2 (fun course grp =>
                         exists cname recs,
                           get_method course "name" unnamed = inr cname
                           /\ Forall2 (tags cname) recs grp)
                      courses groups).
Proof.
  intros Hc. destruct (classify_inr _ _ _ Hc) as [Hu [_ Hp]].
  split; [|split; [|split; [|split; [|split]]]].
  - subst upcoming. apply sort_by_sorted.
  - eapply Forall_impl; [|exact Hp].
    intros a [d [Hd Ha]]. unfold due_instant, due_key. rewrite Hd.
    destruct d; [discriminate Ha|reflexivity].
  - subst upcoming. apply sort_by_perm.
  - intros k. subst upcoming. apply sort_by_stable.
  - rewrite (sort_by_due_inr Hp). f_equal.
    subst upcoming. apply sort_by_idempotent.
  - intros py_str w fuel hdrs total idx courses buffer t buffer' evs H.
    eapply compile_assignments_order. exact H.
Qed.

(** Two records due at one instant keep their merge order; the record due
    at the cutoff comes first. *)
Lemma upcoming_sorted_stably_witness :
  let all := [Records.thursday; Records.tuesday_a; Records.undated;
              Records.past; Records.tuesday_b; Records.at_cutoff] in
  let upcoming := [Records.at_cutoff; Records.tuesday_a; Records.tuesday_b;
                   Records.thursday] in
  classify IsoFormat.fromisoformat Records.now all
  = inr (upcoming, [Records.undated])
  /\ StronglySorted (key_le (due_key IsoFormat.fromisoformat)) upcoming
  /\ sort_by_due IsoFormat.fromisoformat upcoming = inr upcoming.
Proof.
  intros all upcoming.
  assert (Hc : classify IsoFormat.fromisoformat (Aware Examples.march_4 0) all
               = inr (upcoming, [Records.undated]))
    by (vm_compute; reflexivity).
  split; [exact Hc|].
  destruct (upcoming_sorted_stably _ _ _ _ Hc) as [Hs [_ [_ [_ [Hi _]]]]].
  split; [exact Hs|exact Hi].
Defined.

(** ** The worked example of the specification *)

(** One course, [Calc]; [HW1] due 2024-03-07T23:59:00Z and [HW2] without
    a due date; the local zone falls back to UTC and the clock stands at
    2024-03-04T00:00:00Z. [HW1] is shown on Thursday with 3 days
    remaining, [HW2] in the tab of records without a due date. *)
Example calc_run_labels :
  filter is_label
         (snd (fetch_assignments_thread IsoFormat.fromisoformat py_str_ref
                                        Examples.w_calc 5 []))
  = [EvLabel "Monday" (Placeholder "No assignments due.");
     EvLabel "Tuesday" (Placeholder "No assignments due.");
     EvLabel "Wednesday" (Placeholder "No assignments due.");
     EvLabel "Thursday"
       (DueItem (JStr "Calc") (JStr "HW1") (Aware 1709855940000000 0) 3 23);
     EvLabel "Friday" (Placeholder "No assignments due.");
     EvLabel "Saturday" (Placeholder "No assignments due.");
     EvLabel "Sunday" (Placeholder "No assignments due.");
     EvLabel "No Due Date" (NoDueItem (JStr "Calc") (JStr "HW2"))].
Proof. vm_compute. reflexivity. Qed.

(** A due date that parses but lies, as an instant, beyond the year
    9999: the record is upcoming, line 158 raises, and the run ends with
    the generic dialog and no label. *)
Example far_date_run :
  let run :=
    fetch_assignments_thread IsoFormat.fromisoformat py_str_ref
                             Examples.w_far 5 [] in
  due_local IsoFormat.fromisoformat Examples.w_far
            (Records.hw "Last" (JStr "9999-12-31T23:59:59-08:00"))
  = inl (OverflowError "date value out of range")
  /\ fst run = Ok tt
  /\ In (EvShowError "Error"
           (StrOf (Builtin (OverflowError "date value out of range"))))
        (snd run)
  /\ filter is_label (snd run) = [].
Proof.
  intros run. split; [vm_compute; reflexivity|].
  split; [vm_compute; reflexivity|].
  split; [vm_compute; tauto|vm_compute; reflexivity].
Qed.

(** An answer to the identity request that is no JSON: [json()] raises,
    and the run ends with the generic dialog. *)
Example undecodable_page_run :
  fetch_assignments_thread IsoFormat.fromisoformat py_str_ref
                           Examples.w_html 5 []
  = (Ok tt,
     prelude ++ cleared ++ opening Examples.w_html
     ++ [EvShowError "Error" (StrOf JSONDecodeError); EvButton true]).
Proof. vm_compute. reflexivity. Qed.

(** A token field that holds a space and a no-break space is blank. *)
Example nbsp_token_run :
  fetch_assignments_thread IsoFormat.fromisoformat py_str_ref
                           NoCourses.w_blank 5 []
  = (Ok tt, prelude ++ [token_dialog; EvButton true]).
Proof. vm_compute. reflexivity. Qed.

(** ** The fetcher, whatever the server does *)

Section FetcherBounds.

Variable w : world.

Lemma requests_get_run u hdrs ps t :
  snd (requests_get w u hdrs ps t) = [EvRequest (mk_request u hdrs ps)].
Proof.
  unfold requests_get. fold (mk_request u hdrs ps).
  destruct (server w (requests_of t) (mk_request u hdrs ps)); reflexivity.
Qed.

Lemma get_all_pages_from_length fuel :
  forall u hdrs ps results t,
    (length (snd (get_all_pages_from w fuel u hdrs ps results t)) <= fuel)%nat.
Proof.
  induction fuel as [|fuel IH]; intros u hdrs ps results t;
    destruct u as [u|]; simpl; try lia;
    destruct (String.eqb u ""); simpl; try lia.
  destruct (server w (requests_of t) (mk_request u hdrs ps)) as [r|] eqn:Es.
  - rewrite (bind_Ok _ (@requests_get_reply w hdrs u ps t r Es)).
    unfold raise_for_status.
    destruct (is_error_status (status_code r)).
    + rewrite bind_raise. simpl. lia.
    + rewrite bind_ret. unfold response_json.
      destruct (body r) as [decoded|];
        [rewrite bind_ret|rewrite bind_raise; simpl; lia].
      destruct (py_iter decoded) as [e|items]; simpl lift.
      * rewrite bind_raise. simpl. lia.
      * rewrite bind_ret. simpl snd. simpl length.
        destruct (assoc "next" (links r));
          match goal with
          | |- (S (length (snd (get_all_pages_from _ _ ?u' _ ?ps' ?rs ?t'))) <= _)%nat =>
              specialize (IH u' hdrs ps' rs t'); lia
          end.
  - assert (Hu : requests_get w u hdrs ps t
                 = (Raise ConnectionError, [EvRequest (mk_request u hdrs ps)])).
    { unfold requests_get. fold (mk_request u hdrs ps).
      rewrite Es. reflexivity. }
    rewrite (bind_Raise _ Hu). simpl. lia.
Qed.

Lemma endless_run fuel :
  endless w ->
  forall u hdrs ps results t,
    u <> "" ->
    exists reqs,
      get_all_pages_from w fuel (Some u) hdrs ps results t
      = (OutOfFuel, map EvRequest reqs)
      /\ length reqs = fuel.
Proof.
  intros Hw. induction fuel as [|fuel IH]; intros u hdrs ps results t Hu;
    simpl; rewrite (eqb_empty_false Hu).
  - exists []. split; reflexivity.
  - destruct (Hw (requests_of t) (mk_request u hdrs ps))
      as (r & decoded & items & next & Es & Eok & Eb & Eit & Enext & Hnext).
    rewrite (bind_Ok _ (@requests_get_reply w hdrs u ps t r Es)).
    unfold raise_for_status, response_json.
    rewrite Eok, bind_ret, Eb, bind_ret, Eit. simpl lift.
    rewrite bind_ret, Enext.
    destruct (IH next hdrs None (results ++ items)
                 (t ++ [EvRequest (mk_request u hdrs ps)]) Hnext)
      as (reqs & Hrun & Hlen).
    exists (mk_request u hdrs ps :: reqs). rewrite Hrun. simpl.
    split; [reflexivity|]. now rewrite Hlen.
Qed.

Lemma sound_addressed_get_all_pages_from hdrs fuel :
  forall u ps results,
    sound (addressed hdrs) pages_exn (@anything (list json))
          (get_all_pages_from w fuel u hdrs ps results).
Proof.
  induction fuel as [|fuel IH]; intros u ps results;
    destruct u as [u|]; simpl; try (apply sound_ret; exact I);
    destruct (String.eqb u "") eqn:Eu; try (apply sound_ret; exact I).
  - apply sound_out_of_fuel.
  - apply String.eqb_neq in Eu.
    eapply sound_bind with (Ra := @anything response).
    { intros t. rewrite requests_get_run. split.
      - constructor; [|constructor]. simpl. auto.
      - unfold requests_get.
        destruct (server w (requests_of t) _); simpl; exact I. }
    intros r _.
    eapply sound_bind with (Ra := @anything unit).
    { unfold raise_for_status. destruct (is_error_status (status_code r)).
      - apply sound_raise. exact I.
      - apply sound_ret. exact I. }
    intros _ _.
    eapply sound_bind with (Ra := @anything json);
      [apply sound_response_json; [exact I|intros; exact I]|].
    intros decoded _.
    eapply sound_bind with (Ra := @anything (list json)).
    + apply sound_lift; [|intros; exact I].
      intros e He. destruct (py_iter_exn _ He) as [s Hs]. subst. exact I.
    + intros items _. destruct (assoc "next" (links r)); apply IH.
Qed.

End FetcherBounds.

(** X1. Whatever the server answers, [get_all_pages] does nothing but
    issue requests, at most one per unit of fuel; it raises nothing but
    the [HTTPError] of a page with an error status, what [requests.get]
    raises when no response arrives, the [JSONDecodeError] of a page
    that is no JSON, and the [TypeError] of a decoded body that cannot
    be iterated; and a request that fails is the last thing it does,
    every request before it having been served. *)
Theorem get_all_pages_only_fetches
        (w : world) (fuel : nat) (u : string) (hdrs : list (string * string))
        (ps : option (list (string * string))) (t : trace) :
  let run := get_all_pages w fuel u hdrs ps t in
  Forall only_request (snd run)
  /\ (length (snd run) <= fuel)%nat
  /\ match fst run with
     | Raise e => pages_exn e
     | _ => True
     end
  /\ halted w t (fst run) (snd run).
Proof.
  intros run. subst run. unfold get_all_pages.
  destruct (sound_get_all_pages_from w fuel (Some u) hdrs ps [] t)
    as [Hev Hout].
  split; [exact Hev|].
  split; [apply get_all_pages_from_length|].
  split.
  - destruct (fst (get_all_pages_from w fuel (Some u) hdrs ps [] t));
      auto.
  - apply halting_get_all_pages_from.
Qed.

(** X2. The loop of [get_all_pages] has no bound of its own: against a
    server every page of which names a next page, it never returns; with
    any amount of fuel it spends all of it on requests. *)
Theorem get_all_pages_never_returns
        (w : world) (fuel : nat) (u : string) (hdrs : list (string * string))
        (ps : option (list (string * string))) (t : trace) :
  endless w ->
  u <> "" ->
  exists reqs,
    get_all_pages w fuel u hdrs ps t = (OutOfFuel, map EvRequest reqs)
    /\ length reqs = fuel.
Proof.
  intros Hw Hu. unfold get_all_pages. now apply endless_run.
Qed.

Lemma get_all_pages_never_returns_witness :
  exists reqs,
    get_all_pages Loops.w_again 4 "first" Examples.bearer None []
    = (OutOfFuel, map EvRequest reqs)
    /\ length reqs = 4%nat.
Proof.
  apply (@get_all_pages_never_returns Loops.w_again 4 "first"
           Examples.bearer None []).
  - intros hist req.
    exists {| status_code := 200; body := Some (JArr [Examples.rec 1]);
              links := [("next", "again")] |},
           (JArr [Examples.rec 1]), [Examples.rec 1], "again".
    repeat split; try reflexivity. discriminate.
  - discriminate.
Defined.

(** X3. [get_all_pages] never requests an empty URL, neither the one it
    is called with nor one a next link names, and every request it
    issues carries the headers it was given. *)
Theorem get_all_pages_requests_addressed
        (w : world) (fuel : nat) (u : string) (hdrs : list (string * string))
        (ps : option (list (string * string))) (t : trace) :
  Forall (addressed hdrs) (snd (get_all_pages w fuel u hdrs ps t)).
Proof.
  unfold get_all_pages.
  apply (sound_addressed_get_all_pages_from w hdrs fuel (Some u) ps [] t).
Qed.
(** ** The worker, whatever the server does *)

Lemma sound_and (A : Type) (P P' : event -> Prop) (Q Q' : exn -> Prop)
      (R R' : A -> Prop) (m : M A) :
  sound P Q R m -> sound P' Q' R' m ->
  sound (fun e => P e /\ P' e) (fun e => Q e /\ Q' e)
        (fun a => R a /\ R' a) m.
Proof.
  intros H H' t. destruct (H t) as [He Ho], (H' t) as [He' Ho'].
  split.
  - apply Forall_forall. intros e Hin.
    rewrite Forall_forall in He, He'. auto.
  - destruct (fst (m t)); auto.
Qed.

Lemma bind_snd_prefix (A B : Type) (m : M A) (f : A -> M B) t :
  exists rest, snd (bind m f t) = snd (m t) ++ rest.
Proof.
  unfold bind. destruct (m t) as [[a|e|] e1]; simpl.
  - destruct (f a (t ++ e1)) as [r e2]. exists e2. reflexivity.
  - exists []. now rewrite app_nil_r.
  - exists []. now rewrite app_nil_r.
Qed.

Lemma code_points_nonempty s :
  Forall (fun ch => ch <> EmptyString) (PyStr.code_points s).
Proof.
  induction s as [|c s IH]; simpl; [constructor|].
  destruct (PyStr.code_points s) as [|ch rest].
  - constructor; [discriminate|constructor].
  - destruct (PyStr.starts_with_continuation s).
    + constructor; [discriminate|]. now inversion IH.
    + constructor; [discriminate|exact IH].
Qed.

Lemma drop_spaces_incl l x : In x (PyStr.drop_spaces l) -> In x l.
Proof.
  induction l as [|ch rest IH]; simpl; [auto|].
  destruct (PyStr.is_whitespace ch); [auto|]. simpl. auto.
Qed.

Lemma drop_spaces_nil l :
  PyStr.drop_spaces l = [] <-> forallb PyStr.is_whitespace l = true.
Proof.
  induction l as [|ch rest IH]; simpl; [tauto|].
  destruct (PyStr.is_whitespace ch); simpl; [exact IH|].
  split; discriminate.
Qed.

Lemma drop_spaces_head l ch rest :
  PyStr.drop_spaces l = ch :: rest -> PyStr.is_whitespace ch = false.
Proof.
  induction l as [|c l IH]; simpl; [discriminate|].
  destruct (PyStr.is_whitespace c) eqn:E; [exact IH|].
  intros H. injection H as -> _. exact E.
Qed.

Lemma concat_empty l :
  Forall (fun ch => ch <> EmptyString) l ->
  String.concat EmptyString l = EmptyString -> l = [].
Proof.
  destruct l as [|x [|y l]]; simpl; intros H E; [reflexivity| |].
  - inversion H; subst. contradiction.
  - inversion H; subst. destruct x; [contradiction|discriminate].
Qed.

Lemma forallb_rev (A : Type) (f : A -> bool) l :
  forallb f (rev l) = forallb f l.
Proof.
  induction l as [|a l IH]; simpl; [reflexivity|].
  rewrite forallb_app, IH. simpl. rewrite andb_true_r. apply andb_comm.
Qed.

(** [s.strip()] is empty exactly when [s] is white space. *)
Lemma strip_empty_iff s : PyStr.strip s = "" <-> blank s = true.
Proof.
  unfold PyStr.strip, blank. split; intros H.
  - apply concat_empty in H.
    + apply (f_equal (@rev string)) in H. rewrite rev_involutive in H.
      simpl in H. apply drop_spaces_nil in H. rewrite forallb_rev in H.
      destruct (PyStr.drop_spaces (PyStr.code_points s)) as [|ch rest] eqn:E.
      * apply drop_spaces_nil, E.
      * apply drop_spaces_head in E. simpl in H. rewrite E in H. discriminate.
    + apply Forall_forall. intros x Hx. apply in_rev in Hx.
      apply drop_spaces_incl in Hx. apply in_rev in Hx.
      apply drop_spaces_incl in Hx.
      pose proof (code_points_nonempty s) as Hn.
      rewrite Forall_forall in Hn. auto.
  - apply drop_spaces_nil in H. rewrite H. reflexivity.
Qed.

(** White space beyond ASCII is stripped as well, and inner white space
    stays. *)
Example strip_nbsp :
  PyStr.strip (nbsp ++ "secret" ++ nbsp)%string = "secret".
Proof. vm_compute. reflexivity. Qed.

Example strip_mixed :
  PyStr.strip (" " ++ nbsp ++ "a b" ++ nbsp ++ PyStr.bytes [10%nat])%string
  = "a b".
Proof. vm_compute. reflexivity. Qed.

Example strip_keeps_letters :
  PyStr.strip (PyStr.bytes [195; 160; 32]%nat) = PyStr.bytes [195; 160]%nat.
Proof. vm_compute. reflexivity. Qed.

Example blank_nbsp : blank (" " ++ nbsp)%string = true.
Proof. reflexivity. Qed.

Section WorkerEvents.

Variable fromisoformat : string -> option datetime.
Variable py_str : json -> string.
Variable w : world.
Variable hdrs : list (string * string).

Lemma sound_addressed_get_all_pages fuel u ps :
  sound (addressed hdrs) (fun _ => True) (@anything (list json))
        (get_all_pages w fuel u hdrs ps).
Proof.
  eapply sound_weaken;
    [apply (sound_addressed_get_all_pages_from w hdrs fuel (Some u) ps [])
    |auto|auto|auto].
Qed.

Lemma sound_addressed_quiet (A : Type) (p : pure_result A) :
  sound (addressed hdrs) (fun _ => True) (@anything A) (lift p).
Proof. apply sound_lift; intros; exact I. Qed.

Lemma sound_addressed_compile fuel total courses :
  forall idx all,
    sound (addressed hdrs) (fun _ => True) (@anything (list assignment))
          (compile_assignments py_str w fuel hdrs total idx courses all).
Proof.
  induction courses as [|course rest IH]; intros idx all; simpl.
  - apply sound_ret. exact I.
  - eapply sound_bind; [apply sound_addressed_quiet|]. intros course_id _.
    eapply sound_bind; [apply sound_addressed_quiet|]. intros cname _.
    eapply sound_bind with (Ra := @anything unit);
      [apply sound_emit; exact I|]. intros _ _.
    eapply sound_bind; [apply sound_addressed_get_all_pages|].
    intros assignments _.
    eapply sound_bind; [apply sound_addressed_quiet|]. intros all' _.
    eapply sound_bind with (Ra := @anything unit).
    { unfold report_progress.
      eapply sound_bind with (Ra := @anything unit);
        [apply sound_emit; exact I|]. intros _ _.
      eapply sound_bind with (Ra := @anything unit);
        [apply sound_emit; exact I|]. intros _ _.
      apply sound_emit; exact I. }
    intros _ _. apply IH.
Qed.

Lemma base_url_not_empty (s : string) : (BASE_URL ++ s)%string <> "".
Proof. discriminate. Qed.

Lemma sound_addressed_fetch_courses fuel :
  sound (addressed hdrs) (fun _ => True) (@anything (list json))
        (fetch_courses py_str w fuel hdrs).
Proof.
  unfold fetch_courses.
  eapply sound_bind with (Ra := @anything unit);
    [apply sound_emit; exact I|]. intros _ _.
  eapply sound_bind with (Ra := @anything unit);
    [apply sound_emit; exact I|]. intros _ _.
  eapply sound_bind with (Ra := @anything response).
  { intros t. rewrite requests_get_run. split.
    - constructor; [|constructor]. split; [reflexivity|].
      apply base_url_not_empty.
    - destruct (fst _); exact I. }
  intros r _.
  eapply sound_bind with (Ra := @anything unit).
  { unfold raise_for_status. destruct (is_error_status (status_code r)).
    - apply sound_raise. exact I.
    - apply sound_ret. exact I. }
  intros _ _.
  eapply sound_bind with (Ra := @anything json);
    [apply sound_response_json; [exact I|intros; exact I]|].
  intros user _.
  eapply sound_bind; [apply sound_addressed_quiet|]. intros user_id _.
  eapply sound_bind; [apply sound_addressed_quiet|]. intros name _.
  eapply sound_bind with (Ra := @anything unit);
    [apply sound_emit; exact I|]. intros _ _.
  eapply sound_bind with (Ra := @anything unit);
    [apply sound_emit; exact I|]. intros _ _.
  eapply sound_bind with (Ra := @anything unit);
    [apply sound_emit; exact I|]. intros _ _.
  eapply sound_bind; [apply sound_addressed_get_all_pages|].
  intros courses _.
  eapply sound_bind with (Ra := @anything unit);
    [apply sound_emit; exact I|]. intros _ _.
  eapply sound_bind with (Ra := @anything unit);
    [apply sound_emit; exact I|]. intros _ _.
  apply sound_ret. exact I.
Qed.

Lemma sound_addressed_gather fuel :
  sound (addressed hdrs) (fun _ => True) (@anything (list assignment))
        (gather py_str w fuel hdrs).
Proof.
  unfold gather.
  eapply sound_bind; [apply sound_addressed_fetch_courses|].
  intros courses _.
  eapply sound_bind with (Ra := @anything unit);
    [apply sound_emit; exact I|]. intros _ _.
  apply sound_addressed_compile.
Qed.

(** What the events of fetching are, all at once. *)
Lemma gather_events fuel t :
  Forall (fun e => gather_event e /\ addressed hdrs e)
         (snd (gather py_str w fuel hdrs t)).
Proof.
  apply (sound_and (sound_gather py_str w fuel hdrs)
                   (sound_addressed_gather fuel) t).
Qed.

End WorkerEvents.

Section WorkerShape.

Variable fromisoformat : string -> option datetime.
Variable py_str : json -> string.
Variable w : world.

(** The events of the body of the [try], from those of its parts. *)
Lemma fetch_body_events (P : event -> Prop) fuel t :
  (forall e, gather_event e ->
             addressed (auth_headers (PyStr.strip (token_entry w))) e ->
             P e) ->
  (forall e, present_event e -> P e) ->
  (forall tab, P (EvClearTab tab)) ->
  P token_dialog ->
  Forall P (snd (fetch_body fromisoformat py_str w fuel t)).
Proof.
  intros Hg Hp Hc Hd. unfold fetch_body.
  destruct (String.eqb (PyStr.strip (token_entry w)) "").
  { constructor; [exact Hd|constructor]. }
  rewrite (bind_Ok _ (cleared_run t)).
  set (hdrs := auth_headers _) in *. set (t1 := t ++ cleared).
  assert (Hcl : Forall P cleared).
  { unfold cleared. apply Forall_forall. intros e He.
    apply in_map_iff in He. destruct He as (tab & <- & _). apply Hc. }
  assert (Hgs : Forall P (snd (gather py_str w fuel hdrs t1))).
  { eapply Forall_impl; [|apply gather_events].
    intros e [H1 H2]. auto. }
  cbn [snd]. apply Forall_app. split; [exact Hcl|].
  destruct (gather py_str w fuel hdrs t1) as [[all|e|] eg] eqn:Eg;
    simpl in Hgs.
  - rewrite (bind_Ok _ Eg). cbn [snd]. apply Forall_app. split; [exact Hgs|].
    eapply Forall_impl; [|apply (sound_present fromisoformat py_str w all)].
    exact Hp.
  - rewrite (bind_Raise _ Eg). exact Hgs.
  - rewrite (bind_OutOfFuel _ Eg). exact Hgs.
Qed.

Lemma fetch_body_opening fuel t :
  String.eqb (PyStr.strip (token_entry w)) "" = false ->
  exists rest,
    snd (fetch_body fromisoformat py_str w fuel t)
    = cleared ++ opening w ++ rest.
Proof.
  intros Ht. unfold fetch_body. rewrite Ht.
  rewrite (bind_Ok _ (cleared_run t)). cbn [snd].
  set (hdrs := auth_headers _). set (t1 := t ++ cleared).
  match goal with
  | |- context [snd (bind ?m ?k ?t')] =>
      destruct (bind_snd_prefix m k t') as [r1 ->]
  end.
  unfold gather.
  match goal with
  | |- context [snd (bind ?m ?k ?t')] =>
      destruct (bind_snd_prefix m k t') as [r2 ->]
  end.
  unfold fetch_courses, log_status. rewrite !bind_emit. cbn [snd].
  match goal with
  | |- context [snd (bind (requests_get w ?u ?h ?p) ?k ?t')] =>
      destruct (bind_snd_prefix (requests_get w u h p) k t') as [r3 ->]
  end.
  rewrite requests_get_run.
  exists (r3 ++ r2 ++ r1). unfold opening, identity_request.
  fold hdrs. simpl. rewrite <- !app_assoc. reflexivity.
Qed.

End WorkerShape.

(** X4. Every request of a run, whatever its outcome, carries the one
    header [Authorization: Bearer <token>] built from the text of the
    token field with the white space at both ends removed, that beyond
    ASCII such as U+00A0 included, and none has an empty URL. *)
Theorem every_request_carries_token
        (fromisoformat : string -> option datetime) (py_str : json -> string)
        (w : world) (fuel : nat) (t : trace) :
  Forall (addressed (auth_headers (PyStr.strip (token_entry w))))
         (snd (fetch_assignments_thread fromisoformat py_str w fuel t)).
Proof.
  set (P := addressed (auth_headers (PyStr.strip (token_entry w)))).
  assert (Hb : Forall P (snd (fetch_body fromisoformat py_str w fuel
                                         (t ++ prelude)))).
  { apply fetch_body_events; unfold P.
    - auto.
    - intros e He. destruct e; try exact I; destruct He.
    - intros tab. exact I.
    - exact I. }
  rewrite fetch_assignments_thread_run.
  destruct (fetch_body fromisoformat py_str w fuel (t ++ prelude))
    as [[[]|e|] evs]; cbn [snd] in *;
    repeat (apply Forall_app; split); auto;
    repeat constructor.
Qed.

(** X5. No exception escapes the worker. A run that ends starts by
    disabling the button and ends by enabling it, and touches it nowhere
    in between; a run that does not end, because the pages of some
    collection never stop, leaves the button disabled. *)
Theorem button_restored_when_done
        (fromisoformat : string -> option datetime) (py_str : json -> string)
        (w : world) (fuel : nat) (t : trace) :
  let run := fetch_assignments_thread fromisoformat py_str w fuel t in
  match fst run with
  | Ok _ =>
      exists mid,
        snd run = EvButton false :: mid ++ [EvButton true]
        /\ Forall not_button mid
  | Raise _ => False
  | OutOfFuel =>
      exists mid, snd run = EvButton false :: mid /\ Forall not_button mid
  end.
Proof.
  intros run. subst run.
  assert (Hb : Forall not_button
                      (snd (fetch_body fromisoformat py_str w fuel
                                       (t ++ prelude)))).
  { apply fetch_body_events.
    - intros e He _. destruct e; try exact I; destruct He.
    - intros e He. destruct e; try exact I; destruct He.
    - intros tab. exact I.
    - exact I. }
  rewrite fetch_assignments_thread_run.
  destruct (fetch_body fromisoformat py_str w fuel (t ++ prelude))
    as [[[]|e|] evs]; cbn [fst snd] in *.
  - exists ([EvBarValue 0; EvProgressLabel (LitText "Progress: 0%")] ++ evs).
    split.
    + unfold prelude. simpl. reflexivity.
    + apply Forall_app. split; [repeat constructor|exact Hb].
  - exists ([EvBarValue 0; EvProgressLabel (LitText "Progress: 0%")] ++ evs
            ++ [EvShowError (dialog_title e) (StrOf e)]).
    split.
    + unfold prelude. simpl. rewrite <- !app_assoc. reflexivity.
    + apply Forall_app. split; [repeat constructor|].
      apply Forall_app. split; [exact Hb|repeat constructor].
  - exists ([EvBarValue 0; EvProgressLabel (LitText "Progress: 0%")] ++ evs).
    split; [reflexivity|].
    apply Forall_app. split; [repeat constructor|exact Hb].
Qed.

(** X6. The worker contacts the server exactly when the token field
    holds something other than white space, that is, other than the
    characters [str.strip] removes, those beyond ASCII such as U+00A0
    included. On a blank field the whole
    run is the dialog that asks for a token: nothing is requested and no
    tab is cleared. Otherwise the tabs are cleared and the first request
    asks who the caller is. *)
Theorem blank_token_fetches_nothing
        (fromisoformat : string -> option datetime) (py_str : json -> string)
        (w : world) (fuel : nat) (t : trace) :
  let run := fetch_assignments_thread fromisoformat py_str w fuel t in
  if blank (token_entry w)
  then run = (Ok tt, prelude ++ [token_dialog; EvButton true])
  else exists rest, snd run = prelude ++ cleared ++ opening w ++ rest.
Proof.
  intros run. subst run. rewrite fetch_assignments_thread_run.
  destruct (blank (token_entry w)) eqn:Eb.
  - apply strip_empty_iff in Eb. unfold fetch_body. rewrite Eb. reflexivity.
  - assert (Ht : String.eqb (PyStr.strip (token_entry w)) "" = false).
    { apply String.eqb_neq. intros H. apply strip_empty_iff in H. congruence. }
    destruct (fetch_body_opening fromisoformat py_str w fuel (t ++ prelude) Ht)
      as [rest Hrest].
    destruct (fetch_body fromisoformat py_str w fuel (t ++ prelude))
      as [[[]|e|] evs]; cbn [snd] in *; subst evs;
    rewrite <- ?app_assoc; eexists; reflexivity.
Qed.
(** ** A user without courses *)

Section NoCourse.

Variable fromisoformat : string -> option datetime.
Variable py_str : json -> string.
Variable w : world.

Lemma get_all_pages_last_page fuel u hdrs ps results t r decoded items :
  u <> "" ->
  server w (requests_of t) (mk_request u hdrs ps) = Reply r ->
  is_error_status (status_code r) = false ->
  body r = Some decoded ->
  py_iter decoded = inr items ->
  assoc "next" (links r) = None ->
  get_all_pages_from w (S fuel) (Some u) hdrs ps results t
  = (Ok (results ++ items), [EvRequest (mk_request u hdrs ps)]).
Proof.
  intros Hu Hs Hok Hb Hit Hnext. simpl. rewrite (eqb_empty_false Hu).
  rewrite (bind_Ok _ (@requests_get_reply w hdrs u ps t r Hs)).
  unfold raise_for_status, response_json.
  rewrite Hok, bind_ret, Hb, bind_ret, Hit. simpl lift.
  rewrite bind_ret, Hnext, get_all_pages_from_None. reflexivity.
Qed.

Lemma gather_no_course fuel t r1 r2 user page uid name :
  requests_of t = [] ->
  server w [] (identity_request w) = Reply r1 ->
  is_error_status (status_code r1) = false ->
  body r1 = Some user ->
  getitem user "id" = inr uid ->
  get_method user "name" JNull = inr name ->
  server w [identity_request w] (courses_request py_str w uid) = Reply r2 ->
  is_error_status (status_code r2) = false ->
  body r2 = Some page ->
  py_iter page = inr [] ->
  assoc "next" (links r2) = None ->
  gather py_str w (S fuel) (auth_headers (PyStr.strip (token_entry w))) t
  = (Ok [],
     opening w
     ++ [EvStatusLabel ("Authenticated as: " ++ py_str name
                        ++ " (ID: " ++ py_str uid ++ ")")%string;
         EvLog ("Authenticated as " ++ py_str name
                ++ " (User ID: " ++ py_str uid ++ ")")%string;
         EvLog "Fetching active courses...";
         EvRequest (courses_request py_str w uid);
         EvLog ("Found " ++ py_str (JNum 0) ++ " active courses.")%string;
         EvBarMaximum 1;
         EvLog "Compiling assignments..."]).
Proof.
  intros Ht H1 Hok1 Hb1 Hid Hname H2 Hok2 Hb2 Hit Hnext.
  set (hdrs := auth_headers (PyStr.strip (token_entry w))).
  assert (Hc : fetch_courses py_str w (S fuel) hdrs t
               = (Ok [],
                  opening w
                  ++ [EvStatusLabel ("Authenticated as: " ++ py_str name
                                     ++ " (ID: " ++ py_str uid ++ ")")%string;
                      EvLog ("Authenticated as " ++ py_str name
                             ++ " (User ID: " ++ py_str uid ++ ")")%string;
                      EvLog "Fetching active courses...";
                      EvRequest (courses_request py_str w uid);
                      EvLog ("Found " ++ py_str (JNum 0)
                             ++ " active courses.")%string;
                      EvBarMaximum 1])).
  { unfold fetch_courses, log_status. rewrite !bind_emit.
    assert (Hg : requests_get w (BASE_URL ++ "/users/self")%string hdrs None
                   ((t ++ [EvLog "----- New fetch started -----"])
                      ++ [EvLog "Authenticating user..."])
                 = (Ok r1, [EvRequest (identity_request w)])).
    { apply requests_get_reply. rewrite !requests_of_app, Ht. exact H1. }
    rewrite (bind_Ok _ Hg). unfold raise_for_status, response_json.
    rewrite Hok1, bind_ret, Hb1, bind_ret, Hid. simpl lift.
    rewrite bind_ret, Hname.
    simpl lift. rewrite bind_ret, !bind_emit.
    match goal with
    | |- context [bind (get_all_pages w _ ?u _ ?ps) ?k ?t'] =>
        assert (Hp : get_all_pages w (S fuel) u hdrs ps t'
                     = (Ok [], [EvRequest (courses_request py_str w uid)]))
    end.
    { unfold get_all_pages.
      erewrite get_all_pages_last_page; try eassumption; try reflexivity.
      - apply base_url_not_empty.
      - rewrite !requests_of_app, Ht. simpl. exact H2. }
    rewrite (bind_Ok _ Hp). rewrite !bind_emit. reflexivity. }
  unfold gather. rewrite (bind_Ok _ Hc). unfold log_status.
  rewrite bind_emit. simpl. reflexivity.
Qed.

Lemma present_nothing t :
  present fromisoformat py_str w [] t
  = (Ok tt,
     [EvNow;
      EvLog ("Upcoming assignments: " ++ py_str (JNum 0))%string;
      EvLog ("No due date: " ++ py_str (JNum 0))%string]
     ++ placeholders
     ++ [EvLog "✅ Everything is loaded.";
         EvProgressLabel (LitText "Progress: 100%")]).
Proof.
  rewrite (@present_run fromisoformat py_str w [] t [] []);
    [reflexivity|reflexivity|apply Forall_nil].
Qed.

End NoCourse.

(** X7. A user without any active course: the run asks who the caller
    is and for the first page of courses, sets the maximum of the bar to
    1 and not to 0, reports no progress, puts the placeholder on each of
    the eight tabs, and ends well. *)
Theorem no_course_run
        (fromisoformat : string -> option datetime) (py_str : json -> string)
        (w : world) (fuel : nat) (r1 r2 : response)
        (user page uid name : json) :
  blank (token_entry w) = false ->
  server w [] (identity_request w) = Reply r1 ->
  is_error_status (status_code r1) = false ->
  body r1 = Some user ->
  getitem user "id" = inr uid ->
  get_method user "name" JNull = inr name ->
  server w [identity_request w] (courses_request py_str w uid) = Reply r2 ->
  is_error_status (status_code r2) = false ->
  body r2 = Some page ->
  py_iter page = inr [] ->
  assoc "next" (links r2) = None ->
  fetch_assignments_thread fromisoformat py_str w (S fuel) []
  = (Ok tt,
     prelude ++ cleared ++ opening w
     ++ [EvStatusLabel ("Authenticated as: " ++ py_str name
                        ++ " (ID: " ++ py_str uid ++ ")")%string;
         EvLog ("Authenticated as " ++ py_str name
                ++ " (User ID: " ++ py_str uid ++ ")")%string;
         EvLog "Fetching active courses...";
         EvRequest (courses_request py_str w uid);
         EvLog ("Found " ++ py_str (JNum 0) ++ " active courses.")%string;
         EvBarMaximum 1;
         EvLog "Compiling assignments...";
         EvNow;
         EvLog ("Upcoming assignments: " ++ py_str (JNum 0))%string;
         EvLog ("No due date: " ++ py_str (JNum 0))%string]
     ++ placeholders
     ++ [EvLog "✅ Everything is loaded.";
         EvProgressLabel (LitText "Progress: 100%");
         EvButton true]).
Proof.
  intros Hb H1 Hok1 Hb1 Hid Hname H2 Hok2 Hb2 Hit Hnext.
  assert (Ht : String.eqb (PyStr.strip (token_entry w)) "" = false).
  { apply String.eqb_neq. intros H. apply strip_empty_iff in H. congruence. }
  rewrite fetch_assignments_thread_run. unfold fetch_body. rewrite Ht.
  rewrite (bind_Ok _ (cleared_run _)).
  assert (Hq : requests_of (([] ++ prelude) ++ cleared) = []) by reflexivity.
  rewrite (bind_Ok _ (@gather_no_course py_str w fuel _ r1 r2 user page
                        uid name
                        Hq H1 Hok1 Hb1 Hid Hname H2 Hok2 Hb2 Hit Hnext)).
  rewrite present_nothing. cbn [fst snd].
  rewrite <- !app_assoc. reflexivity.
Qed.

Lemma no_course_run_witness :
  let run :=
    fetch_assignments_thread IsoFormat.fromisoformat py_str_ref
                             NoCourses.w_lonely 1 [] in
  fst run = Ok tt
  /\ progress_calls (snd run) = []
  /\ In (EvBarMaximum 1) (snd run)
  /\ filter is_label (snd run) = placeholders.
Proof.
  intros run. subst run.
  rewrite (@no_course_run IsoFormat.fromisoformat py_str_ref
             NoCourses.w_lonely 0
             {| status_code := 200;
                body := Some (JObj [("id", JNum 7); ("name", JStr "Ada")]);
                links := [] |}
             {| status_code := 200; body := Some (JArr []); links := [] |}
             (JObj [("id", JNum 7); ("name", JStr "Ada")]) (JArr [])
             (JNum 7) (JStr "Ada"));
    try reflexivity.
  repeat split; vm_compute; auto 30.
Defined.

(** ** What makes the display fail *)

Section Resolvable.

Variable fromisoformat : string -> option datetime.

Lemma is_None_true j : is_None j = true -> j = JNull.
Proof. destruct j; simpl; congruence. Qed.

Lemma is_upcoming_inr_resolvable nw no a b :
  is_upcoming fromisoformat (Aware nw no) a = inr b ->
  resolvable fromisoformat a.
Proof.
  unfold is_upcoming, resolvable, due_instant.
  destruct (is_None (due_at a)) eqn:En.
  - intros _. left. now apply is_None_true.
  - destruct (parse_due_date fromisoformat (due_at a)) as [e|[wall|wall off]];
      simpl; try discriminate.
    intros _. right. eexists. reflexivity.
Qed.

Lemma filter_upcoming_inr_resolvable nw no all :
  forall l,
    filter_upcoming fromisoformat (Aware nw no) all = inr l ->
    Forall (resolvable fromisoformat) all.
Proof.
  induction all as [|a all IH]; intros l; simpl; [constructor|].
  destruct (is_upcoming fromisoformat (Aware nw no) a) as [e|b] eqn:Ea;
    simpl; [discriminate|].
  destruct (filter_upcoming fromisoformat (Aware nw no) all) as [e|l'];
    simpl; [discriminate|].
  intros _. constructor.
  - eapply is_upcoming_inr_resolvable; eauto.
  - eapply IH; eauto.
Qed.

Lemma classify_total_iff nw no all :
  Forall (resolvable fromisoformat) all <->
  exists up nd, classify fromisoformat (Aware nw no) all = inr (up, nd).
Proof.
  split.
  - intros Hres.
    pose proof (filter_upcoming_resolvable nw no Hres) as Hf.
    destruct (filter_upcoming_inr _ _ _ Hf) as [_ Hp].
    unfold classify. rewrite Hf. simpl. rewrite (sort_by_due_inr Hp).
    simpl. eauto.
  - intros (up & nd & Hc). unfold classify in Hc.
    destruct (filter_upcoming fromisoformat (Aware nw no) all) as [e|l] eqn:El;
      simpl in Hc; [discriminate|].
    eapply filter_upcoming_inr_resolvable; eauto.
Qed.

(** The upcoming records of a run are those of the specification's
    upcoming set at the reading of the clock. *)
Lemma classify_upcoming_In (w : world) all t up nd :
  classify fromisoformat (captured_now w t) all = inr (up, nd) ->
  forall a,
    In a up
    <-> In a all
        /\ in_upcoming fromisoformat (clock w (clock_reads t)) a = true.
Proof.
  intros Hc a.
  assert (Hres : Forall (resolvable fromisoformat) all).
  { rewrite captured_now_utc in Hc.
    apply (classify_total_iff (clock w (clock_reads t)) 0 all). eauto. }
  destruct (classify_inr _ _ _ Hc) as [-> _].
  rewrite captured_now_utc.
  assert (Hk : forall b, In b all ->
                 kept fromisoformat (Aware (clock w (clock_reads t)) 0) b
                 = in_upcoming fromisoformat (clock w (clock_reads t)) b).
  { intros b Hb. rewrite Forall_forall in Hres. unfold kept.
    rewrite (is_upcoming_resolvable (clock w (clock_reads t)) 0 (Hres b Hb)).
    unfold utc_of. now rewrite Z.sub_0_r. }
  split.
  - intros Hin.
    apply (Permutation_in _ (sort_by_perm _ _)) in Hin.
    apply filter_In in Hin. destruct Hin as [Ha Hkept].
    split; [exact Ha|]. now rewrite <- Hk.
  - intros [Ha Hu].
    apply (Permutation_in _ (Permutation_sym (sort_by_perm _ _))).
    apply filter_In. split; [exact Ha|]. now rewrite Hk.
Qed.

End Resolvable.

(** X8. Once the records are gathered, the rest of the run (lines
    137-190) ends well exactly when the due date of every record is
    absent or parses to a datetime that carries an offset, and every
    record that is due at or after the reading of the clock can be taken
    to the local zone (line 158). A due date that does not parse, one
    that parses without offset, one that is no string, or an upcoming
    one whose local reading leaves the years 1 to 9999 makes it fail;
    sorting and filling the tabs cannot. *)
Theorem display_succeeds_exactly_when
        (fromisoformat : string -> option datetime) (py_str : json -> string)
        (w : world) (all : list assignment) (t : trace) :
  (Forall (resolvable fromisoformat) all
   /\ forall a,
       In a all ->
       in_upcoming fromisoformat (clock w (clock_reads t)) a = true ->
       displayable fromisoformat w a)
  <-> fst (present fromisoformat py_str w all t) = Ok tt.
Proof.
  destruct (present_cases fromisoformat py_str w all t)
    as [(e & He & Hrun)|[(up & nd & Hc & Hd & Hrun)
                       |(good & bad & rest & nd & e & Hc & _ & Hb & Hrun)]];
    rewrite Hrun; cbn [fst].
  - split; [|discriminate]. intros [Hres _].
    apply (classify_total_iff fromisoformat (clock w (clock_reads t)) 0 all)
      in Hres.
    rewrite <- captured_now_utc in Hres. destruct Hres as (up & nd & H).
    congruence.
  - split; [reflexivity|]. intros _. split.
    + apply (classify_total_iff fromisoformat (clock w (clock_reads t)) 0 all).
      rewrite <- captured_now_utc. eauto.
    + intros a Ha Hu. rewrite Forall_forall in Hd. apply Hd.
      apply (classify_upcoming_In fromisoformat w all t Hc). auto.
  - split; [|discriminate]. intros [_ Hdisp]. exfalso.
    assert (Hin : In bad (good ++ bad :: rest))
      by (apply in_or_app; right; left; reflexivity).
    apply (classify_upcoming_In fromisoformat w all t Hc) in Hin.
    destruct Hin as [Ha Hu]. destruct (Hdisp bad Ha Hu) as [dl Hdl].
    congruence.
Qed.
(** ** What each tab shows *)

Lemma tab_items_app tab a b :
  tab_items tab (a ++ b) = tab_items tab a ++ tab_items tab b.
Proof. apply flat_map_app. Qed.

Lemma tab_items_repeat_now tab n : tab_items tab (repeat EvNow n) = [].
Proof. induction n; simpl; auto. Qed.

Lemma tab_items_labels tab tab' (items : list label_content) :
  tab_items tab (map (EvLabel tab') items)
  = if String.eqb tab' tab then filter is_item items else [].
Proof.
  unfold tab_items.
  induction items as [|c items IH]; cbn [map flat_map filter].
  - now destruct (String.eqb tab' tab).
  - rewrite IH.
    destruct (String.eqb tab' tab); simpl; [|reflexivity].
    now destruct (is_item c).
Qed.

Lemma tab_items_day_events tab day items :
  tab_items tab (day_events day items)
  = if String.eqb day tab then filter is_item items else [].
Proof.
  destruct items as [|c items].
  - unfold tab_items, day_events, is_item. cbn [flat_map filter].
    rewrite andb_false_r. now destruct (String.eqb day tab).
  - apply (tab_items_labels tab day (c :: items)).
Qed.

Lemma tab_items_no_due tab nd :
  tab_items tab (no_due_events nd)
  = if String.eqb "No Due Date" tab then map no_due_label nd else [].
Proof.
  destruct nd as [|a nd].
  - unfold tab_items, no_due_events, is_item. cbn [flat_map map].
    rewrite andb_false_r. now destruct (String.eqb "No Due Date" tab).
  - unfold no_due_events.
    change (fun item : assignment =>
              EvLabel "No Due Date"
                (NoDueItem (course_name item) (assignment_name item)))
      with (fun item => EvLabel "No Due Date" (no_due_label item)).
    rewrite <- (map_map no_due_label (EvLabel "No Due Date")).
    rewrite tab_items_labels.
    destruct (String.eqb "No Due Date" tab); [|reflexivity].
    generalize (a :: nd). intros l. induction l; simpl; congruence.
Qed.

Lemma flat_map_skip (A : Type) (X : string -> list A) days day :
  ~ In day days ->
  flat_map (fun day' => if String.eqb day' day then X day' else []) days = [].
Proof.
  induction days as [|d days IH]; simpl; [reflexivity|].
  intros H. destruct (String.eqb d day) eqn:E.
  - apply String.eqb_eq in E. tauto.
  - apply IH. tauto.
Qed.

Lemma flat_map_pick (A : Type) (X : string -> list A) days day :
  NoDup days -> In day days ->
  flat_map (fun day' => if String.eqb day' day then X day' else []) days
  = X day.
Proof.
  induction 1 as [|d days Hd Hnd IH]; simpl; [tauto|].
  intros [E|Hin].
  - subst d. rewrite String.eqb_refl, flat_map_skip by exact Hd.
    apply app_nil_r.
  - destruct (String.eqb d day) eqn:E.
    + apply String.eqb_eq in E. subst d. tauto.
    + simpl. auto.
Qed.

Lemma day_tabs_NoDup : NoDup day_tabs.
Proof.
  unfold day_tabs.
  repeat (constructor; [simpl; intuition discriminate|]). constructor.
Qed.

Lemma day_tabs_not_no_due day :
  In day day_tabs ->
  String.eqb "No Due Date" day = false /\ String.eqb day "No Due Date" = false.
Proof.
  simpl.
  intros [E|[E|[E|[E|[E|[E|[E|[]]]]]]]]; subst day; split; reflexivity.
Qed.

Section Tabs.

Variable fromisoformat : string -> option datetime.
Variable py_str : json -> string.
Variable w : world.

Lemma day_items_are_items day items :
  forall k,
    filter is_item (day_items fromisoformat w day k items)
    = day_items fromisoformat w day k items.
Proof.
  induction items as [|a items IH]; intros k; simpl; [reflexivity|].
  destruct (due_local fromisoformat w a) as [e|d]; [reflexivity|].
  rewrite filter_app, IH.
  destruct (String.eqb (weekday_name d) day); reflexivity.
Qed.

Lemma day_items_filter day items :
  Forall (displayable fromisoformat w) items ->
  forall k,
    Forall2 (shows_due fromisoformat w)
            (day_items fromisoformat w day k items)
            (filter (on_day fromisoformat w day) items).
Proof.
  induction 1 as [|a items [d Hd] Hrest IH]; intros k; simpl;
    [constructor|].
  unfold on_day at 1. rewrite Hd.
  destruct (String.eqb (weekday_name d) day); simpl; [|apply IH].
  constructor; [|apply IH].
  exists d. unfold due_label. eauto.
Qed.

Lemma tab_items_days tab (X : string -> list label_content) days :
  tab_items tab (flat_map (fun day => day_events day (X day)) days)
  = flat_map (fun day => if String.eqb day tab
                         then filter is_item (X day) else []) days.
Proof.
  induction days as [|d days IH]; simpl; [reflexivity|].
  rewrite tab_items_app, IH, tab_items_day_events. reflexivity.
Qed.

Lemma tab_items_display tab k up nd :
  tab_items tab (EvNow :: display_events fromisoformat py_str w k up nd)
  = flat_map (fun day => if String.eqb day tab
                         then day_items fromisoformat w day k up else [])
             day_tabs
    ++ (if String.eqb "No Due Date" tab then map no_due_label nd else []).
Proof.
  unfold display_events. rewrite app_comm_cons.
  rewrite !tab_items_app, tab_items_repeat_now, tab_items_days,
    tab_items_no_due.
  match goal with
  | |- tab_items tab ?a ++ [] ++ _ ++ _ ++ tab_items tab ?b = _ =>
      change (tab_items tab a) with (@nil label_content);
      change (tab_items tab b) with (@nil label_content)
  end.
  cbn [app]. rewrite app_nil_r. f_equal.
  apply flat_map_ext. intros day.
  now rewrite day_items_are_items.
Qed.

Lemma tab_items_of_day day k up nd :
  In day day_tabs ->
  tab_items day (EvNow :: display_events fromisoformat py_str w k up nd)
  = day_items fromisoformat w day k up.
Proof.
  intros Hd. rewrite tab_items_display.
  rewrite (@flat_map_pick _ (fun day' => day_items fromisoformat w day' k up)
                          day_tabs day day_tabs_NoDup Hd).
  destruct (day_tabs_not_no_due Hd) as [-> _]. apply app_nil_r.
Qed.

Lemma tab_items_of_no_due k up nd :
  tab_items "No Due Date"
            (EvNow :: display_events fromisoformat py_str w k up nd)
  = map no_due_label nd.
Proof.
  rewrite tab_items_display.
  rewrite flat_map_skip; [reflexivity|].
  intros H. destruct (day_tabs_not_no_due H) as [H1 _]. discriminate.
Qed.

Lemma filter_sorted (A : Type) (R : A -> A -> Prop) (p : A -> bool) l :
  StronglySorted R l -> StronglySorted R (filter p l).
Proof.
  induction 1 as [|a l Hs IH Ha]; simpl; [constructor|].
  destruct (p a); [|exact IH].
  constructor; [exact IH|].
  apply Forall_forall. intros x Hx. apply filter_In in Hx.
  rewrite Forall_forall in Ha. apply Ha, Hx.
Qed.

Lemma one_day_each d :
  list_sum (map (fun day => if String.eqb (weekday_name d) day
                            then 1 else 0)%nat
                day_tabs) = 1%nat.
Proof.
  unfold weekday_name.
  set (i := weekday_index _).
  assert (Hi : (i < 7)%nat).
  { unfold i, weekday_index.
    set (z := _ / _ + 3).
    pose proof (Z.mod_pos_bound z 7 ltac:(lia)). lia. }
  do 7 (destruct i as [|i]; [reflexivity|]). lia.
Qed.

Lemma list_sum_split (A : Type) (b : string -> bool) (x : A)
      (Y : string -> list A) days :
  list_sum (map (fun day => length ((if b day then [x] else []) ++ Y day))
                days)
  = (list_sum (map (fun day => if b day then 1 else 0) days)
     + list_sum (map (fun day => length (Y day)) days))%nat.
Proof.
  induction days as [|day days IH]; simpl; [reflexivity|].
  rewrite length_app, IH. destruct (b day); simpl; lia.
Qed.

Lemma day_items_count items :
  Forall (displayable fromisoformat w) items ->
  forall k,
    list_sum (map (fun day => length (day_items fromisoformat w day k items))
                  day_tabs)
    = length items.
Proof.
  induction 1 as [|a items [d Hd] Hrest IH]; intros k.
  - reflexivity.
  - cbn [day_items]. rewrite Hd.
    rewrite (list_sum_split (fun day => String.eqb (weekday_name d) day)
               (due_label w k a d)
               (fun day => day_items fromisoformat w day (S k) items)).
    rewrite one_day_each, IH. reflexivity.
Qed.

End Tabs.

(** X9. In a run that classifies its records and can take every
    upcoming one to the local zone, the tab of a weekday shows exactly
    the upcoming records whose due date falls on that day in the local
    zone, one label each, in the order of the sorted upcoming list:
    ascending by due instant. *)
Theorem day_tab_in_due_order
        (fromisoformat : string -> option datetime) (py_str : json -> string)
        (w : world) (all up nd : list assignment) (t : trace) (day : string) :
  classify fromisoformat (captured_now w t) all = inr (up, nd) ->
  Forall (displayable fromisoformat w) up ->
  In day day_tabs ->
  let shown := tab_items day (snd (present fromisoformat py_str w all t)) in
  let due_that_day := filter (on_day fromisoformat w day) up in
  Forall2 (shows_due fromisoformat w) shown due_that_day
  /\ StronglySorted (key_le (due_key fromisoformat)) due_that_day.
Proof.
  intros Hc Hps Hd shown due_that_day. subst shown due_that_day.
  rewrite (present_run py_str all t Hc Hps). cbn [snd].
  rewrite tab_items_of_day by exact Hd.
  destruct (classify_inr _ _ _ Hc) as [Hup _].
  split.
  - apply day_items_filter. exact Hps.
  - apply filter_sorted. rewrite Hup. apply sort_by_sorted.
Qed.

Lemma day_tab_in_due_order_witness :
  let all := [Records.thursday; Records.tuesday_a; Records.undated;
              Records.tuesday_b] in
  let evs := snd (present IsoFormat.fromisoformat py_str_ref Examples.w_calc
                          all []) in
  Forall2 (shows_due IsoFormat.fromisoformat Examples.w_calc)
          (tab_items "Tuesday" evs) [Records.tuesday_a; Records.tuesday_b]
  /\ StronglySorted (key_le (due_key IsoFormat.fromisoformat))
                    [Records.tuesday_a; Records.tuesday_b].
Proof.
  intros all evs.
  apply (@day_tab_in_due_order IsoFormat.fromisoformat py_str_ref
           Examples.w_calc all
           [Records.tuesday_a; Records.tuesday_b; Records.thursday]
           [Records.undated] [] "Tuesday").
  - vm_compute. reflexivity.
  - repeat constructor; eexists; vm_compute; reflexivity.
  - simpl. auto.
Defined.

(** X10. When every upcoming record can be taken to the local zone,
    grouping by weekday loses no upcoming record and shows none twice:
    over the seven weekday tabs together there are as many labels of
    records as the upcoming list has records. *)
Theorem every_upcoming_on_one_tab
        (fromisoformat : string -> option datetime) (py_str : json -> string)
        (w : world) (all up nd : list assignment) (t : trace) :
  classify fromisoformat (captured_now w t) all = inr (up, nd) ->
  Forall (displayable fromisoformat w) up ->
  let evs := snd (present fromisoformat py_str w all t) in
  list_sum (map (fun day => length (tab_items day evs)) day_tabs)
  = length up.
Proof.
  intros Hc Hps evs. subst evs.
  rewrite (present_run py_str all t Hc Hps). cbn [snd].
  rewrite <- (day_items_count Hps (S (clock_reads t))).
  f_equal. apply map_ext_in. intros day Hd.
  now rewrite tab_items_of_day.
Qed.

Lemma every_upcoming_on_one_tab_witness :
  let all := [Records.thursday; Records.tuesday_a; Records.undated;
              Records.tuesday_b; Records.past] in
  let evs := snd (present IsoFormat.fromisoformat py_str_ref Examples.w_calc
                          all []) in
  list_sum (map (fun day => length (tab_items day evs)) day_tabs) = 3%nat.
Proof.
  intros all evs.
  apply (@every_upcoming_on_one_tab IsoFormat.fromisoformat py_str_ref
           Examples.w_calc all
           [Records.tuesday_a; Records.tuesday_b; Records.thursday]
           [Records.undated] []).
  - vm_compute. reflexivity.
  - repeat constructor; eexists; vm_compute; reflexivity.
Defined.

(** X11. In a run that classifies its records and can take every
    upcoming one to the local zone, the tab of records without a due
    date shows exactly the records of the merge buffer whose due date is
    absent, one label each, in the order in which they were merged. *)
Theorem no_due_tab_in_merge_order
        (fromisoformat : string -> option datetime) (py_str : json -> string)
        (w : world) (all up nd : list assignment) (t : trace) :
  classify fromisoformat (captured_now w t) all = inr (up, nd) ->
  Forall (displayable fromisoformat w) up ->
  tab_items "No Due Date" (snd (present fromisoformat py_str w all t))
  = map no_due_label (filter in_no_due all).
Proof.
  intros Hc Hps. rewrite (present_run py_str all t Hc Hps). cbn [snd].
  rewrite tab_items_of_no_due.
  destruct (classify_inr _ _ _ Hc) as [_ [-> _]]. reflexivity.
Qed.

Lemma no_due_tab_in_merge_order_witness :
  let all := [Records.hw "B" JNull; Records.thursday; Records.hw "A" JNull] in
  tab_items "No Due Date"
            (snd (present IsoFormat.fromisoformat py_str_ref Examples.w_calc
                          all []))
  = [NoDueItem (JStr "Calc") (JStr "B"); NoDueItem (JStr "Calc") (JStr "A")].
Proof.
  intros all.
  apply (@no_due_tab_in_merge_order IsoFormat.fromisoformat py_str_ref
           Examples.w_calc all [Records.thursday]
           [Records.hw "B" JNull; Records.hw "A" JNull] []).
  - vm_compute. reflexivity.
  - repeat constructor; eexists; vm_compute; reflexivity.
Defined.
(** ** What remains until a record is due *)

Lemma floor_to_hours (us : Z) :
  let td := timedelta_of_usec us in
  let shown := days td * 24 + Z.max 0 (seconds td / 3600) in
  0 <= us - shown * usec_per_hour < usec_per_hour.
Proof.
  intros td shown. subst td shown.
  pose proof (hours_within_day us) as Hh.
  rewrite Z.max_r by apply Hh.
  unfold timedelta_of_usec. cbn [days seconds].
  rewrite Z.div_div by (unfold usec_per_second; lia).
  change (usec_per_second * 3600) with usec_per_hour.
  assert (Hd : usec_per_day = 24 * usec_per_hour) by reflexivity.
  pose proof (Z.div_mod us usec_per_day ltac:(discriminate)) as E1.
  pose proof (Z.div_mod (us mod usec_per_day) usec_per_hour
                        ltac:(discriminate)) as E2.
  pose proof (Z.mod_pos_bound (us mod usec_per_day) usec_per_hour
                              eq_refl) as B.
  set (q := us / usec_per_day) in *.
  set (r := us mod usec_per_day) in *.
  set (h := r / usec_per_hour) in *.
  set (m := r mod usec_per_hour) in *.
  rewrite Hd in E1. unfold usec_per_hour in *. lia.
Qed.

(** X12. For a record whose due date can be taken to the local zone,
    the time a label says is left is measured on the wall clock of the
    local zone: it is the time from now to the due instant plus the
    change of the zone's offset between the two (none under the fallback
    zone UTC, an hour across a daylight-saving change), rounded down to
    whole hours and shown as days and hours from 0 to 23. *)
Theorem remaining_time_rounds_down
        (fromisoformat : string -> option datetime) (w : world)
        (item : assignment) (g : grouping) (t : trace) (wall off : Z)
        (due_dt_local : datetime) :
  parse_due_date fromisoformat (due_at item) = inr (Aware wall off) ->
  astimezone w (local_tz w) (Aware wall off) = inr due_dt_local ->
  has_days g ->
  let due_utc := utc_of wall off in
  let now_utc := clock w (clock_reads t) in
  let elapsed := due_utc - now_utc in
  let shift := local_tz w due_utc - local_tz w now_utc in
  exists days_remaining hours_remaining g',
    group_item fromisoformat w item g t = (Ok g', [EvNow])
    /\ due_dt_local
       = Aware (due_utc + local_tz w due_utc) (local_tz w due_utc)
    /\ bucket_append (weekday_name due_dt_local)
                     (DueItem (course_name item) (assignment_name item)
                              due_dt_local days_remaining hours_remaining) g
       = inr g'
    /\ 0 <= hours_remaining <= 23
    /\ 0 <= elapsed + shift
            - (days_remaining * 24 + hours_remaining) * usec_per_hour
       < usec_per_hour.
Proof.
  intros Hp Ha Hg due_utc now_utc elapsed shift.
  assert (Hd : due_local fromisoformat w item = inr due_dt_local).
  { unfold due_local. rewrite Hp. exact Ha. }
  assert (Hl : due_dt_local
               = Aware (due_utc + local_tz w due_utc) (local_tz w due_utc)).
  { unfold astimezone in Ha. fold due_utc in Ha.
    destruct (in_range due_utc && in_range (due_utc + local_tz w due_utc));
      [|discriminate Ha].
    now inversion Ha. }
  destruct (@bucket_append_spec (weekday_name due_dt_local)
              (due_label w (clock_reads t) item due_dt_local) g (Hg _))
    as (g' & Hb & _).
  assert (Hrun : group_item fromisoformat w item g t = (Ok g', [EvNow]))
    by (eapply group_item_run; eassumption).
  unfold due_label, dt_sub_same_tz in Hb.
  set (us := wall_of due_dt_local
             - wall_of (Aware (clock w (clock_reads t)
                               + local_tz w (clock w (clock_reads t)))
                              (local_tz w (clock w (clock_reads t))))) in *.
  exists (days (timedelta_of_usec us)),
         (Z.max 0 (seconds (timedelta_of_usec us) / 3600)), g'.
  split; [exact Hrun|]. split; [exact Hl|]. split; [exact Hb|].
  pose proof (hours_within_day us) as Hh.
  split; [rewrite Z.max_r by apply Hh; exact Hh|].
  replace (elapsed + shift) with us.
  - apply floor_to_hours.
  - unfold us, elapsed, shift, now_utc. rewrite Hl.
    simpl wall_of. lia.
Qed.

Lemma remaining_time_rounds_down_witness :
  let g := map (fun day => (day, @nil label_content)) day_tabs in
  let elapsed := 1709855940000000 - Examples.march_4 in
  exists days_remaining hours_remaining g',
    group_item IsoFormat.fromisoformat Examples.w_calc Records.thursday g []
    = (Ok g', [EvNow])
    /\ Aware 1709855940000000 0 = Aware (1709855940000000 + 0) 0
    /\ bucket_append "Thursday"
                     (DueItem (JStr "Calc") (JStr "HW1")
                              (Aware 1709855940000000 0)
                              days_remaining hours_remaining) g
       = inr g'
    /\ 0 <= hours_remaining <= 23
    /\ 0 <= elapsed + 0
            - (days_remaining * 24 + hours_remaining) * usec_per_hour
       < usec_per_hour.
Proof.
  intros g elapsed.
  apply (@remaining_time_rounds_down IsoFormat.fromisoformat
           Examples.w_calc Records.thursday g [] 1709855940000000 0
           (Aware 1709855940000000 0)).
  - vm_compute. reflexivity.
  - vm_compute. reflexivity.
  - apply empty_grouping_days.
Defined.
(** ** Progress, in runs that fail as well *)

Lemma bind_snd (A B : Type) (m : M A) (f : A -> M B) t :
  snd (bind m f t)
  = snd (m t) ++ match fst (m t) with
                 | Ok a => snd (f a (t ++ snd (m t)))
                 | _ => []
                 end.
Proof.
  unfold bind. destruct (m t) as [[a|e|] e1]; simpl.
  - destruct (f a (t ++ e1)); reflexivity.
  - now rewrite app_nil_r.
  - now rewrite app_nil_r.
Qed.

Section ProgressPrefix.

Variable fromisoformat : string -> option datetime.
Variable py_str : json -> string.
Variable w : world.

(** However the loop over the courses ends, the courses it reported are
    the first ones, each once, in order. *)
Lemma compile_assignments_progress_prefix fuel hdrs total courses :
  forall idx all t,
    exists done,
      (done <= length courses)%nat
      /\ progress_calls
           (snd (compile_assignments py_str w fuel hdrs total idx courses
                                     all t))
         = map (fun i => (i, total)) (seq idx done).
Proof.
  induction courses as [|course courses IH]; intros idx all t.
  - exists 0%nat. split; [apply Nat.le_refl|reflexivity].
  - assert (Hzero : forall evs : list event,
               progress_calls evs = [] ->
               exists done,
                 (done <= length (course :: courses))%nat
                 /\ progress_calls evs
                    = map (fun i => (i, total)) (seq idx done)).
    { intros evs ->. exists 0%nat. split; [apply Nat.le_0_l|reflexivity]. }
    cbn [compile_assignments].
    destruct (getitem course "id") as [e|cid]; simpl lift;
      [rewrite bind_raise; now apply Hzero|rewrite bind_ret].
    destruct (get_method course "name" (JStr "Unnamed Course")) as [e|cname];
      simpl lift; [rewrite bind_raise; now apply Hzero|rewrite bind_ret].
    unfold log_status. rewrite bind_emit. cbn [snd progress_calls].
    rewrite bind_snd, progress_calls_app, get_all_pages_no_progress.
    cbn [app].
    destruct (fst (get_all_pages w fuel _ hdrs None _)) as [recs| |];
      [|now apply Hzero|now apply Hzero].
    destruct (tag_assignments cname recs all) as [e|all']; simpl lift;
      [rewrite bind_raise; now apply Hzero|rewrite bind_ret].
    rewrite (bind_Ok _ (report_progress_run idx total _)).
    cbn [snd app progress_calls].
    match goal with
    | |- context [compile_assignments _ _ _ _ _ _ _ ?a ?t'] =>
        destruct (IH (S idx) a t') as (done & Hle & ->)
    end.
    exists (S done). split; [simpl; lia|reflexivity].
Qed.

Lemma gather_progress_prefix fuel hdrs t :
  exists total done,
    (done <= total)%nat
    /\ progress_calls (snd (gather py_str w fuel hdrs t))
       = map (fun i => (i, total)) (seq 1 done).
Proof.
  unfold gather.
  rewrite bind_snd, progress_calls_app, fetch_courses_no_progress.
  cbn [app].
  destruct (fst (fetch_courses py_str w fuel hdrs t)) as [courses| |];
    try (exists 0%nat, 0%nat; split; [apply Nat.le_refl|reflexivity]).
  unfold log_status. rewrite bind_emit. cbn [snd progress_calls].
  match goal with
  | |- context [compile_assignments _ _ _ _ _ _ _ ?a ?t'] =>
      destruct (compile_assignments_progress_prefix
                  fuel hdrs (length courses) courses 1 a t')
        as (done & Hle & ->)
  end.
  eauto.
Qed.

Lemma fetch_body_progress_prefix fuel t :
  exists total done,
    (done <= total)%nat
    /\ progress_calls (snd (fetch_body fromisoformat py_str w fuel t))
       = map (fun i => (i, total)) (seq 1 done).
Proof.
  unfold fetch_body.
  destruct (String.eqb (PyStr.strip (token_entry w)) "").
  { exists 0%nat, 0%nat. split; [apply Nat.le_refl|reflexivity]. }
  rewrite (bind_Ok _ (cleared_run t)). cbn [snd].
  rewrite progress_calls_app.
  change (progress_calls cleared) with (@nil (nat * nat)). cbn [app].
  rewrite bind_snd, progress_calls_app.
  destruct (gather_progress_prefix fuel
              (auth_headers (PyStr.strip (token_entry w))) (t ++ cleared))
    as (total & done & Hle & Hg).
  exists total, done. split; [exact Hle|]. rewrite Hg.
  destruct (fst (gather _ _ _ _ _)); rewrite ?present_no_progress;
    apply app_nil_r.
Qed.

End ProgressPrefix.

(** X13. However a run ends, its progress calls are (1, N), (2, N), ..
    up to some (k, N) with k <= N: the completed count starts at one,
    goes up by one, never passes the total, and the total never changes.
    A run that fails midway has reported the first k courses and no
    other. *)
Theorem progress_counts_up_in_any_run
        (fromisoformat : string -> option datetime) (py_str : json -> string)
        (w : world) (fuel : nat) (t : trace) :
  exists total done,
    (done <= total)%nat
    /\ progress_calls
         (snd (fetch_assignments_thread fromisoformat py_str w fuel t))
       = map (fun i => (i, total)) (seq 1 done).
Proof.
  destruct (fetch_body_progress_prefix fromisoformat py_str w fuel
                                       (t ++ prelude))
    as (total & done & Hle & Hp).
  exists total, done. split; [exact Hle|].
  rewrite fetch_assignments_thread_run.
  destruct (fetch_body fromisoformat py_str w fuel (t ++ prelude))
    as [[[]|e|] evs]; cbn [snd] in *;
    rewrite ?progress_calls_app, Hp; cbn [progress_calls app];
    rewrite ?app_nil_r; reflexivity.
Qed.
(** ** Dialogs and labels *)

Section Dialogs.

Variable fromisoformat : string -> option datetime.
Variable py_str : json -> string.
Variable w : world.

Lemma fetch_body_no_dialog fuel t :
  String.eqb (PyStr.strip (token_entry w)) "" = false ->
  Forall not_dialog (snd (fetch_body fromisoformat py_str w fuel t)).
Proof.
  intros Ht. unfold fetch_body. rewrite Ht.
  rewrite (bind_Ok _ (cleared_run t)). cbn [snd].
  apply Forall_app. split; [repeat constructor|].
  rewrite bind_snd. apply Forall_app. split.
  - eapply Forall_impl; [|apply (sound_gather py_str w fuel _ (t ++ cleared))].
    intros e He. destruct e; try exact I; destruct He.
  - destruct (fst (gather py_str w fuel _ (t ++ cleared))); [|constructor..].
    eapply Forall_impl; [|apply (sound_present fromisoformat py_str w)].
    intros e He. destruct e; try exact I; destruct He.
Qed.

End Dialogs.

(** X14. A run never shows both an error dialog and labels: when
    anything fails, the missing token, a request, a record or a due
    date, the tabs receive nothing at all, not even a placeholder; when
    labels are shown, no dialog was. *)
Theorem dialog_or_labels_never_both
        (fromisoformat : string -> option datetime) (py_str : json -> string)
        (w : world) (fuel : nat) (t : trace) :
  let run := fetch_assignments_thread fromisoformat py_str w fuel t in
  Forall not_dialog (snd run) \/ Forall not_label (snd run).
Proof.
  intros run. subst run. rewrite fetch_assignments_thread_run.
  pose proof (fetch_body_quiet_unless_ok fromisoformat py_str w fuel
                                         (t ++ prelude)) as Hq.
  assert (Hp : Forall not_label prelude) by (repeat constructor).
  destruct (String.eqb (PyStr.strip (token_entry w)) "") eqn:Ht.
  - right. unfold fetch_body. rewrite Ht. repeat constructor.
  - pose proof (fetch_body_no_dialog fromisoformat py_str w fuel
                                     (t ++ prelude) Ht) as Hd.
    destruct (fetch_body fromisoformat py_str w fuel (t ++ prelude))
      as [[[]|e|] evs]; cbn [fst snd] in *.
    + left. apply Forall_app. split; [repeat constructor|].
      apply Forall_app. split; [exact Hd|repeat constructor].
    + right. destruct Hq as [Hq|Hq]; [discriminate|].
      apply Forall_app. split; [exact Hp|].
      apply Forall_app. split; [exact Hq|repeat constructor].
    + right. destruct Hq as [Hq|Hq]; [discriminate|].
      apply Forall_app. split; [exact Hp|exact Hq].
Qed.

(** X15. When the answer to the identity request is no error but lacks
    the key [id], the run ends there with the generic error dialog: the
    status label is not set, the courses are not asked for, and the
    button is enabled again. *)
Theorem identity_without_id_run
        (fromisoformat : string -> option datetime) (py_str : json -> string)
        (w : world) (fuel : nat) (r : response) (user : json)
        (e : builtin_exn) :
  blank (token_entry w) = false ->
  server w [] (identity_request w) = Reply r ->
  is_error_status (status_code r) = false ->
  body r = Some user ->
  getitem user "id" = inl e ->
  fetch_assignments_thread fromisoformat py_str w fuel []
  = (Ok tt,
     prelude ++ cleared ++ opening w
     ++ [EvShowError "Error" (StrOf (Builtin e)); EvButton true]).
Proof.
  intros Hb Hs Hok Hu Hid.
  assert (Ht : String.eqb (PyStr.strip (token_entry w)) "" = false).
  { apply String.eqb_neq. intros H. apply strip_empty_iff in H. congruence. }
  rewrite fetch_assignments_thread_run. unfold fetch_body. rewrite Ht.
  rewrite (bind_Ok _ (cleared_run _)).
  set (hdrs := auth_headers (PyStr.strip (token_entry w))).
  assert (Hg : gather py_str w fuel hdrs (([] ++ prelude) ++ cleared)
               = (Raise (Builtin e), opening w)).
  { unfold gather. apply bind_Raise.
    unfold fetch_courses, log_status. rewrite !bind_emit.
    assert (Hr : requests_get w (BASE_URL ++ "/users/self")%string hdrs None
                   ((([] ++ prelude) ++ cleared
                     ++ [EvLog "----- New fetch started -----"])
                    ++ [EvLog "Authenticating user..."])
                 = (Ok r, [EvRequest (identity_request w)])).
    { apply requests_get_reply. exact Hs. }
    rewrite <- app_assoc in Hr.
    rewrite (bind_Ok _ Hr). unfold raise_for_status, response_json.
    rewrite Hok, bind_ret, Hu, bind_ret, Hid. simpl lift. rewrite bind_raise.
    reflexivity. }
  rewrite (bind_Raise _ Hg). cbn [fst snd].
  rewrite <- !app_assoc. reflexivity.
Qed.

Lemma identity_without_id_run_witness :
  fetch_assignments_thread IsoFormat.fromisoformat py_str_ref
                           NoIdentity.w_nameless 3 []
  = (Ok tt,
     prelude ++ cleared ++ opening NoIdentity.w_nameless
     ++ [EvShowError "Error" (StrOf (Builtin (KeyError "id")));
         EvButton true]).
Proof.
  apply (@identity_without_id_run IsoFormat.fromisoformat py_str_ref
           NoIdentity.w_nameless 3
           {| status_code := 200;
              body := Some (JObj [("name", JStr "Ada")]);
              links := [] |}
           (JObj [("name", JStr "Ada")])
           (KeyError "id")); reflexivity.
Defined.
(** ** Where labels go *)

Section Placement.

Variable fromisoformat : string -> option datetime.
Variable py_str : json -> string.
Variable w : world.

Lemma day_events_well_placed day k up :
  In day day_tabs ->
  Forall well_placed
         (day_events day (day_items fromisoformat w day k up)).
Proof.
  intros Hd. unfold day_events.
  destruct (day_items fromisoformat w day k up) as [|c items] eqn:E.
  - constructor; [|constructor]. left. auto.
  - rewrite <- E. apply Forall_forall. intros e He.
    apply in_map_iff in He. destruct He as (c' & <- & Hc).
    destruct (day_items_inv _ _ _ _ _ _ Hc)
      as (a & j & d & _ & _ & Hday & ->).
    unfold due_label. cbn [well_placed]. split; [|exact Hd].
    symmetry. exact Hday.
Qed.

Lemma no_due_events_well_placed nd : Forall well_placed (no_due_events nd).
Proof.
  destruct nd as [|a nd].
  - constructor; [|constructor]. right. auto.
  - unfold no_due_events. apply Forall_forall. intros e He.
    apply in_map_iff in He. destruct He as (a' & <- & _). reflexivity.
Qed.

Lemma present_well_placed all t :
  Forall well_placed (snd (present fromisoformat py_str w all t)).
Proof.
  destruct (present_cases fromisoformat py_str w all t)
    as [(e & _ & Hrun)|[(up & nd & _ & _ & Hrun)
                      |(good & bad & rest & nd & e & _ & _ & _ & Hrun)]];
    rewrite Hrun; cbn [snd].
  - repeat constructor.
  - constructor; [exact I|]. unfold display_events.
    apply Forall_app. split; [repeat constructor|].
    apply Forall_app. split.
    { apply Forall_forall. intros e He. apply repeat_spec in He. now subst e. }
    apply Forall_app. split.
    { apply Forall_forall. intros e He. apply in_flat_map in He.
      destruct He as (day & Hd & He).
      pose proof (@day_events_well_placed day (S (clock_reads t)) up Hd) as H.
      rewrite Forall_forall in H. auto. }
    apply Forall_app. split; [apply no_due_events_well_placed|].
    repeat constructor.
  - apply Forall_app. split; [repeat constructor|].
    apply Forall_forall. intros x Hx. apply repeat_spec in Hx. now subst x.
Qed.

Lemma fetch_body_well_placed fuel t :
  Forall well_placed (snd (fetch_body fromisoformat py_str w fuel t)).
Proof.
  unfold fetch_body.
  destruct (String.eqb (PyStr.strip (token_entry w)) "").
  { repeat constructor. }
  rewrite (bind_Ok _ (cleared_run t)). cbn [snd].
  apply Forall_app. split.
  - unfold cleared. apply Forall_forall. intros e He.
    apply in_map_iff in He. destruct He as (tab & <- & Ht). exact Ht.
  - rewrite bind_snd. apply Forall_app. split.
    + eapply Forall_impl;
        [|apply (sound_gather py_str w fuel _ (t ++ cleared))].
      intros e He. destruct e; try exact I; destruct He.
    + destruct (fst (gather py_str w fuel _ (t ++ cleared)));
        [apply present_well_placed|constructor..].
Qed.

End Placement.

(** X16. Whatever a run does to a tab, it does to one of the eight tabs
    the window has, so that no lookup of a tab's frame can fail: a dated
    label goes to the tab named after the weekday of the local due date
    it shows, a label without due date to the tab [No Due Date], and
    each of the two placeholder texts to a tab of its kind. *)
Theorem labels_go_to_existing_tabs
        (fromisoformat : string -> option datetime) (py_str : json -> string)
        (w : world) (fuel : nat) (t : trace) :
  Forall well_placed
         (snd (fetch_assignments_thread fromisoformat py_str w fuel t)).
Proof.
  rewrite fetch_assignments_thread_run.
  pose proof (fetch_body_well_placed fromisoformat py_str w fuel
                                     (t ++ prelude)) as Hb.
  destruct (fetch_body fromisoformat py_str w fuel (t ++ prelude))
    as [[[]|e|] evs]; cbn [snd] in *;
    repeat (apply Forall_app; split); auto; repeat constructor.
Qed.

(** ** What remains, in the labels of a run *)

Lemma clock_reads_quiet evs : Forall not_clock evs -> clock_reads evs = 0%nat.
Proof.
  induction 1 as [|e evs He _ IH]; [reflexivity|].
  destruct e; simpl; try exact IH. exfalso. apply He. reflexivity.
Qed.

Lemma timedelta_figures (us : Z) :
  days (timedelta_of_usec us) = us / usec_per_day
  /\ Z.max 0 (seconds (timedelta_of_usec us) / 3600)
     = (us mod usec_per_day) / usec_per_hour
  /\ 0 <= (us mod usec_per_day) / usec_per_hour <= 23.
Proof.
  pose proof (hours_within_day us) as Hw.
  assert (He : Z.max 0 (seconds (timedelta_of_usec us) / 3600)
               = us mod usec_per_day / usec_per_hour).
  { rewrite Z.max_r by apply Hw.
    unfold timedelta_of_usec. simpl seconds.
    rewrite Z.div_div by (unfold usec_per_second; lia). reflexivity. }
  split; [reflexivity|]. split; [exact He|].
  rewrite <- He. rewrite Z.max_r by apply Hw. exact Hw.
Qed.

Section LabelFigures.

Variable fromisoformat : string -> option datetime.
Variable py_str : json -> string.
Variable w : world.

Lemma due_local_of_instant a i dl :
  due_instant fromisoformat a = Some i ->
  due_local fromisoformat w a = inr dl ->
  dl = Aware (i + local_tz w i) (local_tz w i).
Proof.
  unfold due_instant, due_local.
  destruct (parse_due_date fromisoformat (due_at a)) as [e|[wall|wall off]];
    try discriminate.
  intros [= <-]. cbn [pbind]. unfold astimezone.
  destruct (in_range _ && in_range _); [|discriminate]. now intros [= <-].
Qed.

Lemma present_label_figures all t day cn an due dd hh :
  In (EvLabel day (DueItem cn an due dd hh))
     (snd (present fromisoformat py_str w all t)) ->
  figures_at w (clock_reads t) due dd hh.
Proof.
  intros Hin.
  destruct (present_cases fromisoformat py_str w all t)
    as [(e & _ & Hrun)|[(up & nd & Hc & _ & Hrun)
                      |(good & bad & rest & nd & e & _ & _ & _ & Hrun)]];
    rewrite Hrun in Hin; cbn [snd] in Hin.
  - destruct Hin as [Hin|[]]. discriminate Hin.
  - destruct Hin as [Hin|Hin]; [discriminate Hin|].
    apply display_events_only in Hin.
    destruct Hin as (a & j & dl & Ha & Hd & Hl).
    apply (classify_upcoming_In fromisoformat w all t Hc) in Ha.
    destruct Ha as [_ Hu]. unfold in_upcoming in Hu.
    destruct (due_instant fromisoformat a) as [i|] eqn:Ei; [|discriminate Hu].
    apply Z.leb_le in Hu.
    pose proof (due_local_of_instant _ Ei Hd) as Edl.
    set (k := (S (clock_reads t) + j)%nat) in *.
    remember (wall_of dl - (clock w k + local_tz w (clock w k))) as us
      eqn:Eus.
    assert (El : due_label w k a dl
                 = DueItem (course_name a) (assignment_name a) dl
                           (days (timedelta_of_usec us))
                           (Z.max 0 (seconds (timedelta_of_usec us) / 3600)))
      by (subst us; reflexivity).
    rewrite El in Hl.
    destruct (timedelta_figures us) as (Hdays & Hh & Hb).
    pose proof (floor_to_hours us) as Hf. cbv zeta in Hf.
    rewrite Hdays, Hh in Hl, Hf.
    injection Hl as _ _ Hdue Hdd Hhh. subst due dd hh.
    exists k, i.
    split; [unfold k; lia|]. split; [exact Hu|]. split; [exact Edl|].
    cbv zeta. rewrite <- Eus.
    split; [reflexivity|]. split; [reflexivity|].
    split; [exact Hb|exact Hf].
  - exfalso. apply in_app_or in Hin. destruct Hin as [Hin|Hin].
    + destruct Hin as [Hin|[Hin|[Hin|[]]]]; discriminate Hin.
    + apply repeat_spec in Hin. discriminate Hin.
Qed.

Lemma fetch_body_label_figures fuel t day cn an due dd hh :
  In (EvLabel day (DueItem cn an due dd hh))
     (snd (fetch_body fromisoformat py_str w fuel t)) ->
  figures_at w (clock_reads t) due dd hh.
Proof.
  unfold fetch_body.
  destruct (String.eqb (PyStr.strip (token_entry w)) "").
  { intros [H|[]]. discriminate H. }
  rewrite (bind_Ok _ (cleared_run t)). cbn [snd].
  set (hdrs := auth_headers _). set (t1 := t ++ cleared).
  intros Hin. apply in_app_or in Hin. destruct Hin as [Hin|Hin].
  { unfold cleared in Hin. apply in_map_iff in Hin.
    destruct Hin as (tab & H & _). discriminate H. }
  rewrite bind_snd in Hin.
  pose proof (sound_gather py_str w fuel hdrs t1) as [Hg _].
  apply in_app_or in Hin. destruct Hin as [Hin|Hin].
  { rewrite Forall_forall in Hg. apply Hg in Hin. destruct Hin. }
  destruct (fst (gather py_str w fuel hdrs t1)) as [all| |]; try destruct Hin.
  apply present_label_figures in Hin.
  replace (clock_reads (t1 ++ snd (gather py_str w fuel hdrs t1)))
    with (clock_reads t) in Hin; [exact Hin|].
  unfold t1. rewrite !clock_reads_app.
  rewrite (@clock_reads_quiet cleared)
    by (repeat constructor; discriminate).
  rewrite (@clock_reads_quiet (snd (gather py_str w fuel hdrs (t ++ cleared)))).
  - lia.
  - eapply Forall_impl; [|exact Hg]. apply gather_event_not_clock.
Qed.

End LabelFigures.

(** C10. Every dated label of a run shows the days and hours of one
    delta: the time, on the wall clock of the local zone, from a reading
    of the clock taken after the cutoff's to the due date the label
    shows. The days are the whole days of the delta, rounded down, and
    the hours the whole hours of its last, partial day: between 0 and 23,
    not a total of hours, and never negative, even when the days are.
    The record was due at or after the cutoff; with the clock read again
    for each record it can be overdue when its delta is taken. *)
Theorem hours_remaining_within_day
        (fromisoformat : string -> option datetime) (py_str : json -> string)
        (w : world) (fuel : nat) (t : trace)
        (day : string) (course name : json) (due_dt_local : datetime)
        (days_remaining hours_remaining : Z) :
  In (EvLabel day (DueItem course name due_dt_local
                           days_remaining hours_remaining))
     (snd (fetch_assignments_thread fromisoformat py_str w fuel t)) ->
  exists k due_utc,
    (clock_reads t < k)%nat
    /\ clock w (clock_reads t) <= due_utc
    /\ due_dt_local
       = Aware (due_utc + local_tz w due_utc) (local_tz w due_utc)
    /\ let now_local := clock w k + local_tz w (clock w k) in
       let delta := wall_of due_dt_local - now_local in
       days_remaining = delta / usec_per_day
       /\ hours_remaining = (delta mod usec_per_day) / usec_per_hour
       /\ 0 <= hours_remaining <= 23
       /\ 0 <= delta - (days_remaining * 24 + hours_remaining) * usec_per_hour
          < usec_per_hour.
Proof.
  rewrite fetch_assignments_thread_run. intros Hin.
  assert (Hb : In (EvLabel day (DueItem course name due_dt_local
                                        days_remaining hours_remaining))
                  (snd (fetch_body fromisoformat py_str w fuel
                                   (t ++ prelude)))).
  { destruct (fetch_body fromisoformat py_str w fuel (t ++ prelude))
      as [[[]|e|] evs]; cbn [snd] in *;
      repeat (apply in_app_or in Hin; destruct Hin as [Hin|Hin]);
      try exact Hin;
      repeat (destruct Hin as [Hin|Hin]; [discriminate Hin|]);
      destruct Hin. }
  apply fetch_body_label_figures in Hb.
  replace (clock_reads (t ++ prelude)) with (clock_reads t) in Hb
    by (rewrite clock_reads_app; simpl; lia).
  exact Hb.
Qed.

(** A record due thirty seconds after the cutoff, its delta taken a
    minute after the cutoff: -1 days 23 hrs. *)
Lemma hours_remaining_within_day_witness :
  let run := fetch_assignments_thread IsoFormat.fromisoformat py_str_ref
                                      Examples.w_late 5 [] in
  let due := Examples.march_4 + 30 * usec_per_second in
  In (EvLabel "Monday"
        (DueItem (JStr "Calc") (JStr "Quiz") (Aware due 0) (-1) 23))
     (snd run)
  /\ exists k due_utc,
      (0 < k)%nat
      /\ Examples.march_4 <= due_utc
      /\ Aware due 0 = Aware (due_utc + 0) 0
      /\ -1 = (due - (clock Examples.w_late k + 0)) / usec_per_day
      /\ 23 = ((due - (clock Examples.w_late k + 0)) mod usec_per_day)
              / usec_per_hour
      /\ 0 <= 23 <= 23
      /\ 0 <= due - (clock Examples.w_late k + 0)
              - (-1 * 24 + 23) * usec_per_hour
         < usec_per_hour.
Proof.
  intros run due.
  assert (Hin : In (EvLabel "Monday"
                      (DueItem (JStr "Calc") (JStr "Quiz") (Aware due 0)
                               (-1) 23))
                   (snd run)).
  { vm_compute. tauto. }
  split; [exact Hin|].
  exact (@hours_remaining_within_day IsoFormat.fromisoformat py_str_ref
           Examples.w_late 5 [] "Monday" (JStr "Calc") (JStr "Quiz")
           (Aware due 0) (-1) 23 Hin).
Defined.

(** ** The mouse wheel *)

(** X17. For a wheel event without button number, [on_mousewheel]
    scrolls one unit for every full 120 of [delta], against its sign: a
    delta of less than 120 either way scrolls nothing. *)
Theorem wheel_scrolls_per_full_notch (event : Wheel.wheel_event) :
  Wheel.turned event ->
  let units := Wheel.on_mousewheel event in
  Z.abs units * 120 <= Z.abs (Wheel.delta event) < (Z.abs units + 1) * 120
  /\ units * Wheel.delta event <= 0.
Proof.
  intros [H4 H5] units. subst units. unfold Wheel.on_mousewheel.
  set (d := Wheel.delta event).
  assert (E : match Wheel.num event with
              | Some 4 => -1
              | Some 5 => 1
              | _ => - (Z.quot d 120)
              end = - (Z.quot d 120)).
  { destruct (Wheel.num event) as [[|p|p]|]; try reflexivity.
    destruct p as [p|p|]; try reflexivity;
      destruct p as [p|p|]; try reflexivity;
      destruct p as [p|p|]; try reflexivity; congruence. }
  rewrite E. clear E H4 H5.
  destruct (Z.le_gt_cases 0 d) as [Hd|Hd].
  - rewrite Z.quot_div_nonneg by lia.
    pose proof (Z.div_mod d 120 ltac:(lia)) as Hq.
    pose proof (Z.mod_pos_bound d 120 ltac:(lia)) as Hr.
    pose proof (Z.div_pos d 120 Hd ltac:(lia)) as Hp.
    split; [lia|nia].
  - assert (Ha : d = - (- d)) by lia.
    generalize dependent (- d). intros a Ha. rewrite Ha.
    rewrite Z.quot_opp_l by lia.
    rewrite Z.quot_div_nonneg by lia.
    pose proof (Z.div_mod a 120 ltac:(lia)) as Hq.
    pose proof (Z.mod_pos_bound a 120 ltac:(lia)) as Hr.
    pose proof (Z.div_pos a 120 ltac:(lia) ltac:(lia)) as Hp.
    split; [lia|nia].
Qed.

Lemma wheel_scrolls_per_full_notch_witness :
  let event := {| Wheel.num := None; Wheel.delta := -250 |} in
  let units := Wheel.on_mousewheel event in
  Z.abs units * 120 <= 250 < (Z.abs units + 1) * 120
  /\ units * -250 <= 0.
Proof.
  apply (@wheel_scrolls_per_full_notch
           {| Wheel.num := None; Wheel.delta := -250 |}).
  split; discriminate.
Defined.

(** * Properties of the WebAssign viewer *)

Import WebAssign.

(** ** Splitting a cookie header *)

Lemma string_app_assoc (a b c : string) :
  ((a ++ b) ++ c)%string = (a ++ b ++ c)%string.
Proof. induction a as [|x a IH]; simpl; [|rewrite IH]; reflexivity. Qed.

Lemma split_from_plain s rest :
  PyStr.contains_char ";" s = false ->
  split_from "; " (s ++ rest) 0
  = (let (p, ps) := split_from "; " rest 0 in ((s ++ p)%string, ps)).
Proof.
  induction s as [|c s IH]; intros H.
  - simpl. now destruct (split_from "; " rest 0).
  - apply contains_char_cons in H. destruct H as [Hc Hs].
    cbn [String.append split_from PyStr.starts_with].
    rewrite Hc. cbn [andb]. rewrite (IH Hs).
    now destruct (split_from "; " rest 0).
Qed.

Lemma split_from_separator rest :
  split_from "; " ("; " ++ rest) 0
  = (EmptyString, let (p, ps) := split_from "; " rest 0 in p :: ps).
Proof. reflexivity. Qed.

Lemma split_join items :
  items <> [] ->
  Forall (fun item => PyStr.contains_char ";" item = false) items ->
  split (join "; " items) "; " = inr items.
Proof.
  unfold split.
  assert (H : forall item rest,
             Forall (fun item => PyStr.contains_char ";" item = false)
                    (item :: rest) ->
             split_from "; " (join "; " (item :: rest)) 0 = (item, rest)).
  { intros item rest. revert item.
    induction rest as [|item' rest IH]; intros item Hall.
    - inversion Hall as [|? ? Hi _]; subst. cbn [join].
      rewrite <- (string_app_empty item) at 1.
      rewrite (@split_from_plain item "" Hi). simpl.
      now rewrite string_app_empty.
    - inversion Hall as [|? ? Hi Hrest]; subst.
      change (join "; " (item :: item' :: rest))
        with (item ++ "; " ++ join "; " (item' :: rest))%string.
      rewrite (@split_from_plain item _ Hi), split_from_separator.
      rewrite (IH item' Hrest). now rewrite string_app_empty. }
  intros Hne Hall. destruct items as [|item rest]; [congruence|].
  now rewrite (H item rest Hall).
Qed.

Lemma cut_pair k v :
  PyStr.contains_char "=" k = false ->
  cut "=" (k ++ "=" ++ v) = Some (k, v).
Proof.
  induction k as [|c k IH]; intros H; [reflexivity|].
  apply contains_char_cons in H. destruct H as [Hc Hk].
  cbn [String.append cut PyStr.starts_with]. rewrite Hc. cbn [andb].
  change (cut "=" (k ++ String "=" v)) with (cut "=" (k ++ "=" ++ v)).
  now rewrite (IH Hk).
Qed.

Lemma cut_none s :
  PyStr.contains_char "=" s = false -> cut "=" s = None.
Proof.
  induction s as [|c s IH]; intros H; [reflexivity|].
  apply contains_char_cons in H. destruct H as [Hc Hs].
  cbn [cut PyStr.starts_with]. rewrite Hc. cbn [andb]. now rewrite (IH Hs).
Qed.

Lemma split_items_pairs pairs :
  Forall plain_pair pairs ->
  split_items (map (fun kv => (fst kv ++ "=" ++ snd kv)%string) pairs)
  = inr (map (fun kv => [fst kv; snd kv]) pairs).
Proof.
  induction 1 as [|[k v] pairs (_ & Hk & _) _ IH]; [reflexivity|].
  cbn [map split_items fst snd]. unfold split_1.
  rewrite (@cut_pair k v Hk). cbn [pbind]. rewrite IH. reflexivity.
Qed.

Lemma dict_update_pairs pairs :
  forall i d,
    dict_update i (map (fun kv => [fst kv; snd kv]) pairs) d
    = inr (fold_left (fun d kv => dict_set (fst kv) (snd kv) d) pairs d).
Proof.
  induction pairs as [|[k v] pairs IH]; intros i d; [reflexivity|].
  cbn [map dict_update fold_left fst snd]. apply IH.
Qed.

Lemma assoc_dict_set name k v d :
  assoc name (dict_set k v d)
  = if String.eqb name k then Some v else assoc name d.
Proof.
  induction d as [|[k' v'] d IH]; cbn [dict_set assoc].
  - reflexivity.
  - destruct (String.eqb k k') eqn:Ek; cbn [assoc].
    + apply String.eqb_eq in Ek. subst k'.
      now destruct (String.eqb name k).
    + rewrite IH. destruct (String.eqb name k') eqn:En; [|reflexivity].
      apply String.eqb_eq in En. subst k'.
      destruct (String.eqb name k) eqn:Enk; [|reflexivity].
      apply String.eqb_eq in Enk. subst k.
      rewrite String.eqb_refl in Ek. discriminate.
Qed.

Lemma assoc_app (A : Type) name (l l' : list (string * A)) :
  assoc name (l ++ l')
  = match assoc name l with
    | Some v => Some v
    | None => assoc name l'
    end.
Proof.
  induction l as [|[k v] l IH]; cbn [app assoc]; [reflexivity|].
  now destruct (String.eqb name k).
Qed.

(** The last value given to a name wins. *)
Lemma assoc_dict_of_pairs name pairs :
  forall d,
    assoc name (fold_left (fun d kv => dict_set (fst kv) (snd kv) d) pairs d)
    = match assoc name (rev pairs) with
      | Some v => Some v
      | None => assoc name d
      end.
Proof.
  induction pairs as [|[k v] pairs IH]; intros d; [reflexivity|].
  cbn [fold_left rev fst snd]. rewrite IH, assoc_app, assoc_dict_set.
  cbn [assoc]. destruct (assoc name (rev pairs)); [reflexivity|].
  now destruct (String.eqb name k).
Qed.

Lemma parse_cookie_header pairs :
  pairs <> [] ->
  Forall plain_pair pairs ->
  parse_cookies (cookie_header pairs)
  = inr (fold_left (fun d kv => dict_set (fst kv) (snd kv) d) pairs []).
Proof.
  intros Hne Hall. unfold parse_cookies, cookie_header.
  rewrite split_join.
  - cbn [pbind]. rewrite (split_items_pairs Hall). cbn [pbind].
    apply dict_update_pairs.
  - destruct pairs; [congruence|discriminate].
  - apply Forall_map. eapply Forall_impl; [|exact Hall].
    intros [k v] (Hk & _ & Hv). cbn [fst snd] in *.
    rewrite !contains_char_app, Hk, Hv. reflexivity.
Qed.

(** X18. A cookie header in the form a browser shows it, [name=value]
    pairs joined by ["; "], is read back pair by pair. Exactly one
    request is sent; it carries the eight names of lines 36-43 and no
    other, each with the last value the header gives it, or [None] when
    the header does not name it. *)
Theorem cookie_header_round_trip
        (fromisoformat : string -> option datetime)
        (strftime : datetime -> string) (lower : string -> string)
        (py_str : json -> string) (str_exn : exn -> string)
        (s : site) (box : string) (pairs : list (string * string)) :
  pairs <> [] ->
  Forall plain_pair pairs ->
  entry_field s = cookie_header pairs ->
  (exists cookie_dict,
      parse_cookies (entry_field s) = inr cookie_dict
      /\ forall name, assoc name cookie_dict = assoc name (rev pairs))
  /\ sent (submit_cookie fromisoformat strftime lower py_str str_exn s box)
     = [map (fun name => (name, assoc name (rev pairs))) cookie_names].
Proof.
  intros Hne Hall He.
  pose proof (parse_cookie_header Hne Hall) as Hp. rewrite <- He in Hp.
  assert (Hd : forall name,
             assoc name (fold_left
                           (fun d kv => dict_set (fst kv) (snd kv) d)
                           pairs [])
             = assoc name (rev pairs)).
  { intros name. rewrite assoc_dict_of_pairs.
    now destruct (assoc name (rev pairs)). }
  split.
  - eexists. split; [exact Hp|exact Hd].
  - unfold submit_cookie. rewrite Hp.
    assert (Hc : cookies_of (fold_left
                               (fun d kv => dict_set (fst kv) (snd kv) d)
                               pairs [])
                 = map (fun name => (name, assoc name (rev pairs)))
                       cookie_names).
    { unfold cookies_of. apply map_ext. intros name. now rewrite Hd. }
    rewrite Hc.
    destruct (service s _) as [e|body]; [reflexivity|].
    destruct (get_method body "data" (JObj [])) as [e|data]; [reflexivity|].
    now destruct (show_assignments _ _ _ _ data).
Qed.

Lemma cookie_header_round_trip_witness :
  let s := Cookies.quiet_site (cookie_header Cookies.pairs)
                              (inl ConnectionError) in
  sent (submit_cookie IsoFormat.fromisoformat Cookies.strftime Cookies.lower
                      py_str_ref Cookies.str_exn s "")
  = [[("seen_student_memo", None); ("dtCookie", None);
      ("cmp-session-id", None); ("UserPass", Some "xyz");
      ("scalcet9", None); ("cmp-policy", None); ("AWSELB", Some "x=1");
      ("QSI_HistorySession", None)]].
Proof.
  intros s.
  apply (@cookie_header_round_trip IsoFormat.fromisoformat Cookies.strftime
           Cookies.lower py_str_ref Cookies.str_exn s "" Cookies.pairs).
  - discriminate.
  - repeat constructor.
  - reflexivity.
Defined.

(** ** Input that is no cookie header *)

Lemma split_items_total items :
  exists elements,
    split_items items = inr elements
    /\ Forall2 (fun item e =>
                  PyStr.contains_char "=" item = false -> e = [item])
               items elements.
Proof.
  induction items as [|item items (elements & He & Hall)].
  - exists []. split; [reflexivity|constructor].
  - cbn [split_items]. unfold split_1.
    destruct (cut "=" item) as [[a b]|] eqn:Ec; cbn [pbind]; rewrite He;
      cbn [pbind]; eexists; (split; [reflexivity|]); constructor; auto.
    intros Hn. rewrite (cut_none _ Hn) in Ec. discriminate.
Qed.

Lemma dict_update_short elements :
  forall i d,
    Exists (fun e => length e = 1%nat) elements ->
    exists msg, dict_update i elements d = inl (ValueError msg).
Proof.
  induction elements as [|e elements IH]; intros i d H.
  - inversion H.
  - destruct e as [|a [|b [|c e]]]; cbn [dict_update]; eauto.
    apply IH. inversion H as [? ? Hl|]; subst; [discriminate|assumption].
Qed.

(** X19. An input one of whose pieces between ["; "] has no [=] sign,
    the empty input among them, makes [submit_cookie] raise a
    [ValueError] that nothing catches: no request is sent and the output
    box stays as it was, without an error line. *)
Theorem input_without_equals_raises
        (fromisoformat : string -> option datetime)
        (strftime : datetime -> string) (lower : string -> string)
        (py_str : json -> string) (str_exn : exn -> string)
        (s : site) (box : string) (items : list string) (item : string) :
  split (entry_field s) "; " = inr items ->
  In item items ->
  PyStr.contains_char "=" item = false ->
  exists msg,
    submit_cookie fromisoformat strftime lower py_str str_exn s box
    = {| uncaught := Some (Builtin (ValueError msg));
         output_box := box;
         sent := [] |}.
Proof.
  intros Hs Hin Hn.
  destruct (split_items_total items) as (elements & He & Hall).
  assert (Hex : Exists (fun e => length e = 1%nat) elements).
  { clear He Hs. induction Hall as [|i e items elements Hie Hall IH].
    - destruct Hin.
    - destruct Hin as [->|Hin].
      + left. now rewrite (Hie Hn).
      + right. auto. }
  destruct (dict_update_short 0 [] Hex) as [msg Hmsg].
  exists msg. unfold submit_cookie, parse_cookies.
  rewrite Hs. cbn [pbind]. rewrite He. cbn [pbind]. rewrite Hmsg.
  reflexivity.
Qed.

Lemma input_without_equals_raises_witness :
  exists msg,
    submit_cookie IsoFormat.fromisoformat Cookies.strftime Cookies.lower
                  py_str_ref Cookies.str_exn
                  (Cookies.quiet_site "" (inl ConnectionError)) "old listing"
    = {| uncaught := Some (Builtin (ValueError msg));
         output_box := "old listing";
         sent := [] |}.
Proof.
  apply (@input_without_equals_raises IsoFormat.fromisoformat
           Cookies.strftime Cookies.lower py_str_ref Cookies.str_exn
           (Cookies.quiet_site "" (inl ConnectionError)) "old listing"
           [""] "").
  - reflexivity.
  - left. reflexivity.
  - reflexivity.
Defined.

(** ** What the printer prints *)

Section Printer.

Variable fromisoformat : string -> option datetime.
Variable strftime : datetime -> string.
Variable lower : string -> string.
Variable py_str : json -> string.

Lemma get_category fields :
  get_method (JObj fields) "category" (JStr "") = inr (category_of fields).
Proof.
  unfold category_of. cbn [get_method].
  now destruct (assoc "category" fields).
Qed.

Lemma readable_step a :
  readable lower a ->
  (homework_record lower a = false /\ is_homework lower a = inr false)
  \/ (homework_record lower a = true
      /\ is_homework lower a = inr true
      /\ item_text fromisoformat strftime py_str a
         = inr (line_of fromisoformat strftime py_str a)).
Proof.
  intros (fields & s & -> & Hc & Hname).
  unfold is_homework, homework_record. rewrite get_category, Hc.
  cbn [pbind].
  destruct (String.eqb (lower s) "homework") eqn:Eh; [right|left; auto].
  split; [reflexivity|]. split; [reflexivity|].
  destruct (Hname eq_refl) as [name Hn].
  unfold item_text, line_of. cbn [get_method getitem]. rewrite Hn.
  destruct (assoc "due" fields); reflexivity.
Qed.

Lemma print_items_readable items :
  Forall (readable lower) items ->
  forall box,
    print_items fromisoformat strftime lower py_str items box
    = (None,
       (box ++ text_of (map (line_of fromisoformat strftime py_str)
                            (filter (homework_record lower) items)))%string).
Proof.
  induction 1 as [|a items Ha _ IH]; intros box; cbn [print_items filter].
  - cbn [map text_of]. now rewrite string_app_empty.
  - destruct (readable_step Ha) as [[-> ->]|(-> & -> & ->)].
    + apply IH.
    + rewrite IH. cbn [map text_of]. now rewrite string_app_assoc.
Qed.

Lemma unreadable_step a :
  ~ readable lower a ->
  (exists e, is_homework lower a = inl e)
  \/ (is_homework lower a = inr true
      /\ exists e, item_text fromisoformat strftime py_str a = inl e).
Proof.
  intros Hn.
  destruct a as [| | | | |fields];
    try (left; eexists; reflexivity).
  unfold is_homework. rewrite get_category. cbn [pbind].
  destruct (category_of fields) as [| | |s| |] eqn:Hc;
    try (left; eexists; reflexivity).
  destruct (String.eqb (lower s) "homework") eqn:Eh.
  - right. split; [reflexivity|].
    unfold item_text. cbn [get_method getitem].
    destruct (assoc "name" fields) as [name|] eqn:En.
    + exfalso. apply Hn. exists fields, s. eauto.
    + destruct (assoc "due" fields); eexists; reflexivity.
  - exfalso. apply Hn. exists fields, s.
    split; [reflexivity|]. split; [exact Hc|]. congruence.
Qed.

Lemma print_items_stops good bad rest :
  Forall (readable lower) good ->
  ~ readable lower bad ->
  forall box,
    exists e,
      print_items fromisoformat strftime lower py_str
                  (good ++ bad :: rest) box
      = (Some e,
         (box ++ text_of (map (line_of fromisoformat strftime py_str)
                              (filter (homework_record lower) good)))%string).
Proof.
  intros Hg Hb. induction Hg as [|a good Ha _ IH]; intros box;
    cbn [app print_items filter].
  - cbn [map text_of]. rewrite string_app_empty.
    destruct (unreadable_step Hb) as [[e ->]|[-> [e ->]]]; eauto.
  - destruct (readable_step Ha) as [[-> ->]|(-> & -> & ->)].
    + apply IH.
    + destruct (IH (box ++ line_of fromisoformat strftime py_str a)%string)
        as [e ->].
      exists e. cbn [map text_of]. now rewrite string_app_assoc.
Qed.

End Printer.

(** X20. Over records it can read, [print_homework_assignments] adds to
    the box the header of the list and then one line for each record
    whose category is [homework] in any case of letters, in the order of
    the list, and nothing for the other records. A due date that is
    absent, no string or not in ISO format never stops it: the line
    shows that due date as it came. *)
Theorem print_lists_homework
        (fromisoformat : string -> option datetime)
        (strftime : datetime -> string) (lower : string -> string)
        (py_str : json -> string)
        (assignments : json) (items : list json) (label box : string) :
  py_iter assignments = inr items ->
  Forall (readable lower) items ->
  print_homework_assignments fromisoformat strftime lower py_str
                             assignments label box
  = (None,
     (box ++ header label
      ++ text_of (map (line_of fromisoformat strftime py_str)
                      (filter (homework_record lower) items)))%string).
Proof.
  intros Hi Hr. unfold print_homework_assignments. rewrite Hi.
  rewrite (print_items_readable fromisoformat strftime py_str Hr).
  now rewrite string_app_assoc.
Qed.

Lemma print_lists_homework_witness :
  print_homework_assignments IsoFormat.fromisoformat Cookies.strftime
    Cookies.lower py_str_ref
    (JArr [Cookies.record "HW 7" "Homework" (JStr "soon");
           Cookies.record "Quiz 3" "quiz" JNull;
           Cookies.record "HW 8" "HOMEWORK" (JStr "2024-03-07T23:59:00")])
    "Current" ""
  = (None,
     (header "Current"
      ++ "HW 7 | Due: soon" ++ nl
      ++ "HW 8 | Due: <date>" ++ nl)%string).
Proof.
  set (items := [Cookies.record "HW 7" "Homework" (JStr "soon");
                 Cookies.record "Quiz 3" "quiz" JNull;
                 Cookies.record "HW 8" "HOMEWORK"
                                (JStr "2024-03-07T23:59:00")]).
  assert (Hr : Forall (readable Cookies.lower) items).
  { repeat constructor; eexists; eexists;
      (split; [reflexivity|]); (split; [reflexivity|]);
      intros _; eexists; reflexivity. }
  rewrite (@print_lists_homework IsoFormat.fromisoformat Cookies.strftime
             Cookies.lower py_str_ref (JArr items) items
             "Current" "" eq_refl Hr).
  vm_compute. reflexivity.
Defined.

(** X21. The first record the printer cannot read (one that is no
    dictionary, one whose category is no string, or a homework record
    without a name) ends [print_homework_assignments] with an exception:
    the header and the lines of the records before it stay in the box,
    and no record after it is printed. *)
Theorem print_stops_at_unreadable
        (fromisoformat : string -> option datetime)
        (strftime : datetime -> string) (lower : string -> string)
        (py_str : json -> string)
        (assignments : json) (good rest : list json) (bad : json)
        (label box : string) :
  py_iter assignments = inr (good ++ bad :: rest) ->
  Forall (readable lower) good ->
  ~ readable lower bad ->
  exists e,
    print_homework_assignments fromisoformat strftime lower py_str
                               assignments label box
    = (Some e,
       (box ++ header label
        ++ text_of (map (line_of fromisoformat strftime py_str)
                        (filter (homework_record lower) good)))%string).
Proof.
  intros Hi Hg Hb. unfold print_homework_assignments. rewrite Hi.
  destruct (print_items_stops fromisoformat strftime py_str rest Hg Hb
                              (box ++ header label)%string) as [e ->].
  exists e. now rewrite string_app_assoc.
Qed.

Lemma print_stops_at_unreadable_witness :
  exists e,
    print_homework_assignments IsoFormat.fromisoformat Cookies.strftime
      Cookies.lower py_str_ref
      (JArr [Cookies.record "HW 7" "Homework" (JStr "soon");
             JObj [("category", JStr "homework")];
             Cookies.record "HW 8" "homework" JNull])
      "Current" ""
    = (Some e, (header "Current" ++ "HW 7 | Due: soon" ++ nl)%string).
Proof.
  destruct (@print_stops_at_unreadable IsoFormat.fromisoformat
              Cookies.strftime Cookies.lower py_str_ref
              (JArr [Cookies.record "HW 7" "Homework" (JStr "soon");
                     JObj [("category", JStr "homework")];
                     Cookies.record "HW 8" "homework" JNull])
              [Cookies.record "HW 7" "Homework" (JStr "soon")]
              [Cookies.record "HW 8" "homework" JNull]
              (JObj [("category", JStr "homework")])
              "Current" "" eq_refl) as [e He].
  - repeat constructor. eexists; eexists.
    split; [reflexivity|]. split; [reflexivity|].
    intros _; eexists; reflexivity.
  - intros (fields & s & Ef & Ec & Hn).
    injection Ef as <-. vm_compute in Ec. injection Ec as <-.
    destruct (Hn eq_refl) as [name Hname]. discriminate.
  - exists e. rewrite He. reflexivity.
Defined.
(** ** The callback as a whole *)

(** X22. When the cookies parse and the service answers with an object
    whose two lists hold records the printer can read, [submit_cookie]
    sends one request and leaves in the box the header and the homework
    of the current list followed by the header and the homework of the
    past list, and nothing of what the box held before. *)
Theorem submit_lists_current_then_past
        (fromisoformat : string -> option datetime)
        (strftime : datetime -> string) (lower : string -> string)
        (py_str : json -> string) (str_exn : exn -> string)
        (s : site) (box : string) (cookie_dict : list (string * string))
        (body data current past : json) (current_items past_items : list json) :
  parse_cookies (entry_field s) = inr cookie_dict ->
  service s (cookies_of cookie_dict) = inr body ->
  get_method body "data" (JObj []) = inr data ->
  get_method data "currentAssignments" (JArr []) = inr current ->
  get_method data "pastAssignments" (JArr []) = inr past ->
  py_iter current = inr current_items ->
  py_iter past = inr past_items ->
  Forall (readable lower) current_items ->
  Forall (readable lower) past_items ->
  submit_cookie fromisoformat strftime lower py_str str_exn s box
  = {| uncaught := None;
       output_box :=
         (header "Current"
          ++ text_of (map (line_of fromisoformat strftime py_str)
                          (filter (homework_record lower) current_items))
          ++ header "Past"
          ++ text_of (map (line_of fromisoformat strftime py_str)
                          (filter (homework_record lower) past_items)))%string;
       sent := [cookies_of cookie_dict] |}.
Proof.
  intros Hp Hs Hd Hc Hpast Hci Hpi Hcr Hpr.
  unfold submit_cookie. rewrite Hp, Hs, Hd.
  unfold show_assignments. rewrite Hc.
  unfold print_homework_assignments at 1. rewrite Hci.
  rewrite (print_items_readable fromisoformat strftime py_str Hcr).
  rewrite Hpast.
  unfold print_homework_assignments. rewrite Hpi.
  rewrite (print_items_readable fromisoformat strftime py_str Hpr).
  cbn [option_map]. f_equal.
  cbn [String.append]. now rewrite !string_app_assoc.
Qed.

Lemma submit_lists_current_then_past_witness :
  submit_cookie IsoFormat.fromisoformat Cookies.strftime Cookies.lower
                py_str_ref Cookies.str_exn
                (Cookies.quiet_site "UserPass=abc" (inr Cookies.listing))
                "Error: <exception>"
  = {| uncaught := None;
       output_box :=
         (header "Current" ++ "HW 7 | Due: soon" ++ nl
          ++ header "Past" ++ "HW 1 | Due: None" ++ nl)%string;
       sent := [cookies_of [("UserPass", "abc")]] |}.
Proof.
  assert (Hr : forall name category due,
             readable Cookies.lower (Cookies.record name category due)).
  { intros name category due. eexists. exists category.
    split; [reflexivity|]. split; [reflexivity|].
    intros _. eexists. reflexivity. }
  rewrite (@submit_lists_current_then_past IsoFormat.fromisoformat
             Cookies.strftime Cookies.lower py_str_ref Cookies.str_exn
             (Cookies.quiet_site "UserPass=abc" (inr Cookies.listing))
             "Error: <exception>" [("UserPass", "abc")]
             Cookies.listing _ _ _ _ _
             eq_refl eq_refl eq_refl eq_refl eq_refl eq_refl eq_refl).
  - vm_compute. reflexivity.
  - repeat constructor; apply Hr.
  - repeat constructor. eexists. exists "homework".
    split; [reflexivity|]. split; [reflexivity|].
    intros _. eexists. reflexivity.
Defined.
